(** * jedi-language-server: the request handlers of [server.py]

    A shallow embedding of [jedi_language_server/server.py] and the
    properties its specification states about it.

    The server is glue: every handler reads the server object, asks the
    analysis engine (jedi) one or two questions and translates the answers
    to LSP types.  The engine, the LSP framework (pygls) and the helper
    modules [jedi_utils], [pygls_utils], [text_edit_utils] and
    [initialization_options] are not part of [server.py]; they appear here
    as interfaces (type classes) whose operations the handlers call.
    Handlers run in a small state-and-exception monad over the server
    object and a trace of what the server did to the outside world (engine
    queries, notifications sent to the client). *)

From Stdlib Require Import ZArith String Ascii List Lia Bool.
From stdpp Require Import base option list strings gmap.

Local Open Scope string_scope.

(** * Python built-ins used by [server.py] *)

Module Py.

(** Exceptions that [server.py] names or that its own expressions can
    raise. *)
Inductive exn : Type :=
| RefactoringError
| AttributeError
| IndexError
| TypeError
| ValueError
| ValidationError (text : string)
| Exception (text : string).

(** The outcome of evaluating a Python expression or call. *)
Inductive outcome (A : Type) : Type :=
| Returned (a : A)
| Raised (e : exn).
Arguments Returned {A} a.
Arguments Raised {A} e.

(** [bool(s)] for a [str] or [None]: empty strings and [None] are falsy. *)
Definition truthy_str (s : option string) : bool :=
  match s with
  | Some (String _ _) => true
  | _ => false
  end.

(** [s.startswith(p)]. *)
Definition startswith (s p : string) : bool := String.prefix p s.

(** [sub in s] for strings: [sub] occurs at some offset of [s]. *)
Fixpoint contains (sub s : string) : bool :=
  String.prefix sub s ||
  match s with
  | EmptyString => false
  | String _ rest => contains sub rest
  end.

(** [x in xs] for lists, by equality. *)
Definition elem `{EqDecision A} (x : A) (xs : list A) : bool :=
  bool_decide (x ∈ xs).

(** [str(n)] for a natural number: its decimal digits, most significant
    first, without leading zeros. *)
Definition digit_char (d : nat) : ascii := ascii_of_nat (48 + d).

Fixpoint digits_go (fuel n : nat) : list nat :=
  match fuel with
  | 0 => []
  | S fuel' =>
      if (n <? 10)%nat then [n]
      else digits_go fuel' (n / 10) ++ [n mod 10]
  end.

Definition digits (n : nat) : list nat := digits_go (S n) n.

(** A list of digits as text, and the number it denotes. *)
Definition render (ds : list nat) : string :=
  string_of_list_ascii (map digit_char ds).

Fixpoint value (ds : list nat) : nat :=
  match ds with
  | [] => 0
  | d :: rest => d * 10 ^ length rest + value rest
  end.

Definition str (n : nat) : string := render (digits n).

(** The digits of [i] behind zeros, [w] wide when [i] has at most [w]
    digits: what [str(i).zfill(w)] spells. *)
Definition padded (w i : nat) : list nat :=
  (replicate (w - length (digits i)) 0 ++ digits i)%list.

(** [s.zfill(width)]: pad with ['0'] on the left up to [width]; a leading
    sign stays in front of the padding. *)
Fixpoint zeros (k : nat) : string :=
  match k with
  | 0 => EmptyString
  | S k' => String "0"%char (zeros k')
  end.

Definition is_sign (c : ascii) : bool :=
  (Ascii.eqb c "+"%char || Ascii.eqb c "-"%char)%bool.

Definition zfill (s : string) (width : nat) : string :=
  let pad := zeros (width - String.length s) in
  match s with
  | String c rest =>
      if is_sign c then String c (pad ++ rest) else pad ++ s
  | EmptyString => pad
  end.

(** [s < t] on strings is the lexicographic order on code points, which
    is [String.ltb]. *)
Definition str_lt (s t : string) : bool := String.ltb s t.

(** [xs if xs else None]: an empty list is falsy. *)
Definition or_none {A} (xs : list A) : option (list A) :=
  match xs with
  | [] => None
  | _ :: _ => Some xs
  end.

(** [xs[i]] raises [IndexError] out of range. *)
Definition subscript {A} (xs : list A) (i : nat) : outcome A :=
  match xs !! i with
  | Some x => Returned x
  | None => Raised IndexError
  end.

(** The number that a text of decimal digits denotes; [None] when the
    text is empty or holds a character that is not a digit. *)
Definition digit_of (c : ascii) : option nat :=
  let n := nat_of_ascii c in
  if ((48 <=? n) && (n <=? 57))%nat then Some (n - 48) else None.

Fixpoint decimal_go (acc : nat) (s : string) : option nat :=
  match s with
  | EmptyString => Some acc
  | String c rest =>
      match digit_of c with
      | Some d => decimal_go (10 * acc + d) rest
      | None => None
      end
  end.

Definition decimal_value (s : string) : option nat :=
  match s with
  | EmptyString => None
  | String _ _ => decimal_go 0 s
  end.

(** [sys.maxsize], the largest [Py_ssize_t]: [2**63 - 1] on a 64-bit
    platform. *)
Definition maxsize : Z := 2 ^ 63 - 1.

(** The check of the stop argument of [itertools.islice(iterable, stop)],
    made when the slice is built and before anything is pulled from the
    iterable: an integer outside [0 <= stop <= sys.maxsize] raises
    [ValueError]. *)
Definition islice_stop (stop : Z) : outcome nat :=
  if ((stop <? 0) || (maxsize <? stop))%Z then Raised ValueError
  else Returned (Z.to_nat stop).

End Py.

(** * LSP wire types ([pygls.lsp.types]) that [server.py] builds or reads *)

Module lsp.

Inductive MarkupKind : Type := PlainText | Markdown.

#[global] Instance MarkupKind_eq_dec : EqDecision MarkupKind.
Proof. solve_decision. Defined.

Inductive MessageType : Type := Error | Warning | Info | Log.

Inductive CodeActionKind : Type := RefactorInline | RefactorExtract.

#[global] Instance CodeActionKind_eq_dec : EqDecision CodeActionKind.
Proof. solve_decision. Defined.

Record Position : Type := mkPosition { line : nat; character : nat }.

Record Range : Type := mkRange { start : Position; end_ : Position }.

Record TextDocumentIdentifier : Type := mkTextDocument { uri : string }.

(** Parameters carrying only a document: [DocumentSymbolParams] and the
    four [Did*TextDocumentParams] (server.py reads nothing else of them). *)
Record TextDocumentParams : Type :=
  mkTextDocumentParams { text_document : TextDocumentIdentifier }.

Module TextDocumentPositionParams.
Record t : Type :=
  mk { text_document : TextDocumentIdentifier; position : Position }.
End TextDocumentPositionParams.

Module RenameParams.
Record t : Type :=
  mk { text_document : TextDocumentIdentifier;
       position : Position;
       new_name : string }.
End RenameParams.

Module CodeActionParams.
Record t : Type :=
  mk { text_document : TextDocumentIdentifier; range : Range }.
End CodeActionParams.

Record WorkspaceSymbolParams : Type := mkWorkspaceSymbolParams { query : string }.

(** The three client capabilities [server.py] looks up; [None] is a
    capability the client did not declare. *)
Record ClientCapabilities : Type := mkClientCapabilities {
  snippet_support : option bool;
  documentation_format : option (list MarkupKind);
  hierarchical_document_symbol_support : option bool
}.

(** [ClientCapabilities.get_capability(path, default)]. *)
Definition get_capability {A} (field : option A) (default : A) : A :=
  match field with
  | Some v => v
  | None => default
  end.

Record MarkupContent : Type := mkMarkupContent { kind : MarkupKind; value : string }.

Record ParameterInformation : Type := mkParameterInformation { label : string }.

Module SignatureInformation.
Record t : Type :=
  mk { label : string;
       documentation : MarkupContent;
       parameters : list ParameterInformation }.
End SignatureInformation.

Record SignatureHelp : Type := mkSignatureHelp {
  signatures : list SignatureInformation.t;
  active_signature : nat;
  active_parameter : option nat
}.

Module DocumentHighlight.
Record t : Type := mk { range : Range }.
End DocumentHighlight.

Module Hover.
Record t : Type := mk { contents : MarkupContent; range : option Range }.
End Hover.

Record CompletionList (CompletionItem : Type) : Type := mkCompletionList {
  is_incomplete : bool;
  items : list CompletionItem
}.
Arguments mkCompletionList {CompletionItem} _ _.
Arguments is_incomplete {CompletionItem} _.
Arguments items {CompletionItem} _.

Record WorkspaceEdit (DocumentChange : Type) : Type := mkWorkspaceEdit {
  document_changes : list DocumentChange
}.
Arguments mkWorkspaceEdit {DocumentChange} _.
Arguments document_changes {DocumentChange} _.

Record CodeAction (DocumentChange : Type) : Type := mkCodeAction {
  title : string;
  action_kind : CodeActionKind;
  edit : WorkspaceEdit DocumentChange
}.
Arguments mkCodeAction {DocumentChange} _ _ _.
Arguments title {DocumentChange} _.
Arguments action_kind {DocumentChange} _.
Arguments edit {DocumentChange} _.

(** Method names ([pygls.lsp.methods]). *)
Definition COMPLETION_ITEM_RESOLVE := "completionItem/resolve".
Definition COMPLETION := "textDocument/completion".
Definition SIGNATURE_HELP := "textDocument/signatureHelp".
Definition DEFINITION := "textDocument/definition".
Definition TYPE_DEFINITION := "textDocument/typeDefinition".
Definition DOCUMENT_HIGHLIGHT := "textDocument/documentHighlight".
Definition HOVER := "textDocument/hover".
Definition REFERENCES := "textDocument/references".
Definition DOCUMENT_SYMBOL := "textDocument/documentSymbol".
Definition WORKSPACE_SYMBOL := "workspace/symbol".
Definition RENAME := "textDocument/rename".
Definition CODE_ACTION := "textDocument/codeAction".
Definition WORKSPACE_DID_CHANGE_CONFIGURATION := "workspace/didChangeConfiguration".
Definition TEXT_DOCUMENT_DID_OPEN := "textDocument/didOpen".
Definition TEXT_DOCUMENT_DID_CHANGE := "textDocument/didChange".
Definition TEXT_DOCUMENT_DID_SAVE := "textDocument/didSave".
Definition TEXT_DOCUMENT_DID_CLOSE := "textDocument/didClose".

End lsp.

(** * What is outside [server.py] *)

(** ** Compiled regular expressions ([re.Pattern]) *)

Module re.
Class Api : Type := {
  Pattern : Type;
  (** [pattern.match(text)], read for its truth value. *)
  match_ : Pattern -> string -> bool
}.
End re.

(** ** Untyped JSON-like values ([typing.Any]) *)

Module json.
Class Api : Type := {
  Any : Type;
  (** the dict literal [{}] *)
  empty_dict : Any
}.
End json.

(** ** The user's options ([initialization_options.py])

    The fields are the attributes [server.py] reads. *)

Module initialization_options.

Record Diagnostics : Type := mkDiagnostics {
  enable : bool;
  did_open : bool;
  did_save : bool;
  did_change : bool
}.

Record Hover : Type := mkHover { hover_enable : bool }.

Record Completion `{re.Api} : Type := mkCompletion {
  disable_snippets : bool;
  resolve_eagerly : bool;
  ignore_patterns : list re.Pattern
}.
Arguments mkCompletion {_} _ _ _.

Record Symbols : Type := mkSymbols {
  ignore_folders : list string;
  max_symbols : Z
}.

Record Workspace : Type := mkWorkspace {
  extra_paths : list string;
  environment_path : option string;
  symbols : Symbols
}.

Record CodeAction : Type := mkCodeAction {
  name_extract_variable : string;
  name_extract_function : string
}.

Record InitializationOptions `{re.Api} : Type := mkInitializationOptions {
  code_action : CodeAction;
  completion : Completion;
  diagnostics : Diagnostics;
  hover : Hover;
  markup_kind_preferred : option lsp.MarkupKind;
  workspace : Workspace
}.
Arguments mkInitializationOptions {_} _ _ _ _ _ _.

(** The two ways [server.py] builds the options: [parse_obj], which
    raises [ValidationError] on input that does not validate, and the
    constructor without arguments, which gives the defaults. *)
Class Api `{re.Api, json.Api} : Type := {
  parse_obj : json.Any -> Py.outcome InitializationOptions;
  defaults : InitializationOptions
}.

End initialization_options.

(** ** The analysis engine ([jedi]) *)

Module jedi.

(** [jedi.Project], by the arguments of its constructor. *)
Record Project : Type := mkProject {
  path : string;
  environment_path : option string;
  added_sys_path : list string;
  smart_sys_path : bool;
  load_unsafe_extensions : bool
}.

(** The keyword arguments of the two extract refactorings. *)
Record extract_range : Type := mkExtractRange {
  line : Z;
  column : Z;
  until_line : Z;
  until_column : Z
}.

Class Api : Type := {
  Script : Type;
  Name : Type;
  Completion : Type;
  Signature : Type;
  ParamName : Type;
  SyntaxError : Type;
  Refactoring : Type;
  (** attributes of result objects *)
  name : Completion -> string;
  type : Name -> string;
  module_path : Name -> option string;
  docstring : Signature -> bool -> string;
  params : Signature -> list ParamName;
  to_string : ParamName -> string;
  index : Signature -> option nat;
  (** queries on a script *)
  complete : Script -> Z -> Z -> list Completion;
  get_signatures : Script -> Z -> Z -> list Signature;
  goto : Script -> Z -> Z -> bool -> bool -> list Name;
  infer : Script -> Z -> Z -> list Name;
  get_references : Script -> Z -> Z -> option string -> list Name;
  (** [help] raises [ValueError] for a column past the end of its line;
      it is the one query [server.py] asks at a column of its own
      making *)
  help : Script -> Z -> Z -> Py.outcome (list Name);
  get_names : Script -> bool -> bool -> list Name;
  get_syntax_errors : Script -> list SyntaxError;
  (** refactorings, which raise when they do not apply *)
  rename : Script -> Z -> Z -> string -> Py.outcome Refactoring;
  inline : Script -> Z -> Z -> Py.outcome Refactoring;
  extract_variable : Script -> string -> extract_range -> Py.outcome Refactoring;
  extract_function : Script -> string -> extract_range -> Py.outcome Refactoring;
  (** project-wide search *)
  complete_search : Project -> string -> list Name
}.

End jedi.

(** ** The LSP framework ([pygls]) *)

Module pygls.

Class Api `{json.Api} : Type := {
  Document : Type;
  Workspace : Type;
  InitializeParams : Type;
  InitializeResult : Type;
  (** LSP result types that the helper modules build *)
  CompletionItem : Type;
  Location : Type;
  SymbolInformation : Type;
  DocumentSymbol : Type;
  Diagnostic : Type;
  DocumentChange : Type;
  root_path : Workspace -> option string;
  get_document : Workspace -> string -> Document;
  initialization_options : InitializeParams -> option json.Any;
  (** [LanguageServerProtocol.lsp_initialize], the method that
      [JediLanguageServerProtocol] overrides: it sets up the workspace
      and the client capabilities and computes the reply. *)
  lsp_initialize :
    InitializeParams -> Workspace * lsp.ClientCapabilities * InitializeResult;
  (** the framework's own text synchronisation, applied to the workspace
      before a registered feature runs; [None] stands for a message
      without a document *)
  text_sync : string -> option string -> Workspace -> Workspace
}.

End pygls.

(** ** The sibling modules [jedi_utils], [pygls_utils], [text_edit_utils] *)

Module jedi_utils.
Class Api `{re.Api, json.Api, jedi.Api, pygls.Api} : Type := {
  script : option jedi.Project -> pygls.Document -> jedi.Script;
  line_column : lsp.Position -> Z * Z;
  line_column_range : lsp.Range -> jedi.extract_range;
  is_import : jedi.Script -> Z -> Z -> bool;
  lsp_completion_item :
    jedi.Completion -> option string -> bool -> bool -> lsp.MarkupKind ->
    string -> pygls.CompletionItem;
  lsp_completion_item_resolve :
    pygls.CompletionItem -> lsp.MarkupKind -> pygls.CompletionItem;
  signature_string : jedi.Signature -> string;
  convert_docstring : string -> lsp.MarkupKind -> string;
  lsp_location : jedi.Name -> option pygls.Location;
  lsp_range : jedi.Name -> option lsp.Range;
  hover_text :
    list jedi.Name -> lsp.MarkupKind ->
    initialization_options.InitializationOptions -> option string;
  lsp_document_symbols : list jedi.Name -> list pygls.DocumentSymbol;
  lsp_symbol_information : jedi.Name -> option pygls.SymbolInformation;
  lsp_diagnostic : jedi.SyntaxError -> pygls.Diagnostic
}.
End jedi_utils.

Module pygls_utils.
Class Api `{json.Api, pygls.Api} : Type := {
  char_before_cursor : pygls.Document -> lsp.Position -> option string;
  current_word_range : pygls.Document -> lsp.Position -> option lsp.Range
}.
End pygls_utils.

Module text_edit_utils.
Class Api `{json.Api, jedi.Api, pygls.Api} : Type := {
  lsp_document_changes :
    pygls.Workspace -> jedi.Refactoring -> list pygls.DocumentChange
}.
End text_edit_utils.

(** * The server: state, effects and handlers of [server.py] *)

Module server.

Import Py lsp.

(** The functions that [server.py] registers as features. *)
Module fn.
Inductive t : Type :=
| completion_item_resolve
| completion
| signature_help
| definition
| type_definition
| highlight
| hover
| references
| document_symbol
| workspace_symbol
| rename
| code_action
| did_change_configuration
| did_save_diagnostics
| did_save_default
| did_change_diagnostics
| did_change_default
| did_open_diagnostics
| did_open_default
| did_close_diagnostics
| did_close_default.

#[global] Instance eq_dec : EqDecision t.
Proof. solve_decision. Defined.
End fn.

Section handlers.

Context {RE : re.Api} {JSON : json.Api} {OPT : initialization_options.Api}
        {JEDI : jedi.Api} {PYGLS : pygls.Api}
        {JU : jedi_utils.Api} {PU : pygls_utils.Api}
        {TEU : text_edit_utils.Api}.

Abbreviation InitializationOptions := initialization_options.InitializationOptions.

(** [JediLanguageServer]: the two attributes the class declares, and the
    attributes of [LanguageServer] that the handlers read. *)
Record JediLanguageServer : Type := mkServer {
  initialization_options : InitializationOptions;
  project : option jedi.Project;
  workspace : pygls.Workspace;
  client_capabilities : ClientCapabilities;
  features : gmap string fn.t
}.

(** A question put to the engine. *)
Inductive engine_query : Type :=
| QComplete (s : jedi.Script) (line column : Z)
| QGetSignatures (s : jedi.Script) (line column : Z)
| QGoto (s : jedi.Script) (line column : Z)
| QInfer (s : jedi.Script) (line column : Z)
| QGetReferences (s : jedi.Script) (line column : Z) (scope : option string)
| QHelp (s : jedi.Script) (line column : Z)
| QGetNames (s : jedi.Script)
| QGetSyntaxErrors (s : jedi.Script)
| QRename (s : jedi.Script) (line column : Z) (new_name : string)
| QInline (s : jedi.Script) (line column : Z)
| QExtractVariable (s : jedi.Script) (new_name : string) (r : jedi.extract_range)
| QExtractFunction (s : jedi.Script) (new_name : string) (r : jedi.extract_range)
| QCompleteSearch (p : jedi.Project) (text : string).

(** What the server does to the outside world. *)
Inductive event : Type :=
| ShowMessage (msg : string) (msg_type : MessageType)
| ShowMessageLog (msg : string) (msg_type : MessageType)
| PublishDiagnostics (doc_uri : string) (diagnostics : list pygls.Diagnostic)
| SetJediSettings (options : InitializationOptions)
| ClearCompletionsCache
| Engine (q : engine_query).

Record World : Type := mkWorld {
  srv : JediLanguageServer;
  trace : list event
}.

(** ** The monad of handlers: state, trace and exceptions *)

Definition M (A : Type) : Type := World -> outcome A * World.

Definition ret {A} (a : A) : M A := fun w => (Returned a, w).

Definition bind {A B} (m : M A) (k : A -> M B) : M B :=
  fun w =>
    match m w with
    | (Returned a, w') => k a w'
    | (Raised e, w') => (Raised e, w')
    end.

Definition raise {A} (e : exn) : M A := fun w => (Raised e, w).

(** Read an attribute of the server object. *)
Definition attr {A} (f : JediLanguageServer -> A) : M A :=
  fun w => (Returned (f (srv w)), w).

Definition emit (ev : event) : M unit :=
  fun w => (Returned tt, mkWorld (srv w) (trace w ++ [ev])%list).

(** Evaluate something that may raise. *)
Definition lift {A} (o : outcome A) : M A := fun w => (o, w).

(** Ask the engine: the question is recorded, the engine's answer is the
    result. *)
Definition ask {A} (q : engine_query) (answer : outcome A) : M A :=
  bind (emit (Engine q)) (fun _ => lift answer).

(** [try: body / except <handles>: handler / else: orelse]. *)
Definition try_except {A B} (body : M A) (handles : exn -> bool)
    (handler : M B) (orelse : A -> M B) : M B :=
  fun w =>
    match body w with
    | (Returned a, w') => orelse a w'
    | (Raised e, w') => if handles e then handler w' else (Raised e, w')
    end.

#[global] Instance M_ret : MRet M := @ret.
#[global] Instance M_bind : MBind M := fun A B k m => bind m k.
#[global] Instance M_fmap : FMap M := fun A B f m => bind m (fun a => ret (f a)).

(** ** Helpers of [server.py] *)

(** [server.workspace.get_document(uri)]. *)
Definition get_document (doc_uri : string) : M pygls.Document :=
  attr (fun s => pygls.get_document (workspace s) doc_uri).

(** [jedi_utils.script(server.project, document)]. *)
Definition script (document : pygls.Document) : M jedi.Script :=
  attr (fun s => jedi_utils.script (project s) document).

Definition _choose_markup : M MarkupKind :=
  markup_preferred ← attr (fun s =>
    initialization_options.markup_kind_preferred (initialization_options s));
  markup_supported ← attr (fun s =>
    get_capability (documentation_format (client_capabilities s)) [PlainText]);
  match markup_preferred with
  | Some preferred =>
      if elem preferred markup_supported then ret preferred
      else lift (subscript markup_supported 0)
  | None => lift (subscript markup_supported 0)
  end.

Fixpoint _ignore_folder (path_check : string) (jedi_ignore_folders : list string) : bool :=
  match jedi_ignore_folders with
  | [] => false
  | ignore_folder :: rest =>
      if contains ("/" ++ ignore_folder ++ "/") path_check then true
      else _ignore_folder path_check rest
  end.

Definition _publish_diagnostics (doc_uri : string) : M unit :=
  document ← get_document doc_uri;
  jedi_script ← script document;
  errors ← ask (QGetSyntaxErrors jedi_script)
                (Returned (jedi.get_syntax_errors jedi_script));
  let diagnostics := map jedi_utils.lsp_diagnostic errors in
  emit (PublishDiagnostics doc_uri diagnostics).

(** ** Request handlers *)

Definition completion_item_resolve (params : pygls.CompletionItem)
    : M pygls.CompletionItem :=
  markup_kind ← _choose_markup;
  ret (jedi_utils.lsp_completion_item_resolve params markup_kind).

(** [str(count).zfill(total_completion_chars)]. *)
Definition sort_append_text (total_completion_chars count : nat) : string :=
  zfill (str count) total_completion_chars.

(** The completions that pass [ignore_patterns]; without patterns the
    raw completions are taken as they are. *)
Definition unignored_completions (ignore_patterns : list re.Pattern)
    (completions_jedi_raw : list jedi.Completion) : list jedi.Completion :=
  match ignore_patterns with
  | [] => completions_jedi_raw
  | _ :: _ =>
      List.filter
        (fun comp =>
           negb (existsb (fun i => re.match_ i (jedi.name comp)) ignore_patterns))
        completions_jedi_raw
  end.

Definition completion (params : TextDocumentPositionParams.t)
    : M (option (CompletionList pygls.CompletionItem)) :=
  snippet_disable ← attr (fun s =>
    initialization_options.disable_snippets
      (initialization_options.completion (initialization_options s)));
  resolve_eagerly ← attr (fun s =>
    initialization_options.resolve_eagerly
      (initialization_options.completion (initialization_options s)));
  ignore_patterns ← attr (fun s =>
    initialization_options.ignore_patterns
      (initialization_options.completion (initialization_options s)));
  document ← get_document (uri (TextDocumentPositionParams.text_document params));
  jedi_script ← script document;
  let jedi_lines := jedi_utils.line_column (TextDocumentPositionParams.position params) in
  completions_jedi_raw ←
    ask (QComplete jedi_script jedi_lines.1 jedi_lines.2)
        (Returned (jedi.complete jedi_script jedi_lines.1 jedi_lines.2));
  let completions_jedi :=
    unignored_completions ignore_patterns completions_jedi_raw in
  snippet_support ← attr (fun s =>
    get_capability (snippet_support (client_capabilities s)) false);
  markup_kind ← _choose_markup;
  let is_import_context :=
    jedi_utils.is_import jedi_script jedi_lines.1 jedi_lines.2 in
  let enable_snippets :=
    snippet_support && negb snippet_disable && negb is_import_context in
  document' ← get_document (uri (TextDocumentPositionParams.text_document params));
  let char_before_cursor :=
    pygls_utils.char_before_cursor document'
      (TextDocumentPositionParams.position params) in
  emit ClearCompletionsCache;;
  let total_completion_chars :=
    String.length (str (length completions_jedi_raw)) in
  let completion_items :=
    imap
      (fun count completion =>
         jedi_utils.lsp_completion_item completion char_before_cursor
           enable_snippets resolve_eagerly markup_kind
           (sort_append_text total_completion_chars count))
      completions_jedi in
  ret (match completion_items with
       | [] => None
       | _ :: _ => Some (mkCompletionList false completion_items)
       end).

Definition signature_help (params : TextDocumentPositionParams.t)
    : M (option SignatureHelp) :=
  document ← get_document (uri (TextDocumentPositionParams.text_document params));
  jedi_script ← script document;
  let jedi_lines := jedi_utils.line_column (TextDocumentPositionParams.position params) in
  signatures_jedi ←
    ask (QGetSignatures jedi_script jedi_lines.1 jedi_lines.2)
        (Returned (jedi.get_signatures jedi_script jedi_lines.1 jedi_lines.2));
  markup_kind ← _choose_markup;
  let signatures :=
    map
      (fun signature =>
         SignatureInformation.mk
           (jedi_utils.signature_string signature)
           (mkMarkupContent markup_kind
              (jedi_utils.convert_docstring
                 (jedi.docstring signature true) markup_kind))
           (map (fun info => mkParameterInformation (jedi.to_string info))
                (jedi.params signature)))
      signatures_jedi in
  ret (match signatures with
       | [] => None
       | _ :: _ =>
           Some (mkSignatureHelp signatures 0
                   (match signatures_jedi with
                    | first :: _ => jedi.index first
                    | [] => Some 0
                    end))
       end).

Definition definition (params : TextDocumentPositionParams.t)
    : M (option (list pygls.Location)) :=
  document ← get_document (uri (TextDocumentPositionParams.text_document params));
  jedi_script ← script document;
  let jedi_lines := jedi_utils.line_column (TextDocumentPositionParams.position params) in
  names ←
    ask (QGoto jedi_script jedi_lines.1 jedi_lines.2)
        (Returned (jedi.goto jedi_script jedi_lines.1 jedi_lines.2 true true));
  let definitions := omap jedi_utils.lsp_location names in
  ret (or_none definitions).

Definition type_definition (params : TextDocumentPositionParams.t)
    : M (option (list pygls.Location)) :=
  document ← get_document (uri (TextDocumentPositionParams.text_document params));
  jedi_script ← script document;
  let jedi_lines := jedi_utils.line_column (TextDocumentPositionParams.position params) in
  names ←
    ask (QInfer jedi_script jedi_lines.1 jedi_lines.2)
        (Returned (jedi.infer jedi_script jedi_lines.1 jedi_lines.2));
  let definitions := omap jedi_utils.lsp_location names in
  ret (or_none definitions).

Definition highlight (params : TextDocumentPositionParams.t)
    : M (option (list DocumentHighlight.t)) :=
  document ← get_document (uri (TextDocumentPositionParams.text_document params));
  jedi_script ← script document;
  let jedi_lines := jedi_utils.line_column (TextDocumentPositionParams.position params) in
  names ←
    ask (QGetReferences jedi_script jedi_lines.1 jedi_lines.2 (Some "file"))
        (Returned (jedi.get_references jedi_script jedi_lines.1 jedi_lines.2
                     (Some "file")));
  let lsp_ranges := map jedi_utils.lsp_range names in
  let highlight_names := omap (fmap DocumentHighlight.mk) lsp_ranges in
  ret (or_none highlight_names).

Definition hover (params : TextDocumentPositionParams.t) : M (option Hover.t) :=
  document ← get_document (uri (TextDocumentPositionParams.text_document params));
  jedi_script ← script document;
  let jedi_lines := jedi_utils.line_column (TextDocumentPositionParams.position params) in
  markup_kind ← _choose_markup;
  let column := if (jedi_lines.2 =? 0)%Z then 1%Z else jedi_lines.2 in
  names ←
    ask (QHelp jedi_script jedi_lines.1 column)
        (jedi.help jedi_script jedi_lines.1 column);
  options ← attr initialization_options;
  let hover_text := jedi_utils.hover_text names markup_kind options in
  match hover_text with
  | Some (String _ _ as text) =>
      let contents := mkMarkupContent markup_kind text in
      document' ← get_document (uri (TextDocumentPositionParams.text_document params));
      let _range :=
        pygls_utils.current_word_range document'
          (TextDocumentPositionParams.position params) in
      ret (Some (Hover.mk contents _range))
  | _ => ret None
  end.

Definition references (params : TextDocumentPositionParams.t)
    : M (option (list pygls.Location)) :=
  document ← get_document (uri (TextDocumentPositionParams.text_document params));
  jedi_script ← script document;
  let jedi_lines := jedi_utils.line_column (TextDocumentPositionParams.position params) in
  names ←
    ask (QGetReferences jedi_script jedi_lines.1 jedi_lines.2 None)
        (Returned (jedi.get_references jedi_script jedi_lines.1 jedi_lines.2 None));
  let locations := omap jedi_utils.lsp_location names in
  ret (or_none locations).

(** The two shapes of a [documentSymbol] reply. *)
Inductive document_symbols : Type :=
| Hierarchical (symbols : list pygls.DocumentSymbol)
| Flat (symbols : list pygls.SymbolInformation).

Definition document_symbol (params : TextDocumentParams)
    : M (option document_symbols) :=
  document ← get_document (uri (text_document params));
  jedi_script ← script document;
  names ←
    ask (QGetNames jedi_script)
        (Returned (jedi.get_names jedi_script true true));
  hierarchical ← attr (fun s =>
    get_capability
      (hierarchical_document_symbol_support (client_capabilities s)) false);
  if hierarchical : bool then
    let document_symbols := jedi_utils.lsp_document_symbols names in
    ret (Hierarchical <$> or_none document_symbols)
  else
    let symbol_information :=
      omap jedi_utils.lsp_symbol_information
        (List.filter
           (fun name => negb (String.eqb (jedi.type name) "param")) names) in
    ret (Flat <$> or_none symbol_information).

(** The condition of the [unignored_names] generator for one name.
    [str.startswith(None)] raises [TypeError]. *)
Definition unignored (workspace_root : option string)
    (ignore_folders : list string) (name : jedi.Name) : outcome bool :=
  match jedi.module_path name with
  | None => Returned false
  | Some module_path =>
      match workspace_root with
      | None => Raised TypeError
      | Some root =>
          Returned (startswith module_path root
                    && negb (_ignore_folder module_path ignore_folders))
      end
  end.

(** The generator pipeline [names -> unignored_names -> _symbols], consumed
    by [list(itertools.islice(_symbols, limit))] ([limit = Some k]) or by
    [list(_symbols)] ([limit = None]).  The generators are lazy: once
    [islice] has its [k] items nothing more is pulled from [names]. *)
Fixpoint take_symbols (limit : option nat) (workspace_root : option string)
    (ignore_folders : list string) (names : list jedi.Name)
    : outcome (list pygls.SymbolInformation) :=
  match limit, names with
  | Some 0, _ => Returned []
  | _, [] => Returned []
  | _, name :: rest =>
      match unignored workspace_root ignore_folders name with
      | Raised e => Raised e
      | Returned false => take_symbols limit workspace_root ignore_folders rest
      | Returned true =>
          match jedi_utils.lsp_symbol_information name with
          | None => take_symbols limit workspace_root ignore_folders rest
          | Some symbol =>
              match take_symbols (pred <$> limit) workspace_root
                      ignore_folders rest with
              | Returned symbols => Returned (symbol :: symbols)
              | Raised e => Raised e
              end
          end
      end
  end.

Definition workspace_symbol (params : WorkspaceSymbolParams)
    : M (option (list pygls.SymbolInformation)) :=
  server_project ← attr project;
  match server_project with
  | None => ret None
  | Some the_project =>
      names ←
        ask (QCompleteSearch the_project (query params))
            (Returned (jedi.complete_search the_project (query params)));
      workspace_root ← attr (fun s => pygls.root_path (workspace s));
      ignore_folders ← attr (fun s =>
        initialization_options.ignore_folders
          (initialization_options.symbols
             (initialization_options.workspace (initialization_options s))));
      max_symbols ← attr (fun s =>
        initialization_options.max_symbols
          (initialization_options.symbols
             (initialization_options.workspace (initialization_options s))));
      limit ←
        (if (0 <? max_symbols)%Z
         then stop ← lift (islice_stop max_symbols); ret (Some stop)
         else ret None);
      symbols ← lift (take_symbols limit workspace_root ignore_folders names);
      ret (or_none symbols)
  end.

Definition is_RefactoringError (e : exn) : bool :=
  match e with
  | RefactoringError => true
  | _ => false
  end.

Definition rename (params : RenameParams.t)
    : M (option (WorkspaceEdit pygls.DocumentChange)) :=
  document ← get_document (uri (RenameParams.text_document params));
  jedi_script ← script document;
  let jedi_lines := jedi_utils.line_column (RenameParams.position params) in
  try_except
    (ask (QRename jedi_script jedi_lines.1 jedi_lines.2 (RenameParams.new_name params))
         (jedi.rename jedi_script jedi_lines.1 jedi_lines.2
            (RenameParams.new_name params)))
    is_RefactoringError
    (ret None)
    (fun refactoring =>
       the_workspace ← attr workspace;
       let changes :=
         text_edit_utils.lsp_document_changes the_workspace refactoring in
       ret (match changes with
            | [] => None
            | _ :: _ => Some (mkWorkspaceEdit changes)
            end)).

(** [except (RefactoringError, AttributeError, IndexError)]. *)
Definition not_applicable (e : exn) : bool :=
  match e with
  | RefactoringError | AttributeError | IndexError => true
  | _ => false
  end.

(** One refactoring of [code_action]: the engine call under [try], the
    translation of its result in the [else] branch. *)
Definition refactoring_changes (call : M jedi.Refactoring)
    : M (list pygls.DocumentChange) :=
  try_except call not_applicable (ret [])
    (fun refactoring =>
       the_workspace ← attr workspace;
       ret (text_edit_utils.lsp_document_changes the_workspace refactoring)).

(** [code_actions.append(CodeAction(...))] under [if changes:]. *)
Definition append_action (code_actions : list (CodeAction pygls.DocumentChange))
    (action_title : string) (kind : CodeActionKind)
    (changes : list pygls.DocumentChange)
    : list (CodeAction pygls.DocumentChange) :=
  match changes with
  | [] => code_actions
  | _ :: _ =>
      (code_actions ++ [mkCodeAction action_title kind (mkWorkspaceEdit changes)])%list
  end.

Definition inline_title : string := "Inline variable".
Definition extract_variable_title (extract_var : string) : string :=
  "Extract expression into variable '" ++ extract_var ++ "'".
Definition extract_function_title (extract_func : string) : string :=
  "Extract expression into function '" ++ extract_func ++ "'".

Definition code_action (params : CodeActionParams.t)
    : M (option (list (CodeAction pygls.DocumentChange))) :=
  document ← get_document (uri (CodeActionParams.text_document params));
  jedi_script ← script document;
  let code_actions := [] in
  let jedi_lines :=
    jedi_utils.line_column (start (CodeActionParams.range params)) in
  let jedi_lines_extract :=
    jedi_utils.line_column_range (CodeActionParams.range params) in
  inline_changes ←
    refactoring_changes
      (if bool_decide (lsp.line (start (CodeActionParams.range params))
                       ≠ lsp.line (end_ (CodeActionParams.range params)))
       then raise RefactoringError
       else ask (QInline jedi_script jedi_lines.1 jedi_lines.2)
                (jedi.inline jedi_script jedi_lines.1 jedi_lines.2));
  let code_actions :=
    append_action code_actions inline_title RefactorInline inline_changes in
  extract_var ← attr (fun s =>
    initialization_options.name_extract_variable
      (initialization_options.code_action (initialization_options s)));
  extract_variable_changes ←
    refactoring_changes
      (ask (QExtractVariable jedi_script extract_var jedi_lines_extract)
           (jedi.extract_variable jedi_script extract_var jedi_lines_extract));
  let code_actions :=
    append_action code_actions (extract_variable_title extract_var)
      RefactorExtract extract_variable_changes in
  extract_func ← attr (fun s =>
    initialization_options.name_extract_function
      (initialization_options.code_action (initialization_options s)));
  extract_function_changes ←
    refactoring_changes
      (ask (QExtractFunction jedi_script extract_func jedi_lines_extract)
           (jedi.extract_function jedi_script extract_func jedi_lines_extract));
  let code_actions :=
    append_action code_actions (extract_function_title extract_func)
      RefactorExtract extract_function_changes in
  ret (or_none code_actions).

(** ** Notification handlers *)

Definition did_change_configuration : M unit := ret tt.

Definition did_save_diagnostics (params : TextDocumentParams) : M unit :=
  _publish_diagnostics (uri (text_document params)).

Definition did_save_default (params : TextDocumentParams) : M unit := ret tt.

Definition did_change_diagnostics (params : TextDocumentParams) : M unit :=
  _publish_diagnostics (uri (text_document params)).

Definition did_change_default (params : TextDocumentParams) : M unit := ret tt.

Definition did_open_diagnostics (params : TextDocumentParams) : M unit :=
  _publish_diagnostics (uri (text_document params)).

Definition did_open_default (params : TextDocumentParams) : M unit := ret tt.

Definition did_close_diagnostics (params : TextDocumentParams) : M unit :=
  emit (PublishDiagnostics (uri (text_document params)) []).

Definition did_close_default (params : TextDocumentParams) : M unit := ret tt.

(** ** Messages and their dispatch to the registered features *)

Inductive message : Type :=
| m_completion_item_resolve (params : pygls.CompletionItem)
| m_completion (params : TextDocumentPositionParams.t)
| m_signature_help (params : TextDocumentPositionParams.t)
| m_definition (params : TextDocumentPositionParams.t)
| m_type_definition (params : TextDocumentPositionParams.t)
| m_document_highlight (params : TextDocumentPositionParams.t)
| m_hover (params : TextDocumentPositionParams.t)
| m_references (params : TextDocumentPositionParams.t)
| m_document_symbol (params : TextDocumentParams)
| m_workspace_symbol (params : WorkspaceSymbolParams)
| m_rename (params : RenameParams.t)
| m_code_action (params : CodeActionParams.t)
| m_did_change_configuration
| m_did_open (params : TextDocumentParams)
| m_did_change (params : TextDocumentParams)
| m_did_save (params : TextDocumentParams)
| m_did_close (params : TextDocumentParams).

Inductive response : Type :=
| r_completion_item (result : pygls.CompletionItem)
| r_completion (result : option (CompletionList pygls.CompletionItem))
| r_signature_help (result : option SignatureHelp)
| r_locations (result : option (list pygls.Location))
| r_highlights (result : option (list DocumentHighlight.t))
| r_hover (result : option Hover.t)
| r_document_symbols (result : option document_symbols)
| r_symbols (result : option (list pygls.SymbolInformation))
| r_workspace_edit (result : option (WorkspaceEdit pygls.DocumentChange))
| r_code_actions (result : option (list (CodeAction pygls.DocumentChange)))
| r_none.

Definition method (msg : message) : string :=
  match msg with
  | m_completion_item_resolve _ => COMPLETION_ITEM_RESOLVE
  | m_completion _ => COMPLETION
  | m_signature_help _ => SIGNATURE_HELP
  | m_definition _ => DEFINITION
  | m_type_definition _ => TYPE_DEFINITION
  | m_document_highlight _ => DOCUMENT_HIGHLIGHT
  | m_hover _ => HOVER
  | m_references _ => REFERENCES
  | m_document_symbol _ => DOCUMENT_SYMBOL
  | m_workspace_symbol _ => WORKSPACE_SYMBOL
  | m_rename _ => RENAME
  | m_code_action _ => CODE_ACTION
  | m_did_change_configuration => WORKSPACE_DID_CHANGE_CONFIGURATION
  | m_did_open _ => TEXT_DOCUMENT_DID_OPEN
  | m_did_change _ => TEXT_DOCUMENT_DID_CHANGE
  | m_did_save _ => TEXT_DOCUMENT_DID_SAVE
  | m_did_close _ => TEXT_DOCUMENT_DID_CLOSE
  end.

Definition document_uri (msg : message) : option string :=
  match msg with
  | m_completion params | m_signature_help params | m_definition params
  | m_type_definition params | m_document_highlight params | m_hover params
  | m_references params =>
      Some (uri (TextDocumentPositionParams.text_document params))
  | m_document_symbol params | m_did_open params | m_did_change params
  | m_did_save params | m_did_close params =>
      Some (uri (text_document params))
  | m_rename params => Some (uri (RenameParams.text_document params))
  | m_code_action params => Some (uri (CodeActionParams.text_document params))
  | m_completion_item_resolve _ | m_workspace_symbol _
  | m_did_change_configuration => None
  end.

(** Calling a registered function on the parameters of a message. *)
Definition call (f : fn.t) (msg : message) : M response :=
  match f, msg with
  | fn.completion_item_resolve, m_completion_item_resolve params =>
      r_completion_item <$> completion_item_resolve params
  | fn.completion, m_completion params => r_completion <$> completion params
  | fn.signature_help, m_signature_help params =>
      r_signature_help <$> signature_help params
  | fn.definition, m_definition params => r_locations <$> definition params
  | fn.type_definition, m_type_definition params =>
      r_locations <$> type_definition params
  | fn.highlight, m_document_highlight params => r_highlights <$> highlight params
  | fn.hover, m_hover params => r_hover <$> hover params
  | fn.references, m_references params => r_locations <$> references params
  | fn.document_symbol, m_document_symbol params =>
      r_document_symbols <$> document_symbol params
  | fn.workspace_symbol, m_workspace_symbol params =>
      r_symbols <$> workspace_symbol params
  | fn.rename, m_rename params => r_workspace_edit <$> rename params
  | fn.code_action, m_code_action params => r_code_actions <$> code_action params
  | fn.did_change_configuration, m_did_change_configuration =>
      did_change_configuration;; ret r_none
  | fn.did_open_diagnostics, m_did_open params =>
      did_open_diagnostics params;; ret r_none
  | fn.did_open_default, m_did_open params => did_open_default params;; ret r_none
  | fn.did_change_diagnostics, m_did_change params =>
      did_change_diagnostics params;; ret r_none
  | fn.did_change_default, m_did_change params =>
      did_change_default params;; ret r_none
  | fn.did_save_diagnostics, m_did_save params =>
      did_save_diagnostics params;; ret r_none
  | fn.did_save_default, m_did_save params => did_save_default params;; ret r_none
  | fn.did_close_diagnostics, m_did_close params =>
      did_close_diagnostics params;; ret r_none
  | fn.did_close_default, m_did_close params =>
      did_close_default params;; ret r_none
  | _, _ => raise TypeError
  end.

(** The framework brings the workspace up to date, then runs the feature
    registered for the method of the message. *)
Definition sync_workspace (msg : message) : M unit :=
  fun w =>
    let s := srv w in
    (Returned tt,
     mkWorld
       (mkServer (initialization_options s) (project s)
          (pygls.text_sync (method msg) (document_uri msg) (workspace s))
          (client_capabilities s) (features s))
       (trace w)).

Definition dispatch (msg : message) : M response :=
  sync_workspace msg;;
  registered ← attr features;
  match registered !! method msg with
  | Some f => call f msg
  | None => raise (Exception "method not found")
  end.

(** The state after a sequence of messages; a handler that raises leaves
    the server as it was when it raised. *)
Definition handle_all (msgs : list message) (w : World) : World :=
  foldl (fun w msg => (dispatch msg w).2) w msgs.

(** ** Initialization *)

(** [server.feature(name)(f)]. *)
Definition feature (name : string) (f : fn.t) (registry : gmap string fn.t)
    : gmap string fn.t :=
  <[name := f]> registry.

(** The features that the module registers on [SERVER] when it is loaded. *)
Definition SERVER : gmap string fn.t :=
  feature WORKSPACE_DID_CHANGE_CONFIGURATION fn.did_change_configuration
  (feature CODE_ACTION fn.code_action
  (feature RENAME fn.rename
  (feature WORKSPACE_SYMBOL fn.workspace_symbol
  (feature DOCUMENT_SYMBOL fn.document_symbol
  (feature REFERENCES fn.references
  (feature DOCUMENT_HIGHLIGHT fn.highlight
  (feature TYPE_DEFINITION fn.type_definition
  (feature DEFINITION fn.definition
  (feature SIGNATURE_HELP fn.signature_help
  (feature COMPLETION fn.completion
  (feature COMPLETION_ITEM_RESOLVE fn.completion_item_resolve ∅))))))))))).

(** The [try]/[except ValidationError] at the head of [lsp_initialize]:
    the options adopted and the messages shown. *)
Definition options_object (params : pygls.InitializeParams) : json.Any :=
  match pygls.initialization_options params with
  | None => json.empty_dict
  | Some given => given
  end.

Definition read_initialization_options (params : pygls.InitializeParams)
    : outcome (InitializationOptions * list event) :=
  match initialization_options.parse_obj (options_object params) with
  | Returned options => Returned (options, [])
  | Raised (ValidationError error) =>
      let msg := "Invalid InitializationOptions, using defaults: " ++ error in
      Returned (initialization_options.defaults,
                [ShowMessage msg Error; ShowMessageLog msg Error])
  | Raised e => Raised e
  end.

(** The value assigned to [server.project]. *)
Definition new_project (options : InitializationOptions)
    (the_workspace : pygls.Workspace) : option jedi.Project :=
  match pygls.root_path the_workspace with
  | Some (String _ _ as root) =>
      Some (jedi.mkProject root
              (initialization_options.environment_path
                 (initialization_options.workspace options))
              (initialization_options.extra_paths
                 (initialization_options.workspace options))
              true false)
  | _ => None
  end.

(** The registrations that [lsp_initialize] adds to [SERVER]: the four
    text-document notifications, chosen by the diagnostics options, and
    hover if it is enabled. *)
Definition register_features (options : InitializationOptions)
    : gmap string fn.t :=
  let diagnostics := initialization_options.diagnostics options in
  let did_open :=
    if initialization_options.enable diagnostics
       && initialization_options.did_open diagnostics
    then fn.did_open_diagnostics else fn.did_open_default in
  let did_change :=
    if initialization_options.enable diagnostics
       && initialization_options.did_change diagnostics
    then fn.did_change_diagnostics else fn.did_change_default in
  let did_save :=
    if initialization_options.enable diagnostics
       && initialization_options.did_save diagnostics
    then fn.did_save_diagnostics else fn.did_save_default in
  let did_close :=
    if initialization_options.enable diagnostics
    then fn.did_close_diagnostics else fn.did_close_default in
  let registry :=
    feature TEXT_DOCUMENT_DID_CLOSE did_close
    (feature TEXT_DOCUMENT_DID_SAVE did_save
    (feature TEXT_DOCUMENT_DID_CHANGE did_change
    (feature TEXT_DOCUMENT_DID_OPEN did_open SERVER))) in
  if initialization_options.hover_enable (initialization_options.hover options)
  then feature HOVER fn.hover registry
  else registry.

(** [JediLanguageServerProtocol.lsp_initialize]: from the module-level
    [SERVER] to the initialized server and the reply. *)
Definition lsp_initialize (params : pygls.InitializeParams)
    : outcome (pygls.InitializeResult * World) :=
  match read_initialization_options params with
  | Raised e => Raised e
  | Returned (options, shown) =>
      let events := (shown ++ [SetJediSettings options])%list in
      let registry := register_features options in
      let '(the_workspace, capabilities, initialize_result) :=
        pygls.lsp_initialize params in
      let the_project := new_project options the_workspace in
      Returned (initialize_result,
                mkWorld
                  (mkServer options the_project the_workspace capabilities registry)
                  events)
  end.

(** ** Observations used to state the properties *)

(** A computation that never assigns an attribute of the server. *)
Definition keeps_server {A} (m : M A) : Prop :=
  forall w, srv (m w).2 = srv w.

(** What was added to the trace between two worlds. *)
Definition new_events (before after : World) : list event :=
  drop (length (trace before)) (trace after).

(** The diagnostics published by a list of events. *)
Definition publications (events : list event)
    : list (string * list pygls.Diagnostic) :=
  omap (fun ev =>
          match ev with
          | PublishDiagnostics doc_uri diagnostics => Some (doc_uri, diagnostics)
          | _ => None
          end) events.

(** A name of the workspace that is not in an ignored folder: it has a
    module path, the path starts with the workspace root, and no ignored
    folder occurs in it as [/folder/]. *)
Definition in_workspace (root : string) (ignore_folders : list string)
    (name : jedi.Name) : bool :=
  match jedi.module_path name with
  | Some module_path =>
      startswith module_path root
      && forallb
           (fun folder => negb (contains ("/" ++ folder ++ "/") module_path))
           ignore_folders
  | None => false
  end.

(** [itertools.islice(xs, k)] for a positive [max_symbols], everything
    otherwise. *)
Definition up_to {A} (max_symbols : Z) (xs : list A) : list A :=
  if (0 <? max_symbols)%Z then take (Z.to_nat max_symbols) xs else xs.

(** The changes one refactoring of [code_action] contributes, given what
    the engine answered: none when the engine raised one of the three
    exceptions that [code_action] catches. *)
Definition changes_of (the_workspace : pygls.Workspace)
    (answer : outcome jedi.Refactoring) : outcome (list pygls.DocumentChange) :=
  match answer with
  | Returned refactoring =>
      Returned (text_edit_utils.lsp_document_changes the_workspace refactoring)
  | Raised e => if not_applicable e then Returned [] else Raised e
  end.



(** The diagnostics of a document as the server computes them. *)
Definition syntax_diagnostics (s : JediLanguageServer) (doc_uri : string)
    : list pygls.Diagnostic :=
  map jedi_utils.lsp_diagnostic
    (jedi.get_syntax_errors
       (jedi_utils.script (project s)
          (pygls.get_document (workspace s) doc_uri))).

(** The markup kind negotiated for a server, if there is one. *)
Definition markup_of (w : World) : outcome MarkupKind :=
  (_choose_markup (mkWorld (srv w) [])).1.

(** The questions put to the engine by a list of events. *)
Definition engine_queries (events : list event) : list engine_query :=
  omap (fun ev =>
          match ev with
          | Engine q => Some q
          | _ => None
          end) events.

(** A computation that only adds to the trace, and only events that
    [allowed] admits. *)
Definition emits {A} (allowed : event -> Prop) (m : M A) : Prop :=
  forall w,
    exists added,
      trace (m w).2 = (trace w ++ added)%list /\ Forall allowed added.

(** Events that stay inside the server: questions to the engine and the
    reset of the completion cache.  The others reach the client. *)
Definition internal (ev : event) : Prop :=
  match ev with
  | Engine _ | ClearCompletionsCache => True
  | _ => False
  end.

(** The four functions that publish diagnostics. *)
Definition publishes (f : fn.t) : bool :=
  match f with
  | fn.did_open_diagnostics | fn.did_change_diagnostics
  | fn.did_save_diagnostics | fn.did_close_diagnostics => true
  | _ => false
  end.

(** The function that serves a message once the server is initialized
    with [options]: the decorators of the module and the choices of
    [lsp_initialize], as a table. *)
Definition handler_for (options : InitializationOptions) (msg : message) : fn.t :=
  let diagnostics := initialization_options.diagnostics options in
  match msg with
  | m_completion_item_resolve _ => fn.completion_item_resolve
  | m_completion _ => fn.completion
  | m_signature_help _ => fn.signature_help
  | m_definition _ => fn.definition
  | m_type_definition _ => fn.type_definition
  | m_document_highlight _ => fn.highlight
  | m_hover _ => fn.hover
  | m_references _ => fn.references
  | m_document_symbol _ => fn.document_symbol
  | m_workspace_symbol _ => fn.workspace_symbol
  | m_rename _ => fn.rename
  | m_code_action _ => fn.code_action
  | m_did_change_configuration => fn.did_change_configuration
  | m_did_open _ =>
      if initialization_options.enable diagnostics
         && initialization_options.did_open diagnostics
      then fn.did_open_diagnostics else fn.did_open_default
  | m_did_change _ =>
      if initialization_options.enable diagnostics
         && initialization_options.did_change diagnostics
      then fn.did_change_diagnostics else fn.did_change_default
  | m_did_save _ =>
      if initialization_options.enable diagnostics
         && initialization_options.did_save diagnostics
      then fn.did_save_diagnostics else fn.did_save_default
  | m_did_close _ =>
      if initialization_options.enable diagnostics
      then fn.did_close_diagnostics else fn.did_close_default
  end.

(** Hover is the one message that is served only on request of the
    options. *)
Definition served (options : InitializationOptions) (msg : message) : bool :=
  match msg with
  | m_hover _ =>
      initialization_options.hover_enable (initialization_options.hover options)
  | _ => true
  end.

End handlers.
End server.

(** * A small concrete client, workspace and engine

    One instance of every interface above, used to run the handlers on
    concrete requests. *)

Module demo.

Import Py lsp.

(** Patterns match a literal prefix. *)
Definition re_api : re.Api :=
  {| re.Pattern := string; re.match_ := String.prefix |}.
#[local] Existing Instance re_api.

(** The option objects a client may send. *)
Inductive raw : Type :=
| raw_empty
| raw_quiet
| raw_malformed.

Definition json_api : json.Api := {| json.Any := raw; json.empty_dict := raw_empty |}.
#[local] Existing Instance json_api.

Definition default_options : initialization_options.InitializationOptions :=
  initialization_options.mkInitializationOptions
    (initialization_options.mkCodeAction "jls_extract_var" "jls_extract_def")
    (initialization_options.mkCompletion false false [])
    (initialization_options.mkDiagnostics true true true true)
    (initialization_options.mkHover true)
    None
    (initialization_options.mkWorkspace [] None
       (initialization_options.mkSymbols [".venv"; "__pycache__"] 20)).

(** Diagnostics only when a file is saved, completions without private
    names, Markdown preferred, at most one workspace symbol. *)
Definition quiet_options : initialization_options.InitializationOptions :=
  initialization_options.mkInitializationOptions
    (initialization_options.mkCodeAction "v" "f")
    (initialization_options.mkCompletion true false ["_"])
    (initialization_options.mkDiagnostics true false true false)
    (initialization_options.mkHover true)
    (Some Markdown)
    (initialization_options.mkWorkspace [] None
       (initialization_options.mkSymbols [".venv"] 1)).

Definition options_api : initialization_options.Api :=
  {| initialization_options.parse_obj := fun given =>
       match given with
       | raw_empty => Returned default_options
       | raw_quiet => Returned quiet_options
       | raw_malformed => Raised (ValidationError "value is not a valid dict")
       end;
     initialization_options.defaults := default_options |}.
#[local] Existing Instance options_api.

Record name : Type := mkName {
  name_text : string;
  name_type : string;
  name_module_path : option string
}.

Definition found : list name :=
  [ mkName "load" "function" (Some "/w/pkg/io.py");
    mkName "load" "function" (Some "/w/.venv/lib/site.py");
    mkName "len" "function" None;
    mkName "loads" "function" (Some "/usr/lib/python3/json.py");
    mkName "Loader" "class" (Some "/w/pkg/loader.py") ].

(** A script is the URI of its document and a refactoring is the list
    of its changes.  The engine knows the document ["a.py"], has only
    private completions for ["c.py"], and nothing for any other. *)
Definition jedi_api : jedi.Api :=
  {| jedi.Script := string;
     jedi.Name := name;
     jedi.Completion := string;
     jedi.Signature := string;
     jedi.ParamName := string;
     jedi.SyntaxError := nat;
     jedi.Refactoring := list string;
     jedi.name := fun c => c;
     jedi.type := name_type;
     jedi.module_path := name_module_path;
     jedi.docstring := fun s _ => s;
     jedi.params := fun s => [s];
     jedi.to_string := fun p => p;
     jedi.index := fun _ => Some 0;
     jedi.complete := fun s _ _ =>
       if String.eqb s "a.py" then ["alpha"; "_beta"; "gamma"]
       else if String.eqb s "c.py" then ["_private"; "__dunder__"]
       else [];
     jedi.get_signatures := fun s _ _ =>
       if String.eqb s "a.py" then ["f(x)"] else [];
     jedi.goto := fun s _ _ _ _ => if String.eqb s "a.py" then found else [];
     jedi.infer := fun s _ _ => if String.eqb s "a.py" then found else [];
     jedi.get_references := fun s _ _ _ =>
       if String.eqb s "a.py" then found else [];
     jedi.help := fun s _ _ =>
       Returned (if String.eqb s "a.py" then found else []);
     jedi.get_names := fun s _ _ => if String.eqb s "a.py" then found else [];
     jedi.get_syntax_errors := fun s => if String.eqb s "a.py" then [3] else [];
     jedi.rename := fun s _ _ new_name =>
       if String.eqb s "a.py"
       then Returned (if String.eqb new_name "load" then [] else [new_name])
       else Raised RefactoringError;
     jedi.inline := fun s _ _ => Raised RefactoringError;
     jedi.extract_variable := fun s new_name _ =>
       if String.eqb s "a.py" then Returned [new_name]
       else Raised RefactoringError;
     jedi.extract_function := fun s _ _ => Raised RefactoringError;
     jedi.complete_search := fun _ text =>
       if String.eqb text "len" then [mkName "len" "function" None] else found |}.
#[local] Existing Instance jedi_api.

Record initialize_params : Type := mkInitializeParams {
  given_options : option raw;
  given_capabilities : ClientCapabilities;
  given_root : option string
}.

(** A workspace is its root path; a document is its URI. *)
Definition pygls_api : pygls.Api :=
  {| pygls.Document := string;
     pygls.Workspace := option string;
     pygls.InitializeParams := initialize_params;
     pygls.InitializeResult := unit;
     pygls.CompletionItem := string * string;
     pygls.Location := string;
     pygls.SymbolInformation := string * string;
     pygls.DocumentSymbol := string;
     pygls.Diagnostic := nat;
     pygls.DocumentChange := string;
     pygls.root_path := fun ws => ws;
     pygls.get_document := fun _ doc_uri => doc_uri;
     pygls.initialization_options := given_options;
     pygls.lsp_initialize := fun params =>
       (given_root params, given_capabilities params, tt);
     pygls.text_sync := fun _ _ ws => ws |}.
#[local] Existing Instance pygls_api.

(** A completion item is the completion and its sort-append text; a
    symbol is a name and its module path. *)
Definition jedi_utils_api : jedi_utils.Api :=
  {| jedi_utils.script := fun _ document => document;
     jedi_utils.line_column := fun position =>
       ((Z.of_nat (lsp.line position) + 1)%Z, Z.of_nat (character position));
     jedi_utils.line_column_range := fun r =>
       jedi.mkExtractRange
         (Z.of_nat (lsp.line (start r)) + 1)%Z (Z.of_nat (character (start r)))
         (Z.of_nat (lsp.line (end_ r)) + 1)%Z (Z.of_nat (character (end_ r)));
     jedi_utils.is_import := fun _ _ _ => false;
     jedi_utils.lsp_completion_item := fun c _ _ _ _ sort_text => (c, sort_text);
     jedi_utils.lsp_completion_item_resolve := fun item _ => item;
     jedi_utils.signature_string := fun s => s;
     jedi_utils.convert_docstring := fun d _ => d;
     jedi_utils.lsp_location := name_module_path;
     jedi_utils.lsp_range := fun n =>
       match name_module_path n with
       | Some _ => Some (mkRange (mkPosition 0 0) (mkPosition 0 1))
       | None => None
       end;
     jedi_utils.hover_text := fun names _ _ =>
       match names with
       | n :: _ => Some (name_text n)
       | [] => None
       end;
     jedi_utils.lsp_document_symbols := map name_text;
     jedi_utils.lsp_symbol_information := fun n =>
       match name_module_path n with
       | Some p => Some (name_text n, p)
       | None => None
       end;
     jedi_utils.lsp_diagnostic := fun e => e |}.
#[local] Existing Instance jedi_utils_api.

Definition pygls_utils_api : pygls_utils.Api :=
  {| pygls_utils.char_before_cursor := fun _ _ => None;
     pygls_utils.current_word_range := fun _ _ => None |}.
#[local] Existing Instance pygls_utils_api.

Definition text_edit_utils_api : text_edit_utils.Api :=
  {| text_edit_utils.lsp_document_changes := fun _ refactoring => refactoring |}.
#[local] Existing Instance text_edit_utils_api.

Definition capabilities : ClientCapabilities :=
  mkClientCapabilities (Some true) (Some [PlainText; Markdown]) None.

(** Initialize requests: default options in workspace [/w], the quiet
    options, malformed options, one without a workspace root, and one
    from a client that declares no capability. *)
Definition init_default : initialize_params :=
  mkInitializeParams None capabilities (Some "/w").
Definition init_quiet : initialize_params :=
  mkInitializeParams (Some raw_quiet) capabilities (Some "/w").
Definition init_malformed : initialize_params :=
  mkInitializeParams (Some raw_malformed) capabilities (Some "/w").
Definition init_rootless : initialize_params :=
  mkInitializeParams None capabilities None.

(** The world after an initialize request (the empty world if it raised,
    which none of the five above does). *)
Definition nowhere : server.World :=
  server.mkWorld
    (server.mkServer default_options None None capabilities ∅) [].

Definition after (params : initialize_params) : server.World :=
  match server.lsp_initialize params with
  | Returned (_, w) => w
  | Raised _ => nowhere
  end.

Definition at_ (doc_uri : string) (l c : nat) : TextDocumentPositionParams.t :=
  TextDocumentPositionParams.mk (mkTextDocument doc_uri) (mkPosition l c).

Definition doc (doc_uri : string) : TextDocumentParams :=
  mkTextDocumentParams (mkTextDocument doc_uri).

Definition on_line (doc_uri : string) (l : nat) : CodeActionParams.t :=
  CodeActionParams.mk (mkTextDocument doc_uri)
    (mkRange (mkPosition l 0) (mkPosition l 4)).

(** The quiet server after a hover request. *)
Definition quiet_later : server.World :=
  server.handle_all [server.m_hover (at_ "a.py" 0 0)] (after init_quiet).

End demo.

(** * A second client and engine

    The options sent as [raw_quiet] switch diagnostics and hover off and
    ask for more symbols than [sys.maxsize], the parser fails on
    malformed options with an exception that is not a [ValidationError],
    and the engine fails in the ways [server.py] provides for, and in
    some it does not.  Everything else is as in [demo]. *)

Module faulty.

Import Py lsp.

#[local] Existing Instances demo.re_api demo.json_api demo.pygls_api
  demo.pygls_utils_api.

(** Diagnostics disabled although every event asks for them, hover
    disabled, an environment and an extra path for the project, and a
    limit of [2**63] workspace symbols. *)
Definition silent_options : initialization_options.InitializationOptions :=
  initialization_options.mkInitializationOptions
    (initialization_options.mkCodeAction "v" "f")
    (initialization_options.mkCompletion false false [])
    (initialization_options.mkDiagnostics false true true true)
    (initialization_options.mkHover false)
    None
    (initialization_options.mkWorkspace ["/lib"] (Some "/env")
       (initialization_options.mkSymbols [] (2 ^ 63))).

Definition options_api : initialization_options.Api :=
  {| initialization_options.parse_obj := fun given =>
       match given with
       | demo.raw_empty => Returned demo.default_options
       | demo.raw_quiet => Returned silent_options
       | demo.raw_malformed => Raised (Exception "unexpected keyword")
       end;
     initialization_options.defaults := demo.default_options |}.
#[local] Existing Instance options_api.

(** The queries are those of [demo]; the refactorings differ.  Rename
    fails with an engine error on ["a.py"]; inline is not applicable on
    ["a.py"] ([AttributeError]) and fails with an engine error on
    ["x.py"]; extract variable is not applicable on ["a.py"]
    ([IndexError]); every other refactoring applies.  The document
    ["b.py"] holds a single reference, and [help] fails on ["e.py"], a
    document of empty lines. *)
Definition jedi_api : jedi.Api :=
  {| jedi.Script := string;
     jedi.Name := demo.name;
     jedi.Completion := string;
     jedi.Signature := string;
     jedi.ParamName := string;
     jedi.SyntaxError := nat;
     jedi.Refactoring := list string;
     jedi.name := @jedi.name demo.jedi_api;
     jedi.type := @jedi.type demo.jedi_api;
     jedi.module_path := @jedi.module_path demo.jedi_api;
     jedi.docstring := @jedi.docstring demo.jedi_api;
     jedi.params := @jedi.params demo.jedi_api;
     jedi.to_string := @jedi.to_string demo.jedi_api;
     jedi.index := @jedi.index demo.jedi_api;
     jedi.complete := @jedi.complete demo.jedi_api;
     jedi.get_signatures := @jedi.get_signatures demo.jedi_api;
     jedi.goto := @jedi.goto demo.jedi_api;
     jedi.infer := @jedi.infer demo.jedi_api;
     jedi.get_references := fun s _ _ _ =>
       if String.eqb s "a.py" then demo.found
       else if String.eqb s "b.py"
       then [demo.mkName "load" "function" (Some "/w/pkg/io.py")]
       else [];
     jedi.help := fun s line column =>
       if String.eqb s "e.py" then Raised ValueError
       else @jedi.help demo.jedi_api s line column;
     jedi.get_names := @jedi.get_names demo.jedi_api;
     jedi.get_syntax_errors := @jedi.get_syntax_errors demo.jedi_api;
     jedi.rename := fun s _ _ new_name =>
       if String.eqb s "a.py" then Raised (Exception "engine failure")
       else Raised RefactoringError;
     jedi.inline := fun s _ _ =>
       if String.eqb s "a.py" then Raised AttributeError
       else if String.eqb s "x.py" then Raised (Exception "engine failure")
       else Returned ["inline"];
     jedi.extract_variable := fun s new_name _ =>
       if String.eqb s "a.py" then Raised IndexError
       else Returned [new_name];
     jedi.extract_function := fun s new_name _ => Returned [new_name];
     jedi.complete_search := @jedi.complete_search demo.jedi_api |}.
#[local] Existing Instance jedi_api.

Definition jedi_utils_api : jedi_utils.Api :=
  {| jedi_utils.script := fun _ document => document;
     jedi_utils.line_column := fun position =>
       ((Z.of_nat (lsp.line position) + 1)%Z, Z.of_nat (character position));
     jedi_utils.line_column_range := fun r =>
       jedi.mkExtractRange
         (Z.of_nat (lsp.line (start r)) + 1)%Z (Z.of_nat (character (start r)))
         (Z.of_nat (lsp.line (end_ r)) + 1)%Z (Z.of_nat (character (end_ r)));
     jedi_utils.is_import := fun _ _ _ => false;
     jedi_utils.lsp_completion_item := fun c _ _ _ _ sort_text => (c, sort_text);
     jedi_utils.lsp_completion_item_resolve := fun item _ => item;
     jedi_utils.signature_string := fun s => s;
     jedi_utils.convert_docstring := fun d _ => d;
     jedi_utils.lsp_location := demo.name_module_path;
     jedi_utils.lsp_range := fun n =>
       match demo.name_module_path n with
       | Some _ => Some (mkRange (mkPosition 0 0) (mkPosition 0 1))
       | None => None
       end;
     jedi_utils.hover_text := fun names _ _ =>
       match names with
       | n :: _ => Some (demo.name_text n)
       | [] => None
       end;
     jedi_utils.lsp_document_symbols := map demo.name_text;
     jedi_utils.lsp_symbol_information := fun n =>
       match demo.name_module_path n with
       | Some p => Some (demo.name_text n, p)
       | None => None
       end;
     jedi_utils.lsp_diagnostic := fun e => e |}.
#[local] Existing Instance jedi_utils_api.

Definition text_edit_utils_api : text_edit_utils.Api :=
  {| text_edit_utils.lsp_document_changes := fun _ refactoring => refactoring |}.
#[local] Existing Instance text_edit_utils_api.

(** Initialize requests: the silent options, malformed options, and a
    client that declares an empty list of documentation formats and
    hierarchical document symbols. *)
Definition init_silent : demo.initialize_params :=
  demo.mkInitializeParams (Some demo.raw_quiet) demo.capabilities (Some "/w").
Definition init_malformed : demo.initialize_params :=
  demo.mkInitializeParams (Some demo.raw_malformed) demo.capabilities (Some "/w").

Definition nowhere : server.World :=
  server.mkWorld
    (server.mkServer demo.default_options None None demo.capabilities ∅) [].

Definition after (params : demo.initialize_params) : server.World :=
  match server.lsp_initialize params with
  | Returned (_, w) => w
  | Raised _ => nowhere
  end.

(** A range from the start of line [l] into line [l'] of a document. *)
Definition lines (doc_uri : string) (l l' : nat) : CodeActionParams.t :=
  CodeActionParams.mk (mkTextDocument doc_uri)
    (mkRange (mkPosition l 0) (mkPosition l' 4)).

End faulty.

(** * Facts about the Python built-ins *)

Section py_facts.

Import Py.

Lemma digits_go_enough (n : nat) :
  forall fuel, n < fuel -> digits_go fuel n = digits_go (S n) n.
Proof.
  induction n as [n IH] using lt_wf_ind.
  intros [|fuel] Hlt; [lia|].
  cbn [digits_go].
  destruct (n <? 10)%nat eqn:Hsmall; [reflexivity|].
  apply Nat.ltb_ge in Hsmall.
  assert (Hdiv : n / 10 < n) by (apply Nat.div_lt; lia).
  rewrite (IH (n / 10) Hdiv fuel) by lia.
  rewrite (IH (n / 10) Hdiv n) by lia.
  reflexivity.
Qed.

Lemma digits_unfold (n : nat) :
  digits n = if (n <? 10)%nat then [n] else (digits (n / 10) ++ [n mod 10])%list.
Proof.
  unfold digits at 1. cbn [digits_go].
  destruct (n <? 10)%nat eqn:Hsmall; [reflexivity|].
  apply Nat.ltb_ge in Hsmall.
  rewrite (digits_go_enough (n / 10) n); [reflexivity|].
  apply Nat.div_lt; lia.
Qed.

Lemma digits_small (n : nat) : Forall (fun d => d < 10) (digits n).
Proof.
  induction n as [n IH] using lt_wf_ind.
  rewrite digits_unfold.
  destruct (n <? 10)%nat eqn:Hsmall.
  - apply Nat.ltb_lt in Hsmall. constructor; [exact Hsmall|constructor].
  - apply Nat.ltb_ge in Hsmall. apply Forall_app. split.
    + apply IH. apply Nat.div_lt; lia.
    + constructor; [|constructor]. apply Nat.mod_upper_bound. lia.
Qed.

Lemma digits_nonempty (n : nat) : 1 <= length (digits n).
Proof.
  rewrite digits_unfold. destruct (n <? 10)%nat; [cbn [length]; lia|].
  rewrite length_app. cbn [length]. lia.
Qed.

Lemma digits_length_mono (n : nat) :
  forall i, i <= n -> length (digits i) <= length (digits n).
Proof.
  induction n as [n IH] using lt_wf_ind.
  intros i Hle.
  rewrite (digits_unfold n).
  destruct (n <? 10)%nat eqn:Hn.
  - apply Nat.ltb_lt in Hn. rewrite digits_unfold.
    replace (i <? 10)%nat with true by (symmetry; apply Nat.ltb_lt; lia).
    reflexivity.
  - apply Nat.ltb_ge in Hn. rewrite length_app. cbn [length].
    rewrite (digits_unfold i).
    destruct (i <? 10)%nat eqn:Hi.
    + cbn [length]. pose proof (digits_nonempty (n / 10)). lia.
    + rewrite length_app. cbn [length].
      assert (length (digits (i / 10)) <= length (digits (n / 10))); [|lia].
      apply IH.
      * apply Nat.div_lt; lia.
      * apply Nat.Div0.div_le_mono. exact Hle.
Qed.

Lemma value_app (ds : list nat) (d : nat) :
  value (ds ++ [d]) = value ds * 10 + d.
Proof.
  induction ds as [|x ds IH]; simpl; [lia|].
  rewrite IH, length_app. simpl.
  rewrite Nat.add_1_r. rewrite Nat.pow_succ_r'. lia.
Qed.

Lemma value_digits (n : nat) : value (digits n) = n.
Proof.
  induction n as [n IH] using lt_wf_ind.
  rewrite digits_unfold.
  destruct (n <? 10)%nat eqn:Hn.
  - simpl. lia.
  - apply Nat.ltb_ge in Hn.
    rewrite value_app, IH by (apply Nat.div_lt; lia).
    pose proof (Nat.div_mod_eq n 10). lia.
Qed.

Lemma value_bound (ds : list nat) :
  Forall (fun d => d < 10) ds -> value ds < 10 ^ length ds.
Proof.
  induction 1 as [|d ds Hd _ IH]; simpl; [lia|].
  nia.
Qed.

Lemma value_zeros (k : nat) (ds : list nat) :
  value (replicate k 0 ++ ds) = value ds.
Proof. induction k as [|k IH]; simpl; [reflexivity|exact IH]. Qed.

Lemma render_length (ds : list nat) : String.length (render ds) = length ds.
Proof.
  unfold render. induction ds as [|d ds IH]; simpl; [reflexivity|].
  now rewrite IH.
Qed.

Lemma render_app (ds es : list nat) :
  render (ds ++ es) = (render ds ++ render es)%string.
Proof.
  unfold render. induction ds as [|d ds IH]; simpl; [reflexivity|].
  now rewrite IH.
Qed.

Lemma zeros_render (k : nat) : zeros k = render (replicate k 0).
Proof.
  unfold render. induction k as [|k IH]; simpl; [reflexivity|].
  now rewrite IH.
Qed.

Lemma digit_char_compare (a b : nat) :
  a < 10 -> b < 10 ->
  Ascii.compare (digit_char a) (digit_char b) = Nat.compare a b.
Proof.
  intros Ha Hb.
  do 10 (destruct a as [|a]; [do 10 (destruct b as [|b]; [reflexivity|]); lia|]).
  lia.
Qed.

Lemma digit_char_not_sign (d : nat) : d < 10 -> is_sign (digit_char d) = false.
Proof.
  intros Hd. do 10 (destruct d as [|d]; [reflexivity|]). lia.
Qed.

(** On digit strings of the same length the order of the texts is the
    order of the numbers. *)
Lemma render_compare (ds : list nat) :
  forall es,
    length ds = length es ->
    Forall (fun d => d < 10) ds -> Forall (fun d => d < 10) es ->
    String.compare (render ds) (render es) = Nat.compare (value ds) (value es).
Proof.
  induction ds as [|d ds IH]; intros [|e es] Hlen Hds Hes;
    try discriminate; [reflexivity|].
  injection Hlen as Hlen.
  apply Forall_cons in Hds as [Hd Hds]. apply Forall_cons in Hes as [He Hes].
  change (render (d :: ds)) with (String (digit_char d) (render ds)).
  change (render (e :: es)) with (String (digit_char e) (render es)).
  cbn [String.compare value].
  rewrite digit_char_compare by assumption.
  pose proof (value_bound ds Hds) as Bd. pose proof (value_bound es Hes) as Be.
  rewrite <- Hlen in *.
  destruct (Nat.compare_spec d e) as [Heq|Hlt|Hgt].
  - subst e. rewrite (IH es Hlen Hds Hes).
    destruct (Nat.compare_spec (value ds) (value es));
      symmetry; [apply Nat.compare_eq_iff|apply Nat.compare_lt_iff
                |apply Nat.compare_gt_iff]; lia.
  - symmetry. apply Nat.compare_lt_iff. nia.
  - symmetry. apply Nat.compare_gt_iff. nia.
Qed.

Lemma zfill_str (w i : nat) : zfill (str i) w = render (padded w i).
Proof.
  unfold str, padded.
  rewrite render_app, <- zeros_render, <- (render_length (digits i)).
  pose proof (digits_nonempty i) as Hne. pose proof (digits_small i) as Hsm.
  destruct (digits i) as [|d ds] eqn:Hd; [simpl in Hne; lia|].
  apply Forall_cons in Hsm as [Hd10 _].
  change (render (d :: ds)) with (String (digit_char d) (render ds)).
  unfold zfill. now rewrite digit_char_not_sign.
Qed.

Lemma padded_small (w i : nat) : Forall (fun d => d < 10) (padded w i).
Proof.
  unfold padded. apply Forall_app. split; [|apply digits_small].
  apply Forall_forall. intros d Hd. apply elem_of_replicate in Hd as [-> _]. lia.
Qed.

Lemma padded_value (w i : nat) : value (padded w i) = i.
Proof. unfold padded. now rewrite value_zeros, value_digits. Qed.

Lemma padded_length (w i : nat) :
  length (digits i) <= w -> length (padded w i) = w.
Proof. intros H. unfold padded. rewrite length_app, length_replicate. lia. Qed.

Lemma zfill_str_length (n i : nat) :
  i <= n -> String.length (zfill (str i) (String.length (str n))) = String.length (str n).
Proof.
  intros Hle. rewrite zfill_str, render_length. unfold str. rewrite render_length.
  apply padded_length, digits_length_mono, Hle.
Qed.

Lemma zfill_str_compare (n i j : nat) :
  i <= n -> j <= n ->
  String.compare (zfill (str i) (String.length (str n)))
                 (zfill (str j) (String.length (str n)))
  = Nat.compare i j.
Proof.
  intros Hi Hj. rewrite !zfill_str. unfold str. rewrite render_length.
  rewrite render_compare.
  - now rewrite !padded_value.
  - rewrite !padded_length; auto using digits_length_mono.
  - apply padded_small.
  - apply padded_small.
Qed.

Lemma zfill_str_lt (n i j : nat) :
  i <= n -> j <= n ->
  str_lt (zfill (str i) (String.length (str n)))
         (zfill (str j) (String.length (str n))) = true <-> i < j.
Proof.
  intros Hi Hj. unfold str_lt, String.ltb.
  rewrite zfill_str_compare by assumption.
  destruct (Nat.compare_spec i j); split; intros; try lia; discriminate.
Qed.

End py_facts.

(** * Properties of the handlers *)

Section properties.

Import Py lsp server.

Context {RE : re.Api} {JSON : json.Api} {OPT : initialization_options.Api}
        {JEDI : jedi.Api} {PYGLS : pygls.Api}
        {JU : jedi_utils.Api} {PU : pygls_utils.Api}
        {TEU : text_edit_utils.Api}.

(** ** Handlers leave the server object alone *)

Lemma keeps_ret {A} (a : A) : keeps_server (mret a).
Proof. intros w. reflexivity. Qed.

Lemma keeps_raise {A} (e : exn) : keeps_server (@raise _ _ _ _ A e).
Proof. intros w. reflexivity. Qed.

Lemma keeps_attr {A} (f : JediLanguageServer -> A) : keeps_server (attr f).
Proof. intros w. reflexivity. Qed.

Lemma keeps_emit (ev : event) : keeps_server (emit ev).
Proof. intros w. reflexivity. Qed.

Lemma keeps_lift {A} (o : outcome A) : keeps_server (lift o).
Proof. intros w. reflexivity. Qed.

Lemma keeps_bind {A B} (m : M A) (k : A -> M B) :
  keeps_server m -> (forall a, keeps_server (k a)) -> keeps_server (m ≫= k).
Proof.
  intros Hm Hk w. unfold mbind, M_bind, bind.
  specialize (Hm w). destruct (m w) as [[a|e] w']; simpl in *.
  - rewrite Hk. exact Hm.
  - exact Hm.
Qed.

Lemma keeps_fmap {A B} (f : A -> B) (m : M A) :
  keeps_server m -> keeps_server (f <$> m).
Proof.
  intros Hm w. unfold fmap, M_fmap, bind.
  specialize (Hm w). destruct (m w) as [[a|e] w']; simpl in *; exact Hm.
Qed.

Lemma keeps_ask {A} (q : engine_query) (answer : outcome A) :
  keeps_server (ask q answer).
Proof. intros w. unfold ask, bind, emit, lift. reflexivity. Qed.

Lemma keeps_try_except {A B} (body : M A) (handles : exn -> bool)
    (handler : M B) (orelse : A -> M B) :
  keeps_server body -> keeps_server handler ->
  (forall a, keeps_server (orelse a)) ->
  keeps_server (try_except body handles handler orelse).
Proof.
  intros Hb Hh Ho w. unfold try_except.
  specialize (Hb w). destruct (body w) as [[a|e] w']; simpl in *.
  - rewrite Ho. exact Hb.
  - destruct (handles e); [rewrite Hh|]; exact Hb.
Qed.

(** Walk through the body of a handler: every step is one of the
    primitives above. *)
Ltac keeps :=
  repeat first
    [ progress intros
    | apply keeps_ret | apply keeps_raise | apply keeps_attr
    | apply keeps_emit | apply keeps_lift | apply keeps_ask
    | apply keeps_bind | apply keeps_fmap | apply keeps_try_except
    | progress cbv zeta
    | match goal with
      | |- keeps_server (match ?x with _ => _ end) => destruct x
      | |- keeps_server (if ?x then _ else _) => destruct x
      end ].

Lemma keeps__choose_markup : keeps_server _choose_markup.
Proof. unfold _choose_markup. keeps. Qed.

Lemma keeps__publish_diagnostics (doc_uri : string) :
  keeps_server (_publish_diagnostics doc_uri).
Proof. unfold _publish_diagnostics, get_document, script. keeps. Qed.

Lemma keeps_refactoring_changes (call : M jedi.Refactoring) :
  keeps_server call -> keeps_server (refactoring_changes call).
Proof. intros H. unfold refactoring_changes. keeps. exact H. Qed.

Lemma keeps_call (f : fn.t) (msg : message) : keeps_server (call f msg).
Proof.
  pose proof keeps__choose_markup. pose proof keeps__publish_diagnostics.
  pose proof keeps_refactoring_changes.
  destruct f, msg; unfold call; try apply keeps_raise;
    unfold completion_item_resolve, completion, signature_help, definition,
      type_definition, highlight, hover, references, document_symbol,
      workspace_symbol, rename, code_action, did_change_configuration,
      did_save_diagnostics, did_save_default, did_change_diagnostics,
      did_change_default, did_open_diagnostics, did_open_default,
      did_close_diagnostics, did_close_default, get_document, script;
    keeps; auto; try (apply keeps_refactoring_changes; keeps).
Qed.

(** A message changes the server object only through the framework's
    text synchronisation of the workspace. *)
Lemma dispatch_srv (msg : message) (w : World) :
  srv (dispatch msg w).2 =
  mkServer (initialization_options (srv w)) (project (srv w))
    (pygls.text_sync (method msg) (document_uri msg) (workspace (srv w)))
    (client_capabilities (srv w)) (features (srv w)).
Proof.
  unfold dispatch, mbind, M_bind, bind, sync_workspace, attr. cbn [fst snd srv].
  destruct (_ !! method msg) as [f|]; [|reflexivity].
  rewrite keeps_call. reflexivity.
Qed.

Lemma handle_all_srv (msgs : list message) :
  forall w,
    initialization_options (srv (handle_all msgs w)) = initialization_options (srv w)
    /\ project (srv (handle_all msgs w)) = project (srv w)
    /\ client_capabilities (srv (handle_all msgs w)) = client_capabilities (srv w)
    /\ features (srv (handle_all msgs w)) = features (srv w).
Proof.
  induction msgs as [|msg msgs IH]; intros w; [easy|].
  change (handle_all (msg :: msgs) w) with (handle_all msgs (dispatch msg w).2).
  destruct (IH (dispatch msg w).2) as (-> & -> & -> & ->).
  rewrite dispatch_srv. easy.
Qed.

(** ** Initialization *)

Lemma lsp_initialize_inv (params : pygls.InitializeParams)
    (result : pygls.InitializeResult) (w0 : World) :
  lsp_initialize params = Returned (result, w0) ->
  exists options shown,
    read_initialization_options params = Returned (options, shown)
    /\ initialization_options (srv w0) = options
    /\ project (srv w0) = new_project options (pygls.lsp_initialize params).1.1
    /\ workspace (srv w0) = (pygls.lsp_initialize params).1.1
    /\ client_capabilities (srv w0) = (pygls.lsp_initialize params).1.2
    /\ features (srv w0) = register_features options
    /\ trace w0 = (shown ++ [SetJediSettings options])%list
    /\ result = (pygls.lsp_initialize params).2.
Proof.
  unfold lsp_initialize.
  destruct (read_initialization_options params) as [[options shown]|e];
    [|discriminate].
  destruct (pygls.lsp_initialize params) as [[ws caps] res].
  intros H. injection H as <- <-. exists options, shown.
  cbn [srv trace initialization_options project workspace client_capabilities
       fst snd].
  repeat split; reflexivity.
Qed.

(** The registry after initialization, feature by feature. *)
Lemma lsp_initialize_features (params : pygls.InitializeParams)
    (result : pygls.InitializeResult) (w0 : World) :
  lsp_initialize params = Returned (result, w0) ->
  let d := initialization_options.diagnostics (initialization_options (srv w0)) in
  features (srv w0) !! TEXT_DOCUMENT_DID_OPEN =
    Some (if initialization_options.enable d && initialization_options.did_open d
          then fn.did_open_diagnostics else fn.did_open_default)
  /\ features (srv w0) !! TEXT_DOCUMENT_DID_CHANGE =
    Some (if initialization_options.enable d && initialization_options.did_change d
          then fn.did_change_diagnostics else fn.did_change_default)
  /\ features (srv w0) !! TEXT_DOCUMENT_DID_SAVE =
    Some (if initialization_options.enable d && initialization_options.did_save d
          then fn.did_save_diagnostics else fn.did_save_default)
  /\ features (srv w0) !! TEXT_DOCUMENT_DID_CLOSE =
    Some (if initialization_options.enable d
          then fn.did_close_diagnostics else fn.did_close_default)
  /\ features (srv w0) !! WORKSPACE_SYMBOL = Some fn.workspace_symbol.
Proof.
  intros Hinit.
  destruct (lsp_initialize_inv _ _ _ Hinit)
    as (options & shown & _ & Hopt & _ & _ & _ & Hfeat & _).
  rewrite Hfeat, Hopt. clear. unfold register_features, SERVER, feature.
  cbv zeta.
  destruct (initialization_options.hover_enable _);
    repeat split;
    repeat (rewrite lookup_insert_ne by (apply bool_decide_eq_false; reflexivity));
    apply lookup_insert_eq.
Qed.

(** C7. The project handle is assigned by [lsp_initialize] (to the
    project of the workspace root, or to [None]); no registered function
    assigns any attribute of the server, and after any sequence of later
    messages the server still holds the project that [lsp_initialize]
    assigned. *)
Theorem project_assigned_once (params : pygls.InitializeParams)
    (result : pygls.InitializeResult) (w0 : World) :
  lsp_initialize params = Returned (result, w0) ->
  project (srv w0)
    = new_project (initialization_options (srv w0)) (workspace (srv w0))
  /\ (forall f msg w, srv (call f msg w).2 = srv w)
  /\ (forall msgs, project (srv (handle_all msgs w0)) = project (srv w0)).
Proof.
  intros Hinit.
  destruct (lsp_initialize_inv _ _ _ Hinit)
    as (options & shown & _ & Hopt & Hproj & Hws & _).
  split; [congruence|]. split.
  - intros f msg w. apply keeps_call.
  - intros msgs. apply handle_all_srv.
Qed.

(** C10. Initialized without a workspace root path (none, or an empty
    one), the server holds no project, and whatever messages follow, a
    workspace/symbol request returns [None] and leaves the trace as it
    was: the engine is not asked. *)
Theorem workspace_symbol_without_root (params : pygls.InitializeParams)
    (result : pygls.InitializeResult) (w0 : World) :
  lsp_initialize params = Returned (result, w0) ->
  truthy_str (pygls.root_path (pygls.lsp_initialize params).1.1) = false ->
  project (srv w0) = None
  /\ forall msgs request,
       let w := handle_all msgs w0 in
       workspace_symbol request w = (Returned None, w)
       /\ (dispatch (m_workspace_symbol request) w).1 = Returned (r_symbols None)
       /\ engine_queries (new_events w (dispatch (m_workspace_symbol request) w).2) = [].
Proof.
  intros Hinit Hroot.
  destruct (lsp_initialize_inv _ _ _ Hinit)
    as (options & shown & _ & Hopt & Hproj & _).
  assert (Hnone : project (srv w0) = None).
  { rewrite Hproj. unfold new_project.
    destruct (pygls.root_path _) as [[|c root]|]; [reflexivity|discriminate|reflexivity]. }
  split; [exact Hnone|].
  intros msgs request w.
  assert (Hw : project (srv w) = None).
  { unfold w. destruct (handle_all_srv msgs w0) as (_ & -> & _). exact Hnone. }
  assert (Hfeat : features (srv w) !! WORKSPACE_SYMBOL = Some fn.workspace_symbol).
  { unfold w. destruct (handle_all_srv msgs w0) as (_ & _ & _ & ->).
    apply (lsp_initialize_features _ _ _ Hinit). }
  assert (Hhandler : forall w', project (srv w') = None ->
            workspace_symbol request w' = (Returned None, w')).
  { intros w' Hw'. unfold workspace_symbol, mbind, M_bind, bind, attr.
    cbn [fst snd]. rewrite Hw'. reflexivity. }
  split; [apply Hhandler, Hw|].
  unfold dispatch, mbind, M_bind, bind, sync_workspace, attr.
  cbn [fst snd srv features method]. rewrite Hfeat.
  unfold call, fmap, M_fmap, bind.
  rewrite Hhandler by (cbn; exact Hw).
  cbn. split; [reflexivity|].
  unfold new_events. cbn. rewrite drop_all. reflexivity.
Qed.


(** ** Diagnostics *)

Lemma new_events_app (w : World) (s : JediLanguageServer) (added : list event) :
  new_events w (mkWorld s (trace w ++ added)) = added.
Proof. unfold new_events. cbn [trace]. apply drop_app_length. Qed.

Lemma new_events_nil (w : World) (s : JediLanguageServer) :
  new_events w (mkWorld s (trace w)) = [].
Proof. unfold new_events. cbn [trace]. apply drop_all. Qed.

Lemma _publish_diagnostics_run (doc_uri : string) (w : World) :
  _publish_diagnostics doc_uri w =
  (Returned tt,
   mkWorld (srv w)
     (trace w ++
      [Engine (QGetSyntaxErrors
                 (jedi_utils.script (project (srv w))
                    (pygls.get_document (workspace (srv w)) doc_uri)));
       PublishDiagnostics doc_uri (syntax_diagnostics (srv w) doc_uri)])).
Proof.
  unfold _publish_diagnostics, get_document, script, ask, mbind, M_bind, bind,
    attr, emit, lift, syntax_diagnostics.
  cbn [fst snd srv trace]. now rewrite <- app_assoc.
Qed.

Lemma dispatch_registered (msg : message) (w : World) (f : fn.t) :
  features (srv w) !! method msg = Some f ->
  dispatch msg w = call f msg (sync_workspace msg w).2.
Proof.
  intros Hf. unfold dispatch, mbind, M_bind, bind, sync_workspace, attr.
  cbn [fst snd srv features]. now rewrite Hf.
Qed.

(** C5. After initialization and any later messages, the function
    registered for didOpen, didChange and didSave is the one that
    publishes diagnostics exactly when [diagnostics.enable] and the toggle
    of the event are both set, and the no-op otherwise; for didClose the
    choice depends on [diagnostics.enable] alone.  Accordingly a
    notification publishes the diagnostics of its document (for didClose:
    an empty list) in the first case and does nothing in the second. *)
Theorem diagnostics_wiring (params : pygls.InitializeParams)
    (result : pygls.InitializeResult) (w0 : World)
    (msgs : list message) (request : TextDocumentParams) :
  lsp_initialize params = Returned (result, w0) ->
  let d := initialization_options.diagnostics (initialization_options (srv w0)) in
  let w := handle_all msgs w0 in
  let doc_uri := uri (text_document request) in
  let pushed msg := publications (new_events w (dispatch msg w).2) in
  let current msg := syntax_diagnostics (srv (sync_workspace msg w).2) doc_uri in
  let idle msg := dispatch msg w = (Returned r_none, (sync_workspace msg w).2) in
  (features (srv w) !! TEXT_DOCUMENT_DID_OPEN =
     Some (if initialization_options.enable d && initialization_options.did_open d
           then fn.did_open_diagnostics else fn.did_open_default)
   /\ features (srv w) !! TEXT_DOCUMENT_DID_CHANGE =
     Some (if initialization_options.enable d && initialization_options.did_change d
           then fn.did_change_diagnostics else fn.did_change_default)
   /\ features (srv w) !! TEXT_DOCUMENT_DID_SAVE =
     Some (if initialization_options.enable d && initialization_options.did_save d
           then fn.did_save_diagnostics else fn.did_save_default)
   /\ features (srv w) !! TEXT_DOCUMENT_DID_CLOSE =
     Some (if initialization_options.enable d
           then fn.did_close_diagnostics else fn.did_close_default))
  /\ (if initialization_options.enable d && initialization_options.did_open d
      then pushed (m_did_open request) = [(doc_uri, current (m_did_open request))]
      else idle (m_did_open request))
  /\ (if initialization_options.enable d && initialization_options.did_change d
      then pushed (m_did_change request) = [(doc_uri, current (m_did_change request))]
      else idle (m_did_change request))
  /\ (if initialization_options.enable d && initialization_options.did_save d
      then pushed (m_did_save request) = [(doc_uri, current (m_did_save request))]
      else idle (m_did_save request))
  /\ (if initialization_options.enable d
      then pushed (m_did_close request) = [(doc_uri, [])]
      else idle (m_did_close request)).
Proof.
  intros Hinit d w doc_uri pushed current idle.
  destruct (lsp_initialize_features _ _ _ Hinit) as (Hopen & Hchange & Hsave & Hclose & _).
  assert (Hfeat : features (srv w) = features (srv w0))
    by apply (handle_all_srv msgs w0).
  fold d in Hopen, Hchange, Hsave, Hclose.
  rewrite <- Hfeat in Hopen, Hchange, Hsave, Hclose.
  split; [easy|].
  unfold pushed, idle, current.
  repeat split.
  - rewrite (dispatch_registered (m_did_open request) w _ Hopen).
    destruct (initialization_options.enable d && initialization_options.did_open d).
    + unfold call, did_open_diagnostics, mbind, M_bind, bind.
      rewrite (_publish_diagnostics_run (uri (text_document request))
                 (sync_workspace (m_did_open request) w).2).
      cbn [fst snd mret M_ret ret sync_workspace srv trace].
      rewrite (new_events_app w). reflexivity.
    + reflexivity.
  - rewrite (dispatch_registered (m_did_change request) w _ Hchange).
    destruct (initialization_options.enable d && initialization_options.did_change d).
    + unfold call, did_change_diagnostics, mbind, M_bind, bind.
      rewrite (_publish_diagnostics_run (uri (text_document request))
                 (sync_workspace (m_did_change request) w).2).
      cbn [fst snd mret M_ret ret sync_workspace srv trace].
      rewrite (new_events_app w). reflexivity.
    + reflexivity.
  - rewrite (dispatch_registered (m_did_save request) w _ Hsave).
    destruct (initialization_options.enable d && initialization_options.did_save d).
    + unfold call, did_save_diagnostics, mbind, M_bind, bind.
      rewrite (_publish_diagnostics_run (uri (text_document request))
                 (sync_workspace (m_did_save request) w).2).
      cbn [fst snd mret M_ret ret sync_workspace srv trace].
      rewrite (new_events_app w). reflexivity.
    + reflexivity.
  - rewrite (dispatch_registered (m_did_close request) w _ Hclose).
    destruct (initialization_options.enable d).
    + unfold call, did_close_diagnostics, mbind, M_bind, bind, emit.
      cbn [fst snd mret M_ret ret sync_workspace srv trace].
      rewrite (new_events_app w). reflexivity.
    + reflexivity.
Qed.


(** ** Initialization options *)

(** C3 (as amended). When the options object does not validate, the
    server adopts the default options, shows one message of type [Error]
    to the client and writes the same message to the log, and
    initialization returns its result.  Without an options object the
    server parses the empty dict and adopts what that gives. *)
Theorem invalid_options_fall_back (params : pygls.InitializeParams) :
  (forall error,
     initialization_options.parse_obj (options_object params)
       = Raised (ValidationError error) ->
     exists w0,
       lsp_initialize params = Returned ((pygls.lsp_initialize params).2, w0)
       /\ initialization_options (srv w0) = initialization_options.defaults
       /\ trace w0 =
            [ShowMessage
               ("Invalid InitializationOptions, using defaults: " ++ error) Error;
             ShowMessageLog
               ("Invalid InitializationOptions, using defaults: " ++ error) Error;
             SetJediSettings initialization_options.defaults])
  /\ (pygls.initialization_options params = None ->
      options_object params = json.empty_dict
      /\ forall options,
           initialization_options.parse_obj json.empty_dict = Returned options ->
           exists w0,
             lsp_initialize params = Returned ((pygls.lsp_initialize params).2, w0)
             /\ initialization_options (srv w0) = options).
Proof.
  split.
  - intros error Hparse. unfold lsp_initialize, read_initialization_options.
    rewrite Hparse. destruct (pygls.lsp_initialize params) as [[ws caps] res].
    eexists. split; [reflexivity|]. split; reflexivity.
  - intros Hnone.
    assert (Hobj : options_object params = json.empty_dict)
      by (unfold options_object; now rewrite Hnone).
    split; [exact Hobj|].
    intros options Hparse. unfold lsp_initialize, read_initialization_options.
    rewrite Hobj, Hparse. destruct (pygls.lsp_initialize params) as [[ws caps] res].
    eexists. split; reflexivity.
Qed.

(** ** Markup negotiation *)

Lemma _choose_markup_state (w : World) : (_choose_markup w).2 = w.
Proof.
  unfold _choose_markup, mbind, M_bind, bind, attr, lift. cbn [fst snd].
  destruct (initialization_options.markup_kind_preferred _) as [preferred|];
    [destruct (elem preferred _)|]; reflexivity.
Qed.


(** A client whose declared list of formats is not empty gets a markup
    kind. *)
Lemma _choose_markup_returns (w : World) :
  documentation_format (client_capabilities (srv w)) <> Some [] ->
  exists k, _choose_markup w = (Returned k, w).
Proof.
  intros Hne.
  unfold _choose_markup, mbind, M_bind, bind, attr, lift. cbn [fst snd].
  destruct (documentation_format _) as [[|first rest]|]; [congruence| |];
    cbn [get_capability];
    (destruct (initialization_options.markup_kind_preferred _) as [preferred|];
     [destruct (elem preferred _)|]); eauto.
Qed.



Lemma _choose_markup_run (w : World) :
  _choose_markup w = ((_choose_markup (mkWorld (srv w) [])).1, w).
Proof.
  unfold _choose_markup, mbind, M_bind, bind, attr, lift. cbn [fst snd srv].
  destruct (initialization_options.markup_kind_preferred _) as [preferred|];
    [destruct (elem preferred _)|]; reflexivity.
Qed.

Lemma markup_of_returns (w : World) :
  documentation_format (client_capabilities (srv w)) <> Some [] ->
  exists k, markup_of w = Returned k.
Proof.
  intros Hne. unfold markup_of.
  destruct (_choose_markup_returns (mkWorld (srv w) []) Hne) as [k Hk].
  exists k. now rewrite Hk.
Qed.

(** ** Running the handlers that negotiate markup *)


Lemma hover_run (params : TextDocumentPositionParams.t) (w : World) :
  let jedi_script :=
    jedi_utils.script (project (srv w))
      (pygls.get_document (workspace (srv w))
         (uri (TextDocumentPositionParams.text_document params))) in
  let jedi_lines :=
    jedi_utils.line_column (TextDocumentPositionParams.position params) in
  let column := if (jedi_lines.2 =? 0)%Z then 1%Z else jedi_lines.2 in
  hover params w =
  match markup_of w with
  | Returned k =>
      (match jedi.help jedi_script jedi_lines.1 column with
       | Returned names =>
           Returned
             match jedi_utils.hover_text names k (initialization_options (srv w)) with
             | Some (String _ _ as text) =>
                 Some (Hover.mk (mkMarkupContent k text)
                         (pygls_utils.current_word_range
                            (pygls.get_document (workspace (srv w))
                               (uri (TextDocumentPositionParams.text_document params)))
                            (TextDocumentPositionParams.position params)))
             | _ => None
             end
       | Raised e => Raised e
       end,
       mkWorld (srv w)
         (trace w ++ [Engine (QHelp jedi_script jedi_lines.1 column)]))
  | Raised e => (Raised e, w)
  end.
Proof.
  intros jedi_script jedi_lines column.
  unfold hover, get_document, script, ask, mbind, M_bind, bind, attr, emit, lift.
  cbn [fst snd srv trace].
  rewrite _choose_markup_run. fold (markup_of w).
  destruct (markup_of w) as [k|e]; [|reflexivity].
  cbn [fst snd srv trace]. fold jedi_script jedi_lines column.
  destruct (jedi.help jedi_script jedi_lines.1 column) as [names|e];
    [|reflexivity].
  cbn [fst snd srv trace].
  destruct (jedi_utils.hover_text _ _ _) as [[|c text]|]; reflexivity.
Qed.

Lemma signature_help_run (params : TextDocumentPositionParams.t) (w : World) :
  let jedi_script :=
    jedi_utils.script (project (srv w))
      (pygls.get_document (workspace (srv w))
         (uri (TextDocumentPositionParams.text_document params))) in
  let jedi_lines :=
    jedi_utils.line_column (TextDocumentPositionParams.position params) in
  let signatures_jedi :=
    jedi.get_signatures jedi_script jedi_lines.1 jedi_lines.2 in
  let w' :=
    mkWorld (srv w)
      (trace w ++ [Engine (QGetSignatures jedi_script jedi_lines.1 jedi_lines.2)]) in
  signature_help params w =
  match markup_of w with
  | Returned k =>
      (Returned
         match signatures_jedi with
         | [] => None
         | first :: _ =>
             Some (mkSignatureHelp
                     (map
                        (fun signature =>
                           SignatureInformation.mk
                             (jedi_utils.signature_string signature)
                             (mkMarkupContent k
                                (jedi_utils.convert_docstring
                                   (jedi.docstring signature true) k))
                             (map (fun info =>
                                     mkParameterInformation (jedi.to_string info))
                                  (jedi.params signature)))
                        signatures_jedi)
                     0 (jedi.index first))
         end,
       w')
  | Raised e => (Raised e, w')
  end.
Proof.
  intros jedi_script jedi_lines signatures_jedi w'.
  unfold signature_help, get_document, script, ask, mbind, M_bind, bind, attr,
    emit, lift.
  cbn [fst snd srv trace].
  rewrite _choose_markup_run. cbn [srv].
  fold (markup_of w) jedi_script jedi_lines signatures_jedi w'.
  destruct (markup_of w) as [k|e]; [|reflexivity].
  destruct signatures_jedi; reflexivity.
Qed.

Lemma completion_run (params : TextDocumentPositionParams.t) (w : World) :
  let options := initialization_options.completion (initialization_options (srv w)) in
  let document :=
    pygls.get_document (workspace (srv w))
      (uri (TextDocumentPositionParams.text_document params)) in
  let jedi_script := jedi_utils.script (project (srv w)) document in
  let jedi_lines :=
    jedi_utils.line_column (TextDocumentPositionParams.position params) in
  let completions_jedi_raw :=
    jedi.complete jedi_script jedi_lines.1 jedi_lines.2 in
  let asked := (trace w ++ [Engine (QComplete jedi_script jedi_lines.1 jedi_lines.2)])%list in
  completion params w =
  match markup_of w with
  | Returned k =>
      (Returned
         match
           imap
             (fun count completion =>
                jedi_utils.lsp_completion_item completion
                  (pygls_utils.char_before_cursor document
                     (TextDocumentPositionParams.position params))
                  (get_capability (snippet_support (client_capabilities (srv w))) false
                   && negb (initialization_options.disable_snippets options)
                   && negb (jedi_utils.is_import jedi_script jedi_lines.1 jedi_lines.2))
                  (initialization_options.resolve_eagerly options) k
                  (sort_append_text
                     (String.length (str (length completions_jedi_raw))) count))
             (unignored_completions
                (initialization_options.ignore_patterns options)
                completions_jedi_raw)
         with
         | [] => None
         | first :: rest => Some (mkCompletionList false (first :: rest))
         end,
       mkWorld (srv w) (asked ++ [ClearCompletionsCache]))
  | Raised e => (Raised e, mkWorld (srv w) asked)
  end.
Proof.
  intros options document jedi_script jedi_lines completions_jedi_raw asked.
  unfold completion, get_document, script, ask, mbind, M_bind, bind, attr,
    emit, lift.
  cbn [fst snd srv trace].
  rewrite _choose_markup_run. cbn [srv].
  fold (markup_of w) options document jedi_script jedi_lines
    completions_jedi_raw asked.
  destruct (markup_of w) as [k|e]; [|reflexivity].
  cbn [fst snd srv trace mret M_ret ret].
  destruct (imap _ _); reflexivity.
Qed.

Lemma engine_queries_app (xs ys : list event) :
  engine_queries (xs ++ ys) = (engine_queries xs ++ engine_queries ys)%list.
Proof. unfold engine_queries. apply omap_app. Qed.

(** ** Hover *)

(** C8. The only question hover puts to the engine is [help], at the
    line that [line_column] gives and at column 1 when [line_column]
    gives column 0, at the column given otherwise; and it does put that
    question whenever a markup kind can be negotiated. *)
Theorem hover_help_column (params : TextDocumentPositionParams.t) (w : World) :
  let jedi_script :=
    jedi_utils.script (project (srv w))
      (pygls.get_document (workspace (srv w))
         (uri (TextDocumentPositionParams.text_document params))) in
  let jedi_lines :=
    jedi_utils.line_column (TextDocumentPositionParams.position params) in
  let asked := engine_queries (new_events w (hover params w).2) in
  (jedi_lines.2 = 0%Z ->
   forall q, q ∈ asked -> q = QHelp jedi_script jedi_lines.1 1)
  /\ (jedi_lines.2 <> 0%Z ->
      forall q, q ∈ asked -> q = QHelp jedi_script jedi_lines.1 jedi_lines.2)
  /\ (documentation_format (client_capabilities (srv w)) <> Some [] ->
      length asked = 1).
Proof.
  intros jedi_script jedi_lines asked.
  assert (Hasked :
    asked = [] \/
    asked = [QHelp jedi_script jedi_lines.1
               (if (jedi_lines.2 =? 0)%Z then 1%Z else jedi_lines.2)]).
  { unfold asked. rewrite hover_run. cbv zeta.
    destruct (markup_of w); cbn [snd].
    - right. now rewrite new_events_app.
    - left. destruct w as [s t]. now rewrite (new_events_nil (mkWorld s t)). }
  repeat split.
  - intros Hzero q Hq. destruct Hasked as [Ha|Ha]; rewrite Ha in Hq.
    + inversion Hq.
    + apply list_elem_of_singleton in Hq. subst q.
      fold jedi_lines. now rewrite Hzero.
  - intros Hnz q Hq. destruct Hasked as [Ha|Ha]; rewrite Ha in Hq.
    + inversion Hq.
    + apply list_elem_of_singleton in Hq. subst q.
      destruct (Z.eqb_spec jedi_lines.2 0); [contradiction|reflexivity].
  - intros Hne. unfold asked. rewrite hover_run. cbv zeta.
    destruct (markup_of_returns w Hne) as [k ->]. cbn [snd].
    now rewrite new_events_app.
Qed.

(** ** Completion *)

(** C9. The items of a completion reply are the completions that pass
    the ignore patterns, in the engine's order, each built with the
    sort-append text of its index: the index in decimal, padded with
    zeros to the number of digits of the count of raw completions.  All
    these texts have that width, and one is lexicographically below
    another exactly when its index is smaller. *)
Theorem completion_sort_texts (params : TextDocumentPositionParams.t)
    (w : World) (reply : CompletionList pygls.CompletionItem) :
  (completion params w).1 = Returned (Some reply) ->
  let jedi_script :=
    jedi_utils.script (project (srv w))
      (pygls.get_document (workspace (srv w))
         (uri (TextDocumentPositionParams.text_document params))) in
  let jedi_lines :=
    jedi_utils.line_column (TextDocumentPositionParams.position params) in
  let completions_jedi_raw :=
    jedi.complete jedi_script jedi_lines.1 jedi_lines.2 in
  let completions_jedi :=
    unignored_completions
      (initialization_options.ignore_patterns
         (initialization_options.completion (initialization_options (srv w))))
      completions_jedi_raw in
  let width := String.length (str (length completions_jedi_raw)) in
  let text count := zfill (str count) width in
  (exists char_before_cursor enable_snippets resolve_eagerly markup_kind,
     items reply =
     imap
       (fun count completion =>
          jedi_utils.lsp_completion_item completion char_before_cursor
            enable_snippets resolve_eagerly markup_kind (text count))
       completions_jedi)
  /\ length (items reply) = length completions_jedi
  /\ (forall i, i < length (items reply) -> String.length (text i) = width)
  /\ (forall i j,
        i < length (items reply) -> j < length (items reply) ->
        (str_lt (text i) (text j) = true <-> i < j)).
Proof.
  intros Hreply jedi_script jedi_lines completions_jedi_raw completions_jedi
    width text.
  rewrite completion_run in Hreply. cbv zeta in Hreply.
  fold jedi_script jedi_lines completions_jedi_raw completions_jedi in Hreply.
  destruct (markup_of w) as [k|e]; [|discriminate].
  cbn [fst] in Hreply.
  assert (Hkept : length completions_jedi <= length completions_jedi_raw).
  { unfold completions_jedi, unignored_completions.
    destruct (initialization_options.ignore_patterns _); [reflexivity|].
    apply List.filter_length_le. }
  match type of Hreply with
  | Returned (match ?l with _ => _ end) = _ =>
      assert (Hitems : items reply = l)
        by (destruct l; [discriminate|injection Hreply as <-; reflexivity])
  end.
  assert (Hlen : length (items reply) = length completions_jedi)
    by (rewrite Hitems; apply length_imap).
  split; [|split; [exact Hlen|split]].
  - do 4 eexists. exact Hitems.
  - intros i Hi. unfold text, width.
    apply zfill_str_length. lia.
  - intros i j Hi Hj. unfold text, width.
    apply zfill_str_lt; lia.
Qed.


(** ** Workspace symbols *)

Lemma append_String (c : ascii) (s t : string) :
  (String c s ++ t)%string = String c (s ++ t)%string.
Proof. reflexivity. Qed.

Lemma prefix_spec (p s : string) :
  String.prefix p s = true <-> exists rest, s = (p ++ rest)%string.
Proof.
  revert s. induction p as [|c p IH]; intros s.
  - destruct s; simpl; split; eauto.
  - destruct s as [|c' s]; simpl.
    + split; [discriminate|intros [rest H]; discriminate].
    + destruct (ascii_dec c c') as [->|Hne].
      * rewrite IH. split; intros [rest H]; exists rest;
          rewrite append_String in *; congruence.
      * split; [discriminate|]. intros [rest H].
        rewrite append_String in H. congruence.
Qed.

(** [contains] is occurrence as a substring. *)
Lemma contains_spec (sub s : string) :
  contains sub s = true <->
  exists before rest, s = (before ++ sub ++ rest)%string.
Proof.
  induction s as [|c s IH]; cbn [contains].
  - rewrite orb_false_r, prefix_spec. split.
    + intros [rest H]. exists EmptyString, rest. exact H.
    + intros ([|c before] & rest & H); [eauto|discriminate].
  - rewrite orb_true_iff, prefix_spec, IH. split.
    + intros [[rest H]|(before & rest & H)].
      * exists EmptyString, rest. exact H.
      * exists (String c before), rest. rewrite append_String. now rewrite H.
    + intros ([|c' before] & rest & H).
      * left. eauto.
      * right. exists before, rest. rewrite append_String in H. congruence.
Qed.

Lemma _ignore_folder_forallb (path_check : string) (folders : list string) :
  negb (_ignore_folder path_check folders) =
  forallb (fun folder => negb (contains ("/" ++ folder ++ "/") path_check))
    folders.
Proof.
  induction folders as [|folder folders IH]; [reflexivity|].
  cbn [_ignore_folder forallb].
  destruct (contains _ path_check); [reflexivity|exact IH].
Qed.

Lemma unignored_rooted (root : string) (folders : list string) (name : jedi.Name) :
  unignored (Some root) folders name = Returned (in_workspace root folders name).
Proof.
  unfold unignored, in_workspace.
  destruct (jedi.module_path name); [|reflexivity].
  now rewrite _ignore_folder_forallb.
Qed.


(** With a root, the lazy pipeline computes the filtered and translated
    names, cut after [k] of them. *)
Lemma take_symbols_rooted (root : string) (folders : list string)
    (names : list jedi.Name) :
  forall limit,
    take_symbols limit (Some root) folders names =
    Returned
      (match limit with
       | Some k => take k
       | None => fun symbols => symbols
       end
         (omap jedi_utils.lsp_symbol_information
            (List.filter (in_workspace root folders) names))).
Proof.
  induction names as [|name names IH]; intros limit.
  - destruct limit as [[|k]|]; reflexivity.
  - destruct limit as [[|k]|]; [reflexivity| |];
      cbn [take_symbols List.filter]; rewrite unignored_rooted;
      destruct (in_workspace root folders name); rewrite ?IH;
      cbn [omap list_omap]; try reflexivity;
      destruct (jedi_utils.lsp_symbol_information name);
      rewrite ?IH; reflexivity.
Qed.

Lemma workspace_symbol_run (params : WorkspaceSymbolParams) (w : World)
    (the_project : jedi.Project) :
  project (srv w) = Some the_project ->
  let symbols_options :=
    initialization_options.symbols
      (initialization_options.workspace (initialization_options (srv w))) in
  let max_symbols := initialization_options.max_symbols symbols_options in
  let w' :=
    mkWorld (srv w)
      (trace w ++ [Engine (QCompleteSearch the_project (query params))]) in
  workspace_symbol params w =
  if (maxsize <? max_symbols)%Z then (Raised ValueError, w')
  else
    match take_symbols
            (if (0 <? max_symbols)%Z then Some (Z.to_nat max_symbols) else None)
            (pygls.root_path (workspace (srv w)))
            (initialization_options.ignore_folders symbols_options)
            (jedi.complete_search the_project (query params)) with
    | Returned symbols => (Returned (or_none symbols), w')
    | Raised e => (Raised e, w')
    end.
Proof.
  intros Hproject symbols_options max_symbols w'.
  unfold workspace_symbol, ask, mbind, M_bind, bind, attr, emit, lift, ret.
  cbn [fst snd]. rewrite Hproject. cbn [fst snd srv trace].
  fold symbols_options max_symbols w'. unfold islice_stop.
  destruct (Z.ltb_spec 0 max_symbols) as [Hpos|Hnonpos].
  - replace (max_symbols <? 0)%Z with false by (symmetry; apply Z.ltb_ge; lia).
    cbn [orb]. destruct (maxsize <? max_symbols)%Z; [reflexivity|].
    destruct (take_symbols _ _ _ _); reflexivity.
  - replace (maxsize <? max_symbols)%Z with false
      by (symmetry; apply Z.ltb_ge; unfold maxsize; lia).
    destruct (take_symbols _ _ _ _); reflexivity.
Qed.

Lemma or_none_Some {A} (xs ys : list A) : or_none xs = Some ys -> xs = ys /\ ys <> [].
Proof. destruct xs; [discriminate|]. intros [= <-]. easy. Qed.



(** ** Refactorings *)

Lemma rename_outcome (params : RenameParams.t) (w : World) :
  let jedi_script :=
    jedi_utils.script (project (srv w))
      (pygls.get_document (workspace (srv w))
         (uri (RenameParams.text_document params))) in
  let jedi_lines := jedi_utils.line_column (RenameParams.position params) in
  (rename params w).1 =
  match jedi.rename jedi_script jedi_lines.1 jedi_lines.2
          (RenameParams.new_name params) with
  | Returned refactoring =>
      Returned
        match text_edit_utils.lsp_document_changes (workspace (srv w))
                refactoring with
        | [] => None
        | first :: rest => Some (mkWorkspaceEdit (first :: rest))
        end
  | Raised e => if is_RefactoringError e then Returned None else Raised e
  end.
Proof.
  intros jedi_script jedi_lines.
  unfold rename, get_document, script, try_except, ask, mbind, M_bind, bind,
    attr, emit, lift.
  cbn [fst snd srv trace]. fold jedi_script jedi_lines.
  destruct (jedi.rename _ _ _ _) as [refactoring|e]; cbn [fst snd srv].
  - destruct (text_edit_utils.lsp_document_changes _ _); reflexivity.
  - destruct (is_RefactoringError e); reflexivity.
Qed.

Lemma refactoring_changes_ask (q : engine_query)
    (answer : outcome jedi.Refactoring) (w : World) :
  refactoring_changes (ask q answer) w =
  (changes_of (workspace (srv w)) answer,
   mkWorld (srv w) (trace w ++ [Engine q])).
Proof.
  unfold refactoring_changes, try_except, ask, mbind, M_bind, bind, attr,
    emit, lift, changes_of.
  cbn [fst snd srv trace].
  destruct answer as [refactoring|e]; [reflexivity|].
  destruct (not_applicable e); reflexivity.
Qed.

Lemma refactoring_changes_raise (w : World) :
  refactoring_changes (raise RefactoringError) w = (Returned [], w).
Proof. reflexivity. Qed.

Lemma changes_of_caught (the_workspace : pygls.Workspace)
    (answer : outcome jedi.Refactoring) (e : exn) :
  changes_of the_workspace answer = Raised e -> not_applicable e = false.
Proof.
  unfold changes_of. destruct answer as [r|e']; [discriminate|].
  destruct (not_applicable e') eqn:He; [discriminate|]. congruence.
Qed.

(** The outcome of [code_action]: the three refactorings in turn. *)
Lemma code_action_outcome (params : CodeActionParams.t) (w : World) :
  let jedi_script :=
    jedi_utils.script (project (srv w))
      (pygls.get_document (workspace (srv w))
         (uri (CodeActionParams.text_document params))) in
  let jedi_lines :=
    jedi_utils.line_column (start (CodeActionParams.range params)) in
  let jedi_lines_extract :=
    jedi_utils.line_column_range (CodeActionParams.range params) in
  let names := initialization_options.code_action (initialization_options (srv w)) in
  let extract_var := initialization_options.name_extract_variable names in
  let extract_func := initialization_options.name_extract_function names in
  (code_action params w).1 =
  match
    (if bool_decide (lsp.line (start (CodeActionParams.range params))
                     ≠ lsp.line (end_ (CodeActionParams.range params)))
     then Returned []
     else changes_of (workspace (srv w))
            (jedi.inline jedi_script jedi_lines.1 jedi_lines.2))
  with
  | Raised e => Raised e
  | Returned inline_changes =>
      match changes_of (workspace (srv w))
              (jedi.extract_variable jedi_script extract_var jedi_lines_extract)
      with
      | Raised e => Raised e
      | Returned extract_variable_changes =>
          match changes_of (workspace (srv w))
                  (jedi.extract_function jedi_script extract_func
                     jedi_lines_extract)
          with
          | Raised e => Raised e
          | Returned extract_function_changes =>
              Returned
                (or_none
                   (append_action
                      (append_action
                         (append_action [] inline_title RefactorInline
                            inline_changes)
                         (extract_variable_title extract_var) RefactorExtract
                         extract_variable_changes)
                      (extract_function_title extract_func) RefactorExtract
                      extract_function_changes))
          end
      end
  end.
Proof.
  intros jedi_script jedi_lines jedi_lines_extract names extract_var extract_func.
  unfold code_action, get_document, script, mbind, M_bind, bind, attr.
  cbn [fst snd]. cbv zeta.
  fold jedi_script jedi_lines jedi_lines_extract names extract_var extract_func.
  destruct (bool_decide _).
  - rewrite refactoring_changes_raise, refactoring_changes_ask.
    destruct (changes_of _ (jedi.extract_variable _ _ _)); [|reflexivity].
    rewrite refactoring_changes_ask. cbn [srv].
    destruct (changes_of _ (jedi.extract_function _ _ _)); reflexivity.
  - rewrite refactoring_changes_ask.
    destruct (changes_of _ (jedi.inline _ _ _)); [|reflexivity].
    rewrite refactoring_changes_ask. cbn [srv].
    destruct (changes_of _ (jedi.extract_variable _ _ _)); [|reflexivity].
    rewrite refactoring_changes_ask. cbn [srv].
    destruct (changes_of _ (jedi.extract_function _ _ _)); reflexivity.
Qed.


Lemma append_action_elem (acc : list (CodeAction pygls.DocumentChange))
    (action_title : string) (kind : CodeActionKind)
    (changes : list pygls.DocumentChange) (a : CodeAction pygls.DocumentChange) :
  a ∈ append_action acc action_title kind changes ->
  a ∈ acc \/ (title a = action_title /\ changes <> []).
Proof.
  unfold append_action. destruct changes as [|c changes]; [now left|].
  intros Hin. apply elem_of_app in Hin as [Hin|Hin]; [now left|].
  apply list_elem_of_singleton in Hin. subst a. right. easy.
Qed.

Lemma titles_distinct (extract_var extract_func : string) :
  inline_title <> extract_variable_title extract_var
  /\ inline_title <> extract_function_title extract_func
  /\ extract_variable_title extract_var <> extract_function_title extract_func.
Proof.
  unfold inline_title, extract_variable_title, extract_function_title.
  repeat split; intros H; cbv [append] in H; discriminate H.
Qed.

(** C2. When the engine raises [RefactoringError], rename returns
    [None]; and code actions carry no action for a refactoring for which
    the engine raised it: none titled "Inline variable" when inline
    raised, none titled "Extract expression into variable ..." when
    extract_variable raised, none titled "Extract expression into
    function ..." when extract_function raised, and no action at all
    ([None]) when all three raised.  Neither handler ever raises
    [RefactoringError] itself. *)
Theorem refactoring_errors_degrade (w : World) :
  (forall params : RenameParams.t,
     let jedi_script :=
       jedi_utils.script (project (srv w))
         (pygls.get_document (workspace (srv w))
            (uri (RenameParams.text_document params))) in
     let jedi_lines := jedi_utils.line_column (RenameParams.position params) in
     (jedi.rename jedi_script jedi_lines.1 jedi_lines.2
        (RenameParams.new_name params) = Raised RefactoringError ->
      (rename params w).1 = Returned None)
     /\ (rename params w).1 <> Raised RefactoringError)
  /\ (forall params : CodeActionParams.t,
        let jedi_script :=
          jedi_utils.script (project (srv w))
            (pygls.get_document (workspace (srv w))
               (uri (CodeActionParams.text_document params))) in
        let jedi_lines :=
          jedi_utils.line_column (start (CodeActionParams.range params)) in
        let jedi_lines_extract :=
          jedi_utils.line_column_range (CodeActionParams.range params) in
        let names :=
          initialization_options.code_action (initialization_options (srv w)) in
        let extract_var := initialization_options.name_extract_variable names in
        let extract_func := initialization_options.name_extract_function names in
        let inline_fails :=
          jedi.inline jedi_script jedi_lines.1 jedi_lines.2
          = Raised RefactoringError in
        let extract_variable_fails :=
          jedi.extract_variable jedi_script extract_var jedi_lines_extract
          = Raised RefactoringError in
        let extract_function_fails :=
          jedi.extract_function jedi_script extract_func jedi_lines_extract
          = Raised RefactoringError in
        (code_action params w).1 <> Raised RefactoringError
        /\ (forall actions,
              (code_action params w).1 = Returned (Some actions) ->
              (inline_fails ->
               Forall (fun a => title a <> inline_title) actions)
              /\ (extract_variable_fails ->
                  Forall (fun a => title a <> extract_variable_title extract_var)
                    actions)
              /\ (extract_function_fails ->
                  Forall (fun a => title a <> extract_function_title extract_func)
                    actions))
        /\ (inline_fails -> extract_variable_fails -> extract_function_fails ->
            (code_action params w).1 = Returned None)).
Proof.
  split.
  - intros params jedi_script jedi_lines. rewrite rename_outcome. cbv zeta.
    fold jedi_script jedi_lines. split.
    + intros ->. reflexivity.
    + destruct (jedi.rename _ _ _ _) as [r|e]; [discriminate|].
      destruct e; cbn; discriminate.
  - intros params jedi_script jedi_lines jedi_lines_extract names extract_var
      extract_func inline_fails extract_variable_fails extract_function_fails.
    rewrite code_action_outcome. cbv zeta.
    fold jedi_script jedi_lines jedi_lines_extract names extract_var extract_func.
    set (the_workspace := workspace (srv w)).
    set (inline_part :=
           if bool_decide (lsp.line (start (CodeActionParams.range params))
                           ≠ lsp.line (end_ (CodeActionParams.range params)))
           then Returned []
           else changes_of the_workspace
                  (jedi.inline jedi_script jedi_lines.1 jedi_lines.2)).
    assert (Hcaught : forall e, inline_part = Raised e -> not_applicable e = false).
    { unfold inline_part. intros e. destruct (bool_decide _); [discriminate|].
      apply changes_of_caught. }
    assert (Hinline : inline_fails -> inline_part = Returned []).
    { unfold inline_fails, inline_part. intros ->. now destruct (bool_decide _). }
    pose proof (titles_distinct extract_var extract_func) as (T1 & T2 & T3).
    split; [|split].
    + destruct inline_part as [c1|e1] eqn:E1.
      2:{ intros [= ->]. specialize (Hcaught _ eq_refl). discriminate. }
      destruct (changes_of _ (jedi.extract_variable _ _ _)) as [c2|e2] eqn:E2.
      2:{ intros [= ->]. apply changes_of_caught in E2. discriminate. }
      destruct (changes_of _ (jedi.extract_function _ _ _)) as [c3|e3] eqn:E3.
      2:{ intros [= ->]. apply changes_of_caught in E3. discriminate. }
      discriminate.
    + intros actions Hactions.
      destruct inline_part as [c1|e1] eqn:E1; [|discriminate].
      destruct (changes_of _ (jedi.extract_variable _ _ _)) as [c2|e2] eqn:E2;
        [|discriminate].
      destruct (changes_of _ (jedi.extract_function _ _ _)) as [c3|e3] eqn:E3;
        [|discriminate].
      injection Hactions as Hactions.
      apply or_none_Some in Hactions as [<- _].
      repeat split.
      * intros Hfails. specialize (Hinline Hfails). injection Hinline as ->.
        apply Forall_forall. intros a Ha.
        apply append_action_elem in Ha as [Ha|[-> _]]; [|congruence].
        apply append_action_elem in Ha as [Ha|[-> _]]; [|congruence].
        inversion Ha.
      * intros Hfails. unfold extract_variable_fails in Hfails.
        rewrite Hfails in E2. injection E2 as <-.
        apply Forall_forall. intros a Ha.
        apply append_action_elem in Ha as [Ha|[-> _]]; [|congruence].
        apply append_action_elem in Ha as [Ha|[_ Hne]]; [|congruence].
        apply append_action_elem in Ha as [Ha|[-> _]]; [inversion Ha|congruence].
      * intros Hfails. unfold extract_function_fails in Hfails.
        rewrite Hfails in E3. injection E3 as <-.
        apply Forall_forall. intros a Ha.
        apply append_action_elem in Ha as [Ha|[_ Hne]]; [|congruence].
        apply append_action_elem in Ha as [Ha|[-> _]]; [|congruence].
        apply append_action_elem in Ha as [Ha|[-> _]]; [inversion Ha|congruence].
    + intros H1 H2 H3. rewrite (Hinline H1).
      unfold extract_variable_fails in H2. unfold extract_function_fails in H3.
      rewrite H2, H3. reflexivity.
Qed.


(** ** Empty results *)

Lemma omap_all_None {A B} (f : A -> option B) (xs : list A) :
  Forall (fun x => f x = None) xs -> omap f xs = [].
Proof.
  induction 1 as [|x xs Hx _ IH]; [reflexivity|].
  cbn [omap list_omap]. now rewrite Hx.
Qed.


Lemma definition_outcome (params : TextDocumentPositionParams.t) (w : World) :
  let jedi_script :=
    jedi_utils.script (project (srv w))
      (pygls.get_document (workspace (srv w))
         (uri (TextDocumentPositionParams.text_document params))) in
  let jedi_lines :=
    jedi_utils.line_column (TextDocumentPositionParams.position params) in
  (definition params w).1 =
  Returned (or_none (omap jedi_utils.lsp_location
                       (jedi.goto jedi_script jedi_lines.1 jedi_lines.2 true true))).
Proof. reflexivity. Qed.

Lemma type_definition_outcome (params : TextDocumentPositionParams.t) (w : World) :
  let jedi_script :=
    jedi_utils.script (project (srv w))
      (pygls.get_document (workspace (srv w))
         (uri (TextDocumentPositionParams.text_document params))) in
  let jedi_lines :=
    jedi_utils.line_column (TextDocumentPositionParams.position params) in
  (type_definition params w).1 =
  Returned (or_none (omap jedi_utils.lsp_location
                       (jedi.infer jedi_script jedi_lines.1 jedi_lines.2))).
Proof. reflexivity. Qed.

Lemma references_outcome (params : TextDocumentPositionParams.t) (w : World) :
  let jedi_script :=
    jedi_utils.script (project (srv w))
      (pygls.get_document (workspace (srv w))
         (uri (TextDocumentPositionParams.text_document params))) in
  let jedi_lines :=
    jedi_utils.line_column (TextDocumentPositionParams.position params) in
  (references params w).1 =
  Returned (or_none (omap jedi_utils.lsp_location
                       (jedi.get_references jedi_script jedi_lines.1
                          jedi_lines.2 None))).
Proof. reflexivity. Qed.

Lemma highlight_outcome (params : TextDocumentPositionParams.t) (w : World) :
  let jedi_script :=
    jedi_utils.script (project (srv w))
      (pygls.get_document (workspace (srv w))
         (uri (TextDocumentPositionParams.text_document params))) in
  let jedi_lines :=
    jedi_utils.line_column (TextDocumentPositionParams.position params) in
  (highlight params w).1 =
  Returned (or_none
              (omap (fmap DocumentHighlight.mk)
                 (map jedi_utils.lsp_range
                    (jedi.get_references jedi_script jedi_lines.1 jedi_lines.2
                       (Some "file"))))).
Proof. reflexivity. Qed.

Lemma document_symbol_outcome (params : TextDocumentParams) (w : World) :
  let jedi_script :=
    jedi_utils.script (project (srv w))
      (pygls.get_document (workspace (srv w)) (uri (text_document params))) in
  let names := jedi.get_names jedi_script true true in
  (document_symbol params w).1 =
  Returned
    (if get_capability
          (hierarchical_document_symbol_support (client_capabilities (srv w)))
          false
     then Hierarchical <$> or_none (jedi_utils.lsp_document_symbols names)
     else Flat <$>
          or_none
            (omap jedi_utils.lsp_symbol_information
               (List.filter
                  (fun name => negb (String.eqb (jedi.type name) "param"))
                  names))).
Proof.
  intros jedi_script names.
  unfold document_symbol, get_document, script, ask, mbind, M_bind, bind, attr,
    emit, lift.
  cbn [fst snd srv trace]. fold jedi_script names.
  destruct (get_capability _ _); reflexivity.
Qed.







(** ** The negotiated markup kind *)


End properties.

(** * The handlers on the concrete client and engine *)

Section witnesses.

Import Py lsp server.

#[local] Existing Instances
  demo.re_api demo.json_api demo.options_api demo.jedi_api demo.pygls_api
  demo.jedi_utils_api demo.pygls_utils_api demo.text_edit_utils_api.

(** ** The definitions on small inputs *)

Example str_0 : str 0 = "0".
Proof. reflexivity. Qed.

Example str_1042 : str 1042 = "1042".
Proof. reflexivity. Qed.

Example zfill_pads : zfill (str 7) 3 = "007".
Proof. reflexivity. Qed.

Example zfill_keeps_sign : zfill "-7" 4 = "-007".
Proof. reflexivity. Qed.

Example zfill_never_cuts : zfill (str 1234) 2 = "1234".
Proof. reflexivity. Qed.

Example sort_text_of_a_hundred : sort_append_text (String.length (str 120)) 7 = "007".
Proof. reflexivity. Qed.

Example str_lt_padded : str_lt "009" "010" = true /\ str_lt "9" "10" = false.
Proof. split; reflexivity. Qed.

Example contains_folder : contains "/.venv/" "/w/.venv/lib/site.py" = true.
Proof. reflexivity. Qed.

Example contains_needs_both_slashes : contains "/.venv/" "/w/.venv" = false.
Proof. reflexivity. Qed.

Example _ignore_folder_venv :
  _ignore_folder "/w/.venv/lib/site.py" ["__pycache__"; ".venv"] = true
  /\ _ignore_folder "/w/pkg/venv.py" ["__pycache__"; ".venv"] = false.
Proof. split; reflexivity. Qed.

Example completion_default :
  (completion (demo.at_ "a.py" 0 0) (demo.after demo.init_default)).1
  = Returned
      (Some (mkCompletionList false
               [("alpha", "0"); ("_beta", "1"); ("gamma", "2")])).
Proof. vm_compute. reflexivity. Qed.

Example workspace_symbol_default :
  (workspace_symbol (mkWorkspaceSymbolParams "lo") (demo.after demo.init_default)).1
  = Returned (Some [("load", "/w/pkg/io.py"); ("Loader", "/w/pkg/loader.py")]).
Proof. vm_compute. reflexivity. Qed.

Example hover_asks_help :
  engine_queries
    (new_events (demo.after demo.init_default)
       (hover (demo.at_ "a.py" 4 0) (demo.after demo.init_default)).2)
  = [QHelp "a.py" 5 1].
Proof. vm_compute. reflexivity. Qed.

(** A client that declares an empty list of documentation formats: the
    subscript [markup_supported[0]] raises [IndexError]. *)
Example _choose_markup_empty_list :
  (_choose_markup
     (mkWorld
        (mkServer demo.default_options None None
           (mkClientCapabilities None (Some []) None) ∅) [])).1
  = Raised IndexError.
Proof. reflexivity. Qed.

(** ** The theorems at work *)

Lemma project_assigned_once_witness :
  lsp_initialize demo.init_default = Returned (tt, demo.after demo.init_default)
  /\ project (srv (demo.after demo.init_default))
     = Some (jedi.mkProject "/w" None [] true false)
  /\ project
       (srv (handle_all
               [m_did_open (demo.doc "a.py");
                m_completion (demo.at_ "a.py" 0 0);
                m_rename (RenameParams.mk (mkTextDocument "b.py") (mkPosition 0 0) "x");
                m_workspace_symbol (mkWorkspaceSymbolParams "lo")]
               (demo.after demo.init_default)))
     = Some (jedi.mkProject "/w" None [] true false).
Proof.
  assert (Hinit : lsp_initialize demo.init_default
                  = Returned (tt, demo.after demo.init_default))
    by (vm_compute; reflexivity).
  destruct (project_assigned_once (PYGLS:=demo.pygls_api) demo.init_default tt
              (demo.after demo.init_default) Hinit) as (Hassigned & _ & Hkept).
  split; [exact Hinit|]. split.
  - rewrite Hassigned. vm_compute. reflexivity.
  - rewrite Hkept, Hassigned. vm_compute. reflexivity.
Defined.

Lemma workspace_symbol_without_root_witness :
  project (srv (demo.after demo.init_rootless)) = None
  /\ (dispatch (m_workspace_symbol (mkWorkspaceSymbolParams "lo"))
        (handle_all [m_did_open (demo.doc "a.py")]
           (demo.after demo.init_rootless))).1
     = Returned (r_symbols None).
Proof.
  assert (Hinit : lsp_initialize demo.init_rootless
                  = Returned (tt, demo.after demo.init_rootless))
    by (vm_compute; reflexivity).
  assert (Hroot : truthy_str
                    (pygls.root_path (pygls.lsp_initialize demo.init_rootless).1.1)
                  = false) by reflexivity.
  destruct (workspace_symbol_without_root (PYGLS:=demo.pygls_api)
              demo.init_rootless tt
              (demo.after demo.init_rootless) Hinit Hroot) as (Hnone & Hlater).
  split; [exact Hnone|].
  apply (Hlater [m_did_open (demo.doc "a.py")] (mkWorkspaceSymbolParams "lo")).
Defined.

Lemma diagnostics_wiring_witness :
  lsp_initialize demo.init_quiet = Returned (tt, demo.after demo.init_quiet)
  /\ features (srv demo.quiet_later) !! TEXT_DOCUMENT_DID_OPEN
     = Some fn.did_open_default
  /\ features (srv demo.quiet_later) !! TEXT_DOCUMENT_DID_SAVE
     = Some fn.did_save_diagnostics
  /\ dispatch (m_did_open (demo.doc "a.py")) demo.quiet_later
     = (Returned r_none,
        (sync_workspace (m_did_open (demo.doc "a.py")) demo.quiet_later).2)
  /\ publications
       (new_events demo.quiet_later
          (dispatch (m_did_save (demo.doc "a.py")) demo.quiet_later).2)
     = [("a.py", [3])]
  /\ publications
       (new_events demo.quiet_later
          (dispatch (m_did_close (demo.doc "a.py")) demo.quiet_later).2)
     = [("a.py", [])].
Proof.
  assert (Hinit : lsp_initialize demo.init_quiet
                  = Returned (tt, demo.after demo.init_quiet))
    by (vm_compute; reflexivity).
  pose proof (diagnostics_wiring (PYGLS:=demo.pygls_api) demo.init_quiet tt
                (demo.after demo.init_quiet)
                [m_hover (demo.at_ "a.py" 0 0)] (demo.doc "a.py") Hinit) as H.
  cbv beta zeta in H.
  change (initialization_options.diagnostics
            (initialization_options (srv (demo.after demo.init_quiet))))
    with (initialization_options.mkDiagnostics true false true false) in H.
  cbn [initialization_options.enable initialization_options.did_open
       initialization_options.did_save initialization_options.did_change
       andb] in H.
  destruct H as ((Hopen & _ & Hsave & _) & Hdid_open & _ & Hdid_save & Hdid_close).
  split; [exact Hinit|]. split; [exact Hopen|]. split; [exact Hsave|].
  split; [exact Hdid_open|]. split; [|exact Hdid_close].
  etransitivity; [exact Hdid_save|]. vm_compute. reflexivity.
Defined.

Lemma invalid_options_fall_back_witness :
  (initialization_options.parse_obj (options_object demo.init_malformed)
   = Raised (ValidationError "value is not a valid dict")
   /\ exists w0,
        lsp_initialize demo.init_malformed = Returned (tt, w0)
        /\ initialization_options (srv w0) = demo.default_options
        /\ trace w0 =
             [ShowMessage
                "Invalid InitializationOptions, using defaults: value is not a valid dict"
                Error;
              ShowMessageLog
                "Invalid InitializationOptions, using defaults: value is not a valid dict"
                Error;
              SetJediSettings demo.default_options])
  /\ (pygls.initialization_options demo.init_default = None
      /\ options_object demo.init_default = demo.raw_empty
      /\ exists w0,
           lsp_initialize demo.init_default = Returned (tt, w0)
           /\ initialization_options (srv w0) = demo.default_options).
Proof.
  split.
  - split; [reflexivity|].
    exact (proj1 (invalid_options_fall_back (PYGLS:=demo.pygls_api)
                    demo.init_malformed)
             "value is not a valid dict" eq_refl).
  - split; [reflexivity|].
    destruct (proj2 (invalid_options_fall_back (PYGLS:=demo.pygls_api)
                       demo.init_default) eq_refl) as [Hobject Hadopted].
    split; [exact Hobject|].
    exact (Hadopted demo.default_options eq_refl).
Defined.

(** C3, as the specification words it, fails: the message that a
    malformed options object brings up has type [Error]; no message of
    type [Warning] is shown or logged. *)
Lemma invalid_options_message_is_no_warning :
  initialization_options.parse_obj (options_object demo.init_malformed)
  = Raised (ValidationError "value is not a valid dict")
  /\ lsp_initialize demo.init_malformed
     = Returned (tt, demo.after demo.init_malformed)
  /\ ~ (exists msg,
          ShowMessage msg Warning ∈ trace (demo.after demo.init_malformed)
          \/ ShowMessageLog msg Warning ∈ trace (demo.after demo.init_malformed))
  /\ (exists msg,
        ShowMessage msg Error ∈ trace (demo.after demo.init_malformed)
        /\ ShowMessageLog msg Error ∈ trace (demo.after demo.init_malformed)).
Proof.
  split; [reflexivity|]. split; [vm_compute; reflexivity|].
  assert (Htrace :
    trace (demo.after demo.init_malformed) =
    [ShowMessage
       "Invalid InitializationOptions, using defaults: value is not a valid dict"
       Error;
     ShowMessageLog
       "Invalid InitializationOptions, using defaults: value is not a valid dict"
       Error;
     SetJediSettings demo.default_options]) by (vm_compute; reflexivity).
  rewrite Htrace. split.
  - intros [msg [H|H]];
      repeat (apply elem_of_cons in H as [H|H]; [discriminate H|]);
      inversion H.
  - eexists. split; [apply list_elem_of_here|].
    apply list_elem_of_further, list_elem_of_here.
Qed.


Lemma hover_help_column_witness :
  (length
     (engine_queries
        (new_events (demo.after demo.init_default)
           (hover (demo.at_ "a.py" 4 0) (demo.after demo.init_default)).2))
   = 1
   /\ forall q,
        q ∈ engine_queries
              (new_events (demo.after demo.init_default)
                 (hover (demo.at_ "a.py" 4 0) (demo.after demo.init_default)).2) ->
        q = QHelp "a.py" 5 1)
  /\ (forall q,
        q ∈ engine_queries
              (new_events (demo.after demo.init_default)
                 (hover (demo.at_ "a.py" 4 7) (demo.after demo.init_default)).2) ->
        q = QHelp "a.py" 5 7).
Proof.
  split; [split|].
  - apply (hover_help_column (PYGLS:=demo.pygls_api) (demo.at_ "a.py" 4 0)
             (demo.after demo.init_default)).
    vm_compute. discriminate.
  - intros q Hq.
    exact (proj1 (hover_help_column (PYGLS:=demo.pygls_api)
                    (demo.at_ "a.py" 4 0) (demo.after demo.init_default))
             eq_refl q Hq).
  - intros q Hq.
    assert (Hcolumn :
      (jedi_utils.line_column
         (TextDocumentPositionParams.position (demo.at_ "a.py" 4 7))).2 <> 0%Z)
      by (vm_compute; discriminate).
    exact (proj1 (proj2 (hover_help_column (PYGLS:=demo.pygls_api)
                           (demo.at_ "a.py" 4 7) (demo.after demo.init_default)))
             Hcolumn q Hq).
Defined.

Lemma completion_sort_texts_witness :
  (completion (demo.at_ "a.py" 0 0) (demo.after demo.init_quiet)).1
  = Returned (Some (mkCompletionList false [("alpha", "0"); ("gamma", "1")]))
  /\ String.length (zfill (str 1) (String.length (str 3))) = String.length (str 3)
  /\ (str_lt (zfill (str 0) (String.length (str 3)))
        (zfill (str 1) (String.length (str 3))) = true <-> 0 < 1).
Proof.
  assert (Hreply :
    (completion (demo.at_ "a.py" 0 0) (demo.after demo.init_quiet)).1
    = Returned (Some (mkCompletionList false [("alpha", "0"); ("gamma", "1")])))
    by (vm_compute; reflexivity).
  split; [exact Hreply|].
  destruct (completion_sort_texts (PYGLS:=demo.pygls_api) (demo.at_ "a.py" 0 0)
              (demo.after demo.init_quiet)
              (mkCompletionList false [("alpha", "0"); ("gamma", "1")]) Hreply)
    as (_ & _ & Hwidth & Horder).
  split.
  - apply (Hwidth 1). simpl. lia.
  - apply (Horder 0 1); simpl; lia.
Defined.



Lemma refactoring_errors_degrade_witness :
  (rename (RenameParams.mk (mkTextDocument "b.py") (mkPosition 0 0) "x")
     (demo.after demo.init_default)).1 = Returned None
  /\ (code_action (demo.on_line "b.py" 2) (demo.after demo.init_default)).1
     = Returned None
  /\ (code_action (demo.on_line "a.py" 2) (demo.after demo.init_default)).1
     = Returned
         (Some [mkCodeAction "Extract expression into variable 'jls_extract_var'"
                  RefactorExtract (mkWorkspaceEdit ["jls_extract_var"])])
  /\ Forall (fun a => title a <> inline_title)
       [mkCodeAction "Extract expression into variable 'jls_extract_var'"
          RefactorExtract (mkWorkspaceEdit ["jls_extract_var"])].
Proof.
  pose proof (refactoring_errors_degrade (PYGLS:=demo.pygls_api)
                (demo.after demo.init_default)) as [Hrename Hactions].
  split; [|split; [|split]].
  - apply (Hrename (RenameParams.mk (mkTextDocument "b.py") (mkPosition 0 0) "x")).
    reflexivity.
  - apply (Hactions (demo.on_line "b.py" 2)); reflexivity.
  - vm_compute. reflexivity.
  - destruct (Hactions (demo.on_line "a.py" 2)) as (_ & Homitted & _).
    refine (proj1 (Homitted _ _) _); [vm_compute; reflexivity|reflexivity].
Defined.


End witnesses.

(** * Further properties of the handlers *)

Section further_properties.

Import Py lsp server.

Context {RE : re.Api} {JSON : json.Api} {OPT : initialization_options.Api}
        {JEDI : jedi.Api} {PYGLS : pygls.Api}
        {JU : jedi_utils.Api} {PU : pygls_utils.Api}
        {TEU : text_edit_utils.Api}.

(** ** Ignored folders *)

(** X1. [_ignore_folder] answers [True] exactly when the path holds some
    ignored folder between two slashes; in particular it answers [False]
    for an empty list of folders. *)
Theorem _ignore_folder_spec (path_check : string) (folders : list string) :
  (_ignore_folder path_check folders = true <->
   exists folder before rest,
     folder ∈ folders
     /\ path_check = (before ++ ("/" ++ folder ++ "/") ++ rest)%string)
  /\ _ignore_folder path_check [] = false.
Proof.
  split; [|reflexivity].
  induction folders as [|first folders IH]; cbn [_ignore_folder].
  - split; [discriminate|]. intros (folder & _ & _ & Hin & _). inversion Hin.
  - destruct (contains ("/" ++ first ++ "/") path_check) eqn:Hfirst.
    + split; [|reflexivity]. intros _.
      apply contains_spec in Hfirst as (before & rest & Hpath).
      exists first, before, rest. split; [apply list_elem_of_here|exact Hpath].
    + rewrite IH. split.
      * intros (folder & before & rest & Hin & Hpath).
        exists folder, before, rest. split; [now apply list_elem_of_further|exact Hpath].
      * intros (folder & before & rest & Hin & Hpath).
        apply elem_of_cons in Hin as [->|Hin].
        -- assert (contains ("/" ++ first ++ "/") path_check = true)
             by (apply contains_spec; eauto).
           congruence.
        -- eauto 6.
Qed.

(** ** Sort texts *)

Lemma digit_of_digit_char (d : nat) : d < 10 -> digit_of (digit_char d) = Some d.
Proof. intros Hd. do 10 (destruct d as [|d]; [reflexivity|]). lia. Qed.

Lemma decimal_go_render (ds : list nat) :
  Forall (fun d => d < 10) ds ->
  forall acc,
    decimal_go acc (render ds) = Some (acc * 10 ^ length ds + Py.value ds).
Proof.
  induction 1 as [|d ds Hd _ IH]; intros acc.
  - cbn. f_equal. lia.
  - change (render (d :: ds)) with (String (digit_char d) (render ds)).
    cbn [decimal_go]. rewrite digit_of_digit_char by exact Hd.
    rewrite IH. cbn [Py.value length]. f_equal. rewrite Nat.pow_succ_r'. lia.
Qed.

Lemma decimal_value_render (ds : list nat) :
  ds <> [] -> Forall (fun d => d < 10) ds ->
  decimal_value (render ds) = Some (Py.value ds).
Proof.
  intros Hne Hds. destruct ds as [|d ds]; [contradiction|].
  change (decimal_value (render (d :: ds)))
    with (decimal_go 0 (render (d :: ds))).
  now rewrite decimal_go_render.
Qed.

(** X2. The sort-append text of an index reads back as that index, for
    every width; so different indices never get the same text, and the
    text is as long as the width or, when the index has more digits, as
    the index: padding never cuts. *)
Theorem sort_append_text_decodes (total_completion_chars count : nat) :
  decimal_value (sort_append_text total_completion_chars count) = Some count
  /\ (forall other,
        sort_append_text total_completion_chars count
        = sort_append_text total_completion_chars other -> count = other)
  /\ String.length (sort_append_text total_completion_chars count)
     = Nat.max total_completion_chars (String.length (str count)).
Proof.
  assert (Hdecode : forall w i, decimal_value (sort_append_text w i) = Some i).
  { intros w i. unfold sort_append_text. rewrite zfill_str.
    rewrite decimal_value_render.
    - now rewrite padded_value.
    - unfold padded. pose proof (digits_nonempty i) as Hne.
      destruct (digits i); [simpl in Hne; lia|].
      now destruct (replicate _ _).
    - apply padded_small. }
  split; [apply Hdecode|]. split.
  - intros other Hsame.
    pose proof (Hdecode total_completion_chars count) as H1.
    rewrite Hsame, Hdecode in H1. congruence.
  - unfold sort_append_text. rewrite zfill_str, render_length.
    unfold str. rewrite render_length. unfold padded.
    rewrite length_app, length_replicate. lia.
Qed.

(** ** Completion filters *)

(** X3. The branch of [completion] for an empty list of ignore patterns
    is the general filter: in both branches the completions kept are those
    whose name no pattern matches, in the engine's order.  So a reply has
    as many items as there are such completions, all of them when there
    is no pattern. *)
Theorem completion_ignore_patterns (params : TextDocumentPositionParams.t)
    (w : World) (reply : CompletionList pygls.CompletionItem) :
  (completion params w).1 = Returned (Some reply) ->
  let patterns :=
    initialization_options.ignore_patterns
      (initialization_options.completion (initialization_options (srv w))) in
  let raw :=
    jedi.complete
      (jedi_utils.script (project (srv w))
         (pygls.get_document (workspace (srv w))
            (uri (TextDocumentPositionParams.text_document params))))
      (jedi_utils.line_column (TextDocumentPositionParams.position params)).1
      (jedi_utils.line_column (TextDocumentPositionParams.position params)).2 in
  let unmatched comp :=
    forallb (fun i => negb (re.match_ i (jedi.name comp))) patterns in
  unignored_completions patterns raw = List.filter unmatched raw
  /\ length (items reply) = length (List.filter unmatched raw)
  /\ (patterns = [] -> length (items reply) = length raw).
Proof.
  intros Hreply patterns raw unmatched.
  assert (Hfilter : unignored_completions patterns raw = List.filter unmatched raw).
  { unfold unignored_completions, unmatched.
    destruct patterns as [|p patterns].
    - induction raw as [|c raw IH]; [reflexivity|].
      cbn [List.filter forallb]. f_equal. exact IH.
    - apply filter_ext. intros comp.
      induction (p :: patterns) as [|q qs IH]; [reflexivity|].
      cbn [existsb forallb]. rewrite negb_orb. now rewrite IH. }
  assert (Hlen : length (items reply) = length (unignored_completions patterns raw)).
  { rewrite completion_run in Hreply. cbv zeta in Hreply.
    fold patterns raw in Hreply.
    destruct (markup_of w) as [k|e]; [|discriminate]. cbn [fst] in Hreply.
    match type of Hreply with
    | Returned (match ?l with _ => _ end) = _ =>
        assert (Hitems : items reply = l)
          by (destruct l; [discriminate|injection Hreply as <-; reflexivity])
    end.
    rewrite Hitems. apply length_imap. }
  split; [exact Hfilter|]. split.
  - now rewrite Hlen, Hfilter.
  - intros Hnone. rewrite Hlen. now rewrite Hnone.
Qed.


(** ** What handlers add to the trace *)

Lemma emits_ret {A} (allowed : event -> Prop) (a : A) : emits allowed (mret a).
Proof. intros w. exists []. split; [now rewrite app_nil_r|constructor]. Qed.

Lemma emits_raise {A} (allowed : event -> Prop) (e : exn) :
  emits allowed (@raise _ _ _ _ A e).
Proof. intros w. exists []. split; [now rewrite app_nil_r|constructor]. Qed.

Lemma emits_attr {A} (allowed : event -> Prop) (f : JediLanguageServer -> A) :
  emits allowed (attr f).
Proof. intros w. exists []. split; [now rewrite app_nil_r|constructor]. Qed.

Lemma emits_lift {A} (allowed : event -> Prop) (o : outcome A) :
  emits allowed (lift o).
Proof. intros w. exists []. split; [now rewrite app_nil_r|constructor]. Qed.

Lemma emits_emit (allowed : event -> Prop) (ev : event) :
  allowed ev -> emits allowed (emit ev).
Proof. intros Hev w. exists [ev]. split; [reflexivity|now constructor]. Qed.

Lemma emits_bind {A B} (allowed : event -> Prop) (m : M A) (k : A -> M B) :
  emits allowed m -> (forall a, emits allowed (k a)) -> emits allowed (m ≫= k).
Proof.
  intros Hm Hk w. unfold mbind, M_bind, bind.
  destruct (Hm w) as (added & Htrace & Hadded).
  destruct (m w) as [[a|e] w']; cbn [snd] in *.
  - destruct (Hk a w') as (more & Htrace' & Hmore).
    exists (added ++ more)%list. split.
    + now rewrite Htrace', Htrace, app_assoc.
    + now apply Forall_app.
  - now exists added.
Qed.

Lemma emits_fmap {A B} (allowed : event -> Prop) (f : A -> B) (m : M A) :
  emits allowed m -> emits allowed (f <$> m).
Proof.
  intros Hm. unfold fmap, M_fmap.
  apply (emits_bind allowed m (fun a => ret (f a))); [exact Hm|].
  intros a. apply emits_ret.
Qed.

Lemma emits_ask {A} (allowed : event -> Prop) (q : engine_query)
    (answer : outcome A) :
  allowed (Engine q) -> emits allowed (ask q answer).
Proof.
  intros Hq. unfold ask.
  apply (emits_bind allowed (emit (Engine q)) (fun _ => lift answer)).
  - now apply emits_emit.
  - intros _. apply emits_lift.
Qed.

Lemma emits_try_except {A B} (allowed : event -> Prop) (body : M A)
    (handles : exn -> bool) (handler : M B) (orelse : A -> M B) :
  emits allowed body -> emits allowed handler ->
  (forall a, emits allowed (orelse a)) ->
  emits allowed (try_except body handles handler orelse).
Proof.
  intros Hb Hh Ho w. unfold try_except.
  destruct (Hb w) as (added & Htrace & Hadded).
  destruct (body w) as [[a|e] w']; cbn [snd] in *.
  - destruct (Ho a w') as (more & Htrace' & Hmore).
    exists (added ++ more)%list. split.
    + now rewrite Htrace', Htrace, app_assoc.
    + now apply Forall_app.
  - destruct (handles e); [|now exists added].
    destruct (Hh w') as (more & Htrace' & Hmore).
    exists (added ++ more)%list. split.
    + now rewrite Htrace', Htrace, app_assoc.
    + now apply Forall_app.
Qed.

Lemma emits_weaken {A} (allowed allowed' : event -> Prop) (m : M A) :
  (forall ev, allowed ev -> allowed' ev) -> emits allowed m -> emits allowed' m.
Proof.
  intros Himpl Hm w. destruct (Hm w) as (added & Htrace & Hadded).
  exists added. split; [exact Htrace|]. eapply Forall_impl; eauto.
Qed.

(** Walk through the body of a handler whose events are all [allowed]. *)
Ltac emits_steps :=
  repeat first
    [ progress intros
    | apply emits_ret | apply emits_raise | apply emits_attr | apply emits_lift
    | apply emits_bind | apply emits_fmap | apply emits_try_except
    | apply emits_emit; exact I | apply emits_ask; exact I
    | progress cbv zeta
    | match goal with
      | |- emits _ (match ?x with _ => _ end) => destruct x
      | |- emits _ (if ?x then _ else _) => destruct x
      end ].

Lemma emits__choose_markup : emits internal _choose_markup.
Proof. unfold _choose_markup. emits_steps. Qed.

Lemma emits_refactoring_changes (call : M jedi.Refactoring) :
  emits internal call -> emits internal (refactoring_changes call).
Proof. intros H. unfold refactoring_changes. emits_steps. exact H. Qed.

Lemma emits_call_internal (f : fn.t) (msg : message) :
  publishes f = false -> emits internal (call f msg).
Proof.
  pose proof emits__choose_markup.
  intros Hf.
  destruct f; try discriminate Hf; destruct msg; unfold call;
    try apply emits_raise;
    unfold completion_item_resolve, completion, signature_help, definition,
      type_definition, highlight, hover, references, document_symbol,
      workspace_symbol, rename, code_action, did_change_configuration,
      did_save_default, did_change_default, did_open_default, did_close_default,
      get_document, script;
    emits_steps; auto; try (apply emits_refactoring_changes; emits_steps).
Qed.

Lemma emits__publish_diagnostics (doc_uri : string) :
  emits (fun ev => internal ev \/ exists ds, ev = PublishDiagnostics doc_uri ds)
    (_publish_diagnostics doc_uri).
Proof.
  intros w. rewrite _publish_diagnostics_run. eexists. split; [reflexivity|].
  constructor; [left; exact I|]. constructor; [right; eauto|constructor].
Qed.

(** X4. Whatever function is called on whatever message, the trace only
    grows, and what is added is a question to the engine, a reset of the
    completion cache or, for the four diagnostics functions alone, a
    publication of diagnostics for the document of the notification.  No
    handler shows or logs a message. *)
Theorem handlers_stay_internal (f : fn.t) (msg : message) :
  emits
    (fun ev =>
       internal ev
       \/ (publishes f = true
           /\ exists doc_uri ds,
                document_uri msg = Some doc_uri
                /\ ev = PublishDiagnostics doc_uri ds))
    (call f msg).
Proof.
  destruct (publishes f) eqn:Hf.
  2:{ eapply emits_weaken; [|apply (emits_call_internal f msg Hf)]. now left. }
  assert (Hpublish : forall params : TextDocumentParams,
    emits
      (fun ev =>
         internal ev
         \/ (true = true
             /\ exists doc_uri ds,
                  Some (uri (text_document params)) = Some doc_uri
                  /\ ev = PublishDiagnostics doc_uri ds))
      (_publish_diagnostics (uri (text_document params));; mret r_none)).
  { intros params. apply emits_bind; [|intros; apply emits_ret].
    eapply emits_weaken; [|apply emits__publish_diagnostics].
    intros ev [Hev|[ds ->]]; [now left|right]. split; [reflexivity|eauto]. }
  destruct f; try discriminate Hf; destruct msg; unfold call;
    try apply emits_raise; try apply Hpublish.
  unfold did_close_diagnostics. apply emits_bind; [|intros; apply emits_ret].
  apply emits_emit. right. split; [reflexivity|]. cbn [document_uri]. eauto.
Qed.

(** ** The registry after initialization *)

Lemma register_features_lookup (options : initialization_options.InitializationOptions)
    (msg : message) :
  register_features options !! method msg =
  if served options msg then Some (handler_for options msg) else None.
Proof.
  unfold register_features, SERVER, feature, served, handler_for. cbv zeta.
  destruct (initialization_options.hover_enable _); destruct msg;
    cbv beta iota; cbn [method];
    repeat (rewrite lookup_insert_ne by (compute; discriminate));
    first [apply lookup_insert_eq | apply lookup_empty].
Qed.

Lemma features_served (params : pygls.InitializeParams)
    (result : pygls.InitializeResult) (w0 : World) (msgs : list message)
    (msg : message) :
  lsp_initialize params = Returned (result, w0) ->
  features (srv (handle_all msgs w0)) !! method msg =
  if served (initialization_options (srv w0)) msg
  then Some (handler_for (initialization_options (srv w0)) msg)
  else None.
Proof.
  intros Hinit.
  destruct (lsp_initialize_inv _ _ _ Hinit)
    as (options & shown & _ & Hopt & _ & _ & _ & Hfeat & _).
  destruct (handle_all_srv msgs w0) as (_ & _ & _ & ->).
  rewrite Hfeat, Hopt. apply register_features_lookup.
Qed.

(** X5. After initialization and any later messages, every message is
    served by the function the module registers for its method (for the
    four text notifications, the one chosen by the diagnostics options);
    hover alone is registered only when [hover.enable] is set, and is
    unknown to the registry otherwise. *)
Theorem features_after_initialize (params : pygls.InitializeParams)
    (result : pygls.InitializeResult) (w0 : World) :
  lsp_initialize params = Returned (result, w0) ->
  forall msgs msg,
    let w := handle_all msgs w0 in
    let options := initialization_options (srv w0) in
    features (srv w) !! method msg =
      (if served options msg then Some (handler_for options msg) else None)
    /\ (served options msg = true ->
        dispatch msg w = call (handler_for options msg) msg (sync_workspace msg w).2)
    /\ (served options msg = false ->
        exists params', msg = m_hover params'
                        /\ features (srv w) !! HOVER = None).
Proof.
  intros Hinit msgs msg w options.
  pose proof (features_served params result w0 msgs msg Hinit) as Hlookup.
  fold w options in Hlookup.
  split; [exact Hlookup|]. split.
  - intros Hserved. rewrite Hserved in Hlookup.
    now apply dispatch_registered.
  - intros Hserved. rewrite Hserved in Hlookup.
    destruct msg; try discriminate Hserved. eauto.
Qed.

(** ** A server with diagnostics switched off *)

Lemma handler_for_silent (options : initialization_options.InitializationOptions)
    (msg : message) :
  initialization_options.enable (initialization_options.diagnostics options)
  = false ->
  publishes (handler_for options msg) = false.
Proof. intros Hoff. destruct msg; cbn; rewrite ?Hoff; reflexivity. Qed.

Lemma dispatch_trace (msg : message) (w : World) (f : fn.t) :
  features (srv w) !! method msg = Some f ->
  publishes f = false ->
  exists added,
    trace (dispatch msg w).2 = (trace w ++ added)%list /\ Forall internal added.
Proof.
  intros Hf Hsilent. rewrite (dispatch_registered msg w f Hf).
  destruct (emits_call_internal f msg Hsilent (sync_workspace msg w).2)
    as (added & Htrace & Hadded).
  exists added. split; [exact Htrace|exact Hadded].
Qed.

Lemma dispatch_unregistered (msg : message) (w : World) :
  features (srv w) !! method msg = None ->
  trace (dispatch msg w).2 = trace w.
Proof.
  intros Hnone. unfold dispatch, mbind, M_bind, bind, sync_workspace, attr.
  cbn [fst snd srv features]. now rewrite Hnone.
Qed.

(** X6. When [diagnostics.enable] is off, the server sends the client
    no notification after initialization: over any sequence of messages
    it only asks the engine and resets the completion cache, so no
    diagnostics are ever published, whatever the per-event toggles say. *)
Theorem diagnostics_disabled_for_good (params : pygls.InitializeParams)
    (result : pygls.InitializeResult) (w0 : World) :
  lsp_initialize params = Returned (result, w0) ->
  initialization_options.enable
    (initialization_options.diagnostics (initialization_options (srv w0)))
  = false ->
  forall msgs,
    (exists added,
       trace (handle_all msgs w0) = (trace w0 ++ added)%list
       /\ Forall internal added)
    /\ publications (new_events w0 (handle_all msgs w0)) = [].
Proof.
  intros Hinit Hoff msgs.
  assert (Hgrow : exists added,
            trace (handle_all msgs w0) = (trace w0 ++ added)%list
            /\ Forall internal added).
  { induction msgs as [|msg msgs IH] using rev_ind.
    - exists []. split; [now rewrite app_nil_r|constructor].
    - destruct IH as (added & Htrace & Hadded).
      unfold handle_all. rewrite foldl_app. cbn [foldl].
      fold (handle_all msgs w0).
      pose proof (features_served params result w0 msgs msg Hinit) as Hlookup.
      destruct (served _ msg).
      + destruct (dispatch_trace msg (handle_all msgs w0) _ Hlookup
                    (handler_for_silent _ msg Hoff))
          as (more & Htrace' & Hmore).
        exists (added ++ more)%list. split.
        * now rewrite Htrace', Htrace, app_assoc.
        * now apply Forall_app.
      + rewrite (dispatch_unregistered msg _ Hlookup). now exists added. }
  split; [exact Hgrow|].
  destruct Hgrow as (added & Htrace & Hadded).
  unfold new_events. rewrite Htrace, drop_app_length.
  unfold publications. apply omap_all_None.
  eapply Forall_impl; [exact Hadded|].
  intros ev Hev. destruct ev; try reflexivity; destruct Hev.
Qed.

(** ** Options that validate, and other failures *)

(** X7. When the options object validates, the parsed options are
    adopted and no message is shown or logged: initialization leaves the
    settings call as its only trace.  An exception of [parse_obj] other
    than [ValidationError] is not caught: initialization raises it. *)
Theorem valid_options_adopted (params : pygls.InitializeParams) :
  (forall options,
     initialization_options.parse_obj (options_object params) = Returned options ->
     exists w0,
       lsp_initialize params = Returned ((pygls.lsp_initialize params).2, w0)
       /\ initialization_options (srv w0) = options
       /\ trace w0 = [SetJediSettings options])
  /\ (forall e,
        initialization_options.parse_obj (options_object params) = Raised e ->
        (forall text, e <> ValidationError text) ->
        lsp_initialize params = Raised e).
Proof.
  split.
  - intros options Hparse. unfold lsp_initialize, read_initialization_options.
    rewrite Hparse. destruct (pygls.lsp_initialize params) as [[ws caps] res].
    eexists. split; [reflexivity|]. split; reflexivity.
  - intros e Hparse Hother. unfold lsp_initialize, read_initialization_options.
    rewrite Hparse. destruct e; try reflexivity.
    now destruct (Hother text).
Qed.

(** ** A server with a workspace root *)

(** X8. Initialized with a non-empty workspace root, the server holds a
    project for that root, with the environment path and the extra paths
    of the options, smart sys path on and unsafe extensions off; and every
    later workspace/symbol request puts exactly one question to the
    engine: the search for the text of the request in that project. *)
Theorem workspace_symbol_with_root (params : pygls.InitializeParams)
    (result : pygls.InitializeResult) (w0 : World) (root : string) :
  lsp_initialize params = Returned (result, w0) ->
  pygls.root_path (pygls.lsp_initialize params).1.1 = Some root ->
  root <> "" ->
  let options := initialization_options.workspace (initialization_options (srv w0)) in
  let the_project :=
    jedi.mkProject root (initialization_options.environment_path options)
      (initialization_options.extra_paths options) true false in
  project (srv w0) = Some the_project
  /\ forall msgs request,
       let w := handle_all msgs w0 in
       engine_queries (new_events w (workspace_symbol request w).2)
       = [QCompleteSearch the_project (query request)].
Proof.
  intros Hinit Hroot Hne options the_project.
  destruct (lsp_initialize_inv _ _ _ Hinit)
    as (opts & shown & _ & Hopt & Hproj & _).
  assert (Hsome : project (srv w0) = Some the_project).
  { rewrite Hproj. unfold new_project. rewrite Hroot.
    destruct root as [|c root]; [contradiction|].
    unfold the_project, options. now rewrite Hopt. }
  split; [exact Hsome|].
  intros msgs request w.
  assert (Hw : project (srv w) = Some the_project).
  { unfold w. destruct (handle_all_srv msgs w0) as (_ & -> & _). exact Hsome. }
  rewrite (workspace_symbol_run request w the_project Hw). cbv zeta.
  destruct (maxsize <? _)%Z; [cbn [snd]; now rewrite new_events_app|].
  destruct (take_symbols _ _ _ _); cbn [snd];
    now rewrite new_events_app.
Qed.

(** ** Code actions *)

(** The questions [code_action] puts to the engine: inline unless the
    range spans several lines, then the two extractions, each only if no
    exception has escaped before. *)
Lemma code_action_queries (params : CodeActionParams.t) (w : World) :
  let jedi_script :=
    jedi_utils.script (project (srv w))
      (pygls.get_document (workspace (srv w))
         (uri (CodeActionParams.text_document params))) in
  let jedi_lines :=
    jedi_utils.line_column (start (CodeActionParams.range params)) in
  let jedi_lines_extract :=
    jedi_utils.line_column_range (CodeActionParams.range params) in
  let names := initialization_options.code_action (initialization_options (srv w)) in
  let extract_var := initialization_options.name_extract_variable names in
  let extract_func := initialization_options.name_extract_function names in
  let several_lines :=
    bool_decide (lsp.line (start (CodeActionParams.range params))
                 ≠ lsp.line (end_ (CodeActionParams.range params))) in
  engine_queries (new_events w (code_action params w).2) =
  ((if several_lines then []
    else [QInline jedi_script jedi_lines.1 jedi_lines.2]) ++
   match (if several_lines then Returned []
          else changes_of (workspace (srv w))
                 (jedi.inline jedi_script jedi_lines.1 jedi_lines.2)) with
   | Raised _ => []
   | Returned _ =>
       QExtractVariable jedi_script extract_var jedi_lines_extract ::
       match changes_of (workspace (srv w))
               (jedi.extract_variable jedi_script extract_var jedi_lines_extract)
       with
       | Raised _ => []
       | Returned _ =>
           [QExtractFunction jedi_script extract_func jedi_lines_extract]
       end
   end)%list.
Proof.
  intros jedi_script jedi_lines jedi_lines_extract names extract_var extract_func
    several_lines.
  unfold code_action, get_document, script, mbind, M_bind, bind, attr.
  cbn [fst snd]. cbv zeta.
  fold jedi_script jedi_lines jedi_lines_extract names extract_var extract_func
    several_lines.
  destruct several_lines.
  - rewrite refactoring_changes_raise, refactoring_changes_ask.
    destruct (changes_of _ (jedi.extract_variable _ _ _)).
    + rewrite refactoring_changes_ask. cbn [srv trace].
      destruct (changes_of _ (jedi.extract_function _ _ _));
        unfold ret; cbn [snd];
        rewrite <- app_assoc, new_events_app; reflexivity.
    + cbn [snd]. rewrite new_events_app. reflexivity.
  - rewrite refactoring_changes_ask.
    destruct (changes_of _ (jedi.inline _ _ _)).
    + rewrite refactoring_changes_ask. cbn [srv trace].
      destruct (changes_of _ (jedi.extract_variable _ _ _)).
      * rewrite refactoring_changes_ask. cbn [srv trace].
        destruct (changes_of _ (jedi.extract_function _ _ _));
          unfold ret; cbn [snd];
          rewrite <- !app_assoc, new_events_app; reflexivity.
      * cbn [snd]. rewrite <- app_assoc, new_events_app. reflexivity.
    + cbn [snd]. rewrite new_events_app. reflexivity.
Qed.

(** The actions of a reply, by the changes of the three refactorings. *)
Lemma code_action_reply (params : CodeActionParams.t) (w : World)
    (actions : list (CodeAction pygls.DocumentChange)) :
  (code_action params w).1 = Returned (Some actions) ->
  let names := initialization_options.code_action (initialization_options (srv w)) in
  exists inline_changes extract_variable_changes extract_function_changes,
    actions =
    append_action
      (append_action
         (append_action [] inline_title RefactorInline inline_changes)
         (extract_variable_title
            (initialization_options.name_extract_variable names))
         RefactorExtract extract_variable_changes)
      (extract_function_title
         (initialization_options.name_extract_function names))
      RefactorExtract extract_function_changes
    /\ (lsp.line (start (CodeActionParams.range params))
        <> lsp.line (end_ (CodeActionParams.range params)) ->
        inline_changes = []).
Proof.
  intros Hreply names. rewrite code_action_outcome in Hreply. cbv zeta in Hreply.
  fold names in Hreply.
  destruct (if bool_decide _ then _ else _) as [c1|] eqn:E1; [|discriminate].
  destruct (changes_of _ (jedi.extract_variable _ _ _)) as [c2|];
    [|discriminate].
  destruct (changes_of _ (jedi.extract_function _ _ _)) as [c3|];
    [|discriminate].
  injection Hreply as Hreply. apply or_none_Some in Hreply as [<- _].
  exists c1, c2, c3. split; [reflexivity|].
  intros Hlines. rewrite bool_decide_eq_true_2 in E1 by exact Hlines. congruence.
Qed.

(** X9. For a range that spans several lines [code_action] does not ask
    the engine to inline, and offers no inline action: every action of
    the reply is an extraction. *)
Theorem code_action_several_lines (params : CodeActionParams.t) (w : World) :
  lsp.line (start (CodeActionParams.range params))
  <> lsp.line (end_ (CodeActionParams.range params)) ->
  (forall q,
     q ∈ engine_queries (new_events w (code_action params w).2) ->
     forall s l c, q <> QInline s l c)
  /\ (forall actions,
        (code_action params w).1 = Returned (Some actions) ->
        Forall (fun a => action_kind a = RefactorExtract
                         /\ title a <> inline_title) actions).
Proof.
  intros Hlines. split.
  - intros q Hq s l c. rewrite code_action_queries in Hq. cbv zeta in Hq.
    rewrite bool_decide_eq_true_2 in Hq by exact Hlines.
    cbn [app] in Hq.
    apply elem_of_cons in Hq as [->|Hq]; [discriminate|].
    destruct (changes_of _ _); [|inversion Hq].
    apply list_elem_of_singleton in Hq. subst q. discriminate.
  - intros actions Hreply.
    destruct (code_action_reply params w actions Hreply)
      as (c1 & c2 & c3 & -> & Hc1).
    rewrite (Hc1 Hlines).
    pose proof (titles_distinct
      (initialization_options.name_extract_variable
         (initialization_options.code_action (initialization_options (srv w))))
      (initialization_options.name_extract_function
         (initialization_options.code_action (initialization_options (srv w)))))
      as (T1 & T2 & _).
    destruct c2, c3; cbn [append_action app];
      repeat (constructor; [split; [reflexivity|cbn [title]; congruence]|]);
      constructor.
Qed.

(** X10. rename lets every engine exception but [RefactoringError]
    through.  [code_action] also swallows [AttributeError] and
    [IndexError], and never raises any of the three; an exception of
    another kind raised by inline ends the request at once, before the
    extractions are asked for. *)
Theorem refactoring_exceptions (w : World) :
  (forall (params : RenameParams.t) e,
     jedi.rename
       (jedi_utils.script (project (srv w))
          (pygls.get_document (workspace (srv w))
             (uri (RenameParams.text_document params))))
       (jedi_utils.line_column (RenameParams.position params)).1
       (jedi_utils.line_column (RenameParams.position params)).2
       (RenameParams.new_name params) = Raised e ->
     e <> RefactoringError ->
     (rename params w).1 = Raised e)
  /\ (forall (params : CodeActionParams.t) e,
        not_applicable e = true -> (code_action params w).1 <> Raised e)
  /\ (forall (params : CodeActionParams.t) e,
        let jedi_script :=
          jedi_utils.script (project (srv w))
            (pygls.get_document (workspace (srv w))
               (uri (CodeActionParams.text_document params))) in
        let jedi_lines :=
          jedi_utils.line_column (start (CodeActionParams.range params)) in
        lsp.line (start (CodeActionParams.range params))
        = lsp.line (end_ (CodeActionParams.range params)) ->
        jedi.inline jedi_script jedi_lines.1 jedi_lines.2 = Raised e ->
        not_applicable e = false ->
        (code_action params w).1 = Raised e
        /\ engine_queries (new_events w (code_action params w).2)
           = [QInline jedi_script jedi_lines.1 jedi_lines.2]).
Proof.
  split; [|split].
  - intros params e Hraise Hother. rewrite rename_outcome. cbv zeta.
    rewrite Hraise. destruct e; try reflexivity. contradiction.
  - intros params e Hcaught. rewrite code_action_outcome. cbv zeta.
    destruct (if bool_decide _ then _ else _) as [c1|e1] eqn:E1.
    2:{ intros [= ->]. destruct (bool_decide _); [discriminate|].
        apply changes_of_caught in E1. congruence. }
    destruct (changes_of _ (jedi.extract_variable _ _ _)) as [c2|e2] eqn:E2.
    2:{ intros [= ->]. apply changes_of_caught in E2. congruence. }
    destruct (changes_of _ (jedi.extract_function _ _ _)) as [c3|e3] eqn:E3.
    2:{ intros [= ->]. apply changes_of_caught in E3. congruence. }
    discriminate.
  - intros params e jedi_script jedi_lines Hlines Hraise Hother.
    rewrite code_action_outcome, code_action_queries. cbv zeta.
    fold jedi_script jedi_lines.
    rewrite bool_decide_eq_false_2 by (intros H; now apply H).
    rewrite Hraise. cbn [changes_of]. rewrite Hother. split; reflexivity.
Qed.

Lemma append_action_cases (acc : list (CodeAction pygls.DocumentChange))
    (action_title : string) (kind : CodeActionKind)
    (changes : list pygls.DocumentChange) :
  (changes = [] /\ append_action acc action_title kind changes = acc)
  \/ (changes <> []
      /\ append_action acc action_title kind changes
         = (acc ++ [mkCodeAction action_title kind (mkWorkspaceEdit changes)])%list).
Proof. destruct changes; [left|right]; easy. Qed.

(** X11. A reply of [code_action] holds at most three actions, in the
    order inline, extract variable, extract function, each at most once:
    the titles are pairwise different.  The inline action has kind
    [RefactorInline], the extractions [RefactorExtract], and every action
    carries an edit with at least one document change. *)
Theorem code_action_reply_shape (params : CodeActionParams.t) (w : World)
    (actions : list (CodeAction pygls.DocumentChange)) :
  (code_action params w).1 = Returned (Some actions) ->
  let names := initialization_options.code_action (initialization_options (srv w)) in
  let extract_var := initialization_options.name_extract_variable names in
  let extract_func := initialization_options.name_extract_function names in
  length actions <= 3
  /\ NoDup (map title actions)
  /\ map title actions
     `sublist_of` [inline_title; extract_variable_title extract_var;
                   extract_function_title extract_func]
  /\ Forall
       (fun a =>
          document_changes (edit a) <> []
          /\ (action_kind a = RefactorInline <-> title a = inline_title)
          /\ (action_kind a = RefactorExtract <-> title a <> inline_title))
       actions.
Proof.
  intros Hreply names extract_var extract_func.
  destruct (code_action_reply params w actions Hreply)
    as (c1 & c2 & c3 & -> & _).
  fold names extract_var extract_func.
  pose proof (titles_distinct extract_var extract_func) as (T1 & T2 & T3).
  destruct (append_action_cases [] inline_title RefactorInline c1)
    as [[_ ->]|[H1 ->]];
  match goal with
  | |- context [append_action ?acc (extract_variable_title _) _ _] =>
      destruct (append_action_cases acc (extract_variable_title extract_var)
                  RefactorExtract c2) as [[_ ->]|[H2 ->]]
  end;
  match goal with
  | |- context [append_action ?acc (extract_function_title _) _ _] =>
      destruct (append_action_cases acc (extract_function_title extract_func)
                  RefactorExtract c3) as [[_ ->]|[H3 ->]]
  end;
  cbn [app map length title];
  (split; [lia|]);
  (split; [repeat (apply NoDup_cons_2;
                   [rewrite ?not_elem_of_cons; repeat split;
                    try apply not_elem_of_nil; congruence|]);
           apply NoDup_nil_2|]);
  (split; [repeat first [apply sublist_skip | apply sublist_cons
                        | apply sublist_nil ];
           repeat constructor|]);
  repeat (constructor;
          [cbn [edit document_changes action_kind title];
           split; [assumption|split; split; intros; congruence]|]);
  constructor.
Qed.

(** ** Signature help, hover, completion items, document symbols *)

(** X12. A signature-help reply lists one signature per engine signature,
    in the engine's order, each labelled by [signature_string] and with
    one parameter per engine parameter; the first signature is the active
    one and its index, as the engine gives it, the active parameter. *)
Theorem signature_help_shape (params : TextDocumentPositionParams.t)
    (w : World) (reply : SignatureHelp) :
  (signature_help params w).1 = Returned (Some reply) ->
  let signatures_jedi :=
    jedi.get_signatures
      (jedi_utils.script (project (srv w))
         (pygls.get_document (workspace (srv w))
            (uri (TextDocumentPositionParams.text_document params))))
      (jedi_utils.line_column (TextDocumentPositionParams.position params)).1
      (jedi_utils.line_column (TextDocumentPositionParams.position params)).2 in
  active_signature reply = 0
  /\ map SignatureInformation.label (signatures reply)
     = map jedi_utils.signature_string signatures_jedi
  /\ map (fun s => map label (SignatureInformation.parameters s))
       (signatures reply)
     = map (fun s => map jedi.to_string (jedi.params s)) signatures_jedi
  /\ exists first rest,
       signatures_jedi = first :: rest
       /\ active_parameter reply = jedi.index first.
Proof.
  intros Hreply signatures_jedi.
  rewrite signature_help_run in Hreply. cbv zeta in Hreply.
  fold signatures_jedi in Hreply.
  destruct (markup_of w) as [k|e]; [|discriminate]. cbn [fst] in Hreply.
  destruct signatures_jedi as [|first rest]; [discriminate|].
  injection Hreply as <-. cbn [active_signature signatures active_parameter].
  split; [reflexivity|]. split; [|split].
  - cbn [map SignatureInformation.label]. f_equal. now rewrite map_map.
  - cbn [map SignatureInformation.parameters]. f_equal; [now rewrite map_map|].
    rewrite map_map. apply map_ext. intros s.
    cbn [SignatureInformation.parameters]. now rewrite map_map.
  - eauto.
Qed.

(** X13. Once the markup kind is settled, hover does what the engine's
    [help] allows.  When [help] raises, as jedi does with [ValueError]
    for a column past the end of the line (column 1 of an empty line,
    which hover asks for at column 0), hover raises the same exception;
    so hover returns only when [help] has answered.  When [help] answers,
    hover replies exactly when the helper has a text with at least one
    character: its reply carries that text, the negotiated kind and the
    range of the word under the cursor, and never empty contents;
    without a text, or with the empty text, it returns [None]. *)
Theorem hover_contents (params : TextDocumentPositionParams.t) (w : World)
    (k : MarkupKind) :
  markup_of w = Returned k ->
  let document :=
    pygls.get_document (workspace (srv w))
      (uri (TextDocumentPositionParams.text_document params)) in
  let jedi_lines :=
    jedi_utils.line_column (TextDocumentPositionParams.position params) in
  let answer :=
    jedi.help (jedi_utils.script (project (srv w)) document) jedi_lines.1
      (if (jedi_lines.2 =? 0)%Z then 1%Z else jedi_lines.2) in
  (forall e, answer = Raised e -> (hover params w).1 = Raised e)
  /\ (forall reply,
        (hover params w).1 = Returned reply ->
        exists names, answer = Returned names)
  /\ (forall names,
        answer = Returned names ->
        let text :=
          jedi_utils.hover_text names k (initialization_options (srv w)) in
        ((hover params w).1 = Returned None <-> text = None \/ text = Some "")
        /\ (forall reply,
              (hover params w).1 = Returned (Some reply) ->
              text = Some (value (Hover.contents reply))
              /\ value (Hover.contents reply) <> ""
              /\ kind (Hover.contents reply) = k
              /\ Hover.range reply
                 = pygls_utils.current_word_range document
                     (TextDocumentPositionParams.position params))).
Proof.
  intros Hmarkup document jedi_lines answer.
  rewrite hover_run. cbv zeta. rewrite Hmarkup. cbn [fst].
  fold document jedi_lines answer.
  split; [|split].
  - intros e ->. reflexivity.
  - intros reply. destruct answer as [names|e]; [eauto|discriminate].
  - intros names Hanswer. rewrite Hanswer.
    destruct (jedi_utils.hover_text names k _) as [[|c rest]|]; split.
    + split; [now right|reflexivity].
    + discriminate.
    + split; [discriminate|]. intros [H|H]; discriminate H.
    + intros reply [= <-]. cbn. easy.
    + split; [now left|reflexivity].
    + discriminate.
Qed.

(** X14. Every item of a completion reply is built with the same
    switches: snippets are enabled exactly when the client declares
    snippet support, the options do not disable snippets and the cursor
    is not in an import; the other switches are [resolve_eagerly] of the
    options and the character before the cursor. *)
Theorem completion_snippets (params : TextDocumentPositionParams.t)
    (w : World) (reply : CompletionList pygls.CompletionItem) :
  (completion params w).1 = Returned (Some reply) ->
  let options := initialization_options.completion (initialization_options (srv w)) in
  let document :=
    pygls.get_document (workspace (srv w))
      (uri (TextDocumentPositionParams.text_document params)) in
  let jedi_script := jedi_utils.script (project (srv w)) document in
  let jedi_lines :=
    jedi_utils.line_column (TextDocumentPositionParams.position params) in
  exists enable_snippets markup_kind width,
    (enable_snippets = true <->
     snippet_support (client_capabilities (srv w)) = Some true
     /\ initialization_options.disable_snippets options = false
     /\ jedi_utils.is_import jedi_script jedi_lines.1 jedi_lines.2 = false)
    /\ is_incomplete reply = false
    /\ Forall
         (fun item =>
            exists completion count,
              item =
              jedi_utils.lsp_completion_item completion
                (pygls_utils.char_before_cursor document
                   (TextDocumentPositionParams.position params))
                enable_snippets
                (initialization_options.resolve_eagerly options)
                markup_kind (sort_append_text width count))
         (items reply).
Proof.
  intros Hreply options document jedi_script jedi_lines.
  rewrite completion_run in Hreply. cbv zeta in Hreply.
  fold options document jedi_script jedi_lines in Hreply.
  destruct (markup_of w) as [k|e]; [|discriminate]. cbn [fst] in Hreply.
  match type of Hreply with
  | Returned (match ?l with _ => _ end) = _ =>
      assert (Hitems : items reply = l /\ is_incomplete reply = false)
        by (destruct l; [discriminate|injection Hreply as <-; split; reflexivity])
  end.
  destruct Hitems as [Hitems Hcomplete].
  do 3 eexists. split; [|split; [exact Hcomplete|]].
  2:{ rewrite Hitems. apply Forall_forall. intros item Hin.
      apply list_elem_of_lookup in Hin as [count Hcount].
      apply list_lookup_imap_Some in Hcount as (completion & _ & ->).
      exists completion, count. reflexivity. }
  unfold get_capability.
  destruct (snippet_support _) as [[|]|];
    destruct (initialization_options.disable_snippets options);
    destruct (jedi_utils.is_import _ _ _); cbn;
    split; try discriminate; try easy; intros (? & ? & ?); discriminate.
Qed.

(** X15. Which shape a documentSymbol reply has is the client's choice:
    hierarchical exactly when the client declares hierarchical support,
    and then it is what the helper makes of all names; flat otherwise,
    and then it holds, in order, the translations of the names that are
    not parameters. *)
Theorem document_symbol_shapes (params : TextDocumentParams) (w : World)
    (reply : document_symbols) :
  (document_symbol params w).1 = Returned (Some reply) ->
  let names :=
    jedi.get_names
      (jedi_utils.script (project (srv w))
         (pygls.get_document (workspace (srv w)) (uri (text_document params))))
      true true in
  let declared :=
    hierarchical_document_symbol_support (client_capabilities (srv w)) in
  match reply with
  | Hierarchical symbols =>
      declared = Some true /\ symbols = jedi_utils.lsp_document_symbols names
  | Flat symbols =>
      declared <> Some true
      /\ symbols =
         omap jedi_utils.lsp_symbol_information
           (List.filter (fun name => negb (String.eqb (jedi.type name) "param"))
              names)
      /\ Forall
           (fun symbol =>
              exists name,
                name ∈ names /\ jedi.type name <> "param"
                /\ jedi_utils.lsp_symbol_information name = Some symbol)
           symbols
  end.
Proof.
  intros Hreply names declared.
  rewrite document_symbol_outcome in Hreply. cbv zeta in Hreply.
  fold names declared in Hreply. unfold get_capability in Hreply.
  injection Hreply as Hreply.
  destruct declared as [[|]|]; destruct (or_none _) as [symbols|] eqn:Hsome;
    try discriminate; injection Hreply as <-;
    apply or_none_Some in Hsome as [Hsymbols _].
  - split; [reflexivity|now symmetry].
  - split; [discriminate|]. split; [now symmetry|].
    rewrite <- Hsymbols. apply Forall_forall. intros symbol Hin.
    apply list_elem_of_omap in Hin as (name & Hname & Hsym).
    apply list_elem_of_In, filter_In in Hname as [Hname Htype].
    exists name. split; [now apply list_elem_of_In|]. split; [|exact Hsym].
    intros Hparam. rewrite Hparam in Htype. discriminate.
  - split; [discriminate|]. split; [now symmetry|].
    rewrite <- Hsymbols. apply Forall_forall. intros symbol Hin.
    apply list_elem_of_omap in Hin as (name & Hname & Hsym).
    apply list_elem_of_In, filter_In in Hname as [Hname Htype].
    exists name. split; [now apply list_elem_of_In|]. split; [|exact Hsym].
    intros Hparam. rewrite Hparam in Htype. discriminate.
Qed.

(** ** How workspace symbols can fail *)

Lemma handle_all_root (msgs : list message) :
  (forall m u ws, pygls.root_path (pygls.text_sync m u ws) = pygls.root_path ws) ->
  forall w,
    pygls.root_path (workspace (srv (handle_all msgs w)))
    = pygls.root_path (workspace (srv w)).
Proof.
  intros Hsync. induction msgs as [|msg msgs IH]; intros w; [reflexivity|].
  change (handle_all (msg :: msgs) w) with (handle_all msgs (dispatch msg w).2).
  rewrite IH, dispatch_srv. cbn [workspace]. apply Hsync.
Qed.

(** X16. If the framework's text synchronisation leaves the root path of
    the workspace alone, then after initialization a workspace/symbol
    request, whatever came before, fails in one case only: the server
    has a project and [max_symbols] exceeds [sys.maxsize], where building
    the slice raises [ValueError].  In every other case it returns; the
    comparison of a module path with a missing root, which would raise
    [TypeError], cannot happen, because a project exists only with a
    root. *)
Theorem workspace_symbol_failures (params : pygls.InitializeParams)
    (result : pygls.InitializeResult) (w0 : World) :
  (forall m u ws, pygls.root_path (pygls.text_sync m u ws) = pygls.root_path ws) ->
  lsp_initialize params = Returned (result, w0) ->
  let max_symbols :=
    initialization_options.max_symbols
      (initialization_options.symbols
         (initialization_options.workspace (initialization_options (srv w0)))) in
  forall msgs request,
    let reply := (workspace_symbol request (handle_all msgs w0)).1 in
    (project (srv w0) <> None -> (maxsize < max_symbols)%Z ->
     reply = Raised ValueError)
    /\ (project (srv w0) = None \/ (max_symbols <= maxsize)%Z ->
        exists symbols, reply = Returned symbols)
    /\ (forall e, reply = Raised e -> e = ValueError).
Proof.
  intros Hsync Hinit max_symbols msgs request.
  destruct (lsp_initialize_inv _ _ _ Hinit)
    as (options & shown & _ & Hopt & Hproj & Hws & _).
  set (w := handle_all msgs w0).
  assert (Hroot : pygls.root_path (workspace (srv w))
                  = pygls.root_path (workspace (srv w0)))
    by apply (handle_all_root msgs Hsync).
  destruct (handle_all_srv msgs w0) as (Hoptions & Hproject & _).
  fold w in Hoptions, Hproject.
  assert (Hcases :
    (workspace_symbol request w).1 =
    match project (srv w0) with
    | None => Returned None
    | Some _ =>
        if (maxsize <? max_symbols)%Z then Raised ValueError
        else (workspace_symbol request w).1
    end
    /\ ((maxsize <? max_symbols)%Z = false \/ project (srv w0) = None ->
        exists symbols, (workspace_symbol request w).1 = Returned symbols)).
  { destruct (project (srv w)) as [the_project|] eqn:Hp; rewrite <- Hproject.
    - rewrite (workspace_symbol_run request w the_project Hp). cbv zeta.
      rewrite Hoptions. fold max_symbols.
      destruct (maxsize <? max_symbols)%Z eqn:Hmax.
      + split; [reflexivity|]. intros [H|H]; discriminate H.
      + split; [reflexivity|]. intros _. rewrite Hroot, Hws.
        rewrite Hproj in Hproject. unfold new_project in Hproject.
        destruct (pygls.root_path (pygls.lsp_initialize params).1.1) as [root|];
          [|discriminate Hproject].
        rewrite take_symbols_rooted. eauto.
    - assert (Hnone : (workspace_symbol request w).1 = Returned None).
      { unfold workspace_symbol, mbind, M_bind, bind, attr. cbn [fst snd].
        now rewrite Hp. }
      split; [exact Hnone|]. intros _. eauto. }
  destruct Hcases as [Hcase Hreturns]. cbv zeta. fold w.
  split; [|split].
  - intros Hsome Hmax. rewrite Hcase.
    destruct (project (srv w0)); [|contradiction].
    now replace (maxsize <? max_symbols)%Z with true
      by (symmetry; now apply Z.ltb_lt).
  - intros [Hnone|Hmax]; apply Hreturns; [now right|left].
    now apply Z.ltb_ge.
  - intros e He. destruct (maxsize <? max_symbols)%Z eqn:Hmax.
    + rewrite Hcase in He. destruct (project (srv w0)); congruence.
    + destruct (Hreturns (or_introl eq_refl)) as [symbols Hsymbols].
      congruence.
Qed.

(** ** Highlights *)

(** X17. A documentHighlight reply holds one highlight for every
    reference in the file that has a range, in the engine's order; it is
    sent as soon as there is one such reference, a single one included. *)
Theorem highlight_ranges (params : TextDocumentPositionParams.t) (w : World) :
  let names :=
    jedi.get_references
      (jedi_utils.script (project (srv w))
         (pygls.get_document (workspace (srv w))
            (uri (TextDocumentPositionParams.text_document params))))
      (jedi_utils.line_column (TextDocumentPositionParams.position params)).1
      (jedi_utils.line_column (TextDocumentPositionParams.position params)).2
      (Some "file") in
  (forall reply,
     (highlight params w).1 = Returned (Some reply) ->
     map DocumentHighlight.range reply = omap jedi_utils.lsp_range names
     /\ 1 <= length reply <= length names)
  /\ (forall name range,
        names = [name] -> jedi_utils.lsp_range name = Some range ->
        (highlight params w).1 = Returned (Some [DocumentHighlight.mk range])).
Proof.
  intros names.
  assert (Hranges : forall l : list jedi.Name,
            map DocumentHighlight.range
              (omap (fmap DocumentHighlight.mk) (map jedi_utils.lsp_range l))
            = omap jedi_utils.lsp_range l).
  { induction l as [|n l IH]; [reflexivity|].
    cbn [map omap list_omap]. destruct (jedi_utils.lsp_range n); cbn;
      now rewrite <- IH. }
  split.
  - intros reply. rewrite highlight_outcome. cbv zeta. fold names.
    intros [= Hreply]. apply or_none_Some in Hreply as [Hreply Hne].
    rewrite <- Hreply, Hranges. split; [reflexivity|].
    rewrite Hreply. split.
    + destruct reply; [contradiction|cbn; lia].
    + rewrite <- Hreply. rewrite <- (length_map DocumentHighlight.range), Hranges.
      clear. induction names as [|n l IH]; [reflexivity|].
      cbn [omap list_omap]. destruct (jedi_utils.lsp_range n); cbn; lia.
  - intros name range Hnames Hrange. rewrite highlight_outcome. cbv zeta.
    fold names. rewrite Hnames. cbn [map omap list_omap]. now rewrite Hrange.
Qed.

(** ** The edge of markup negotiation *)

(** X18. The markup kind chosen is always one of the formats the client
    declared, or [PlainText] for a client that declared none: a preferred
    kind the client does not support is never used.  The choice fails only
    for a client that declares an empty list of formats, and then with
    [IndexError]. *)
Theorem choose_markup_within_declared (w : World) :
  let supported :=
    get_capability (documentation_format (client_capabilities (srv w)))
      [PlainText] in
  (forall k, (_choose_markup w).1 = Returned k -> k ∈ supported)
  /\ (forall e,
        (_choose_markup w).1 = Raised e <->
        e = IndexError
        /\ documentation_format (client_capabilities (srv w)) = Some []).
Proof.
  intros supported.
  unfold _choose_markup, mbind, M_bind, bind, attr, lift. cbn [fst snd].
  fold supported.
  assert (Hfirst : forall k, subscript supported 0 = Returned k -> k ∈ supported).
  { unfold subscript. destruct supported as [|first rest]; [discriminate|].
    cbn. intros k [= <-]. apply list_elem_of_here. }
  assert (Hfail : forall e,
            subscript supported 0 = Raised e <->
            e = IndexError
            /\ documentation_format (client_capabilities (srv w)) = Some []).
  { intros e. unfold supported, get_capability, subscript.
    destruct (documentation_format _) as [[|first rest]|]; cbn; split;
      try discriminate; try (intros [_ H]; discriminate H);
      [intros [= <-]; easy | intros [-> _]; reflexivity]. }
  split.
  - intros k.
    destruct (initialization_options.markup_kind_preferred _) as [preferred|];
      [|apply Hfirst].
    unfold elem. destruct (bool_decide (preferred ∈ supported)) eqn:Hin.
    + intros [= <-]. now apply bool_decide_eq_true in Hin.
    + apply Hfirst.
  - intros e.
    destruct (initialization_options.markup_kind_preferred _) as [preferred|];
      [|apply Hfail].
    unfold elem. destruct (bool_decide (preferred ∈ supported)) eqn:Hin;
      [|apply Hfail].
    split; [discriminate|]. intros [_ Hempty].
    apply bool_decide_eq_true in Hin. unfold supported in Hin.
    rewrite Hempty in Hin. inversion Hin.
Qed.


(** ** Replies made of locations *)

Lemma omap_origin {A B} (f : A -> option B) (names : list A) :
  Forall (fun y => exists x, x ∈ names /\ f x = Some y) (omap f names)
  /\ length (omap f names) <= length names.
Proof.
  induction names as [|x names [IHall IHlength]];
    [split; [constructor|reflexivity]|].
  cbn [omap list_omap]. destruct (f x) as [y|] eqn:Hx; cbn [option_bind length].
  - split; [|cbn; lia]. constructor.
    + exists x. split; [apply list_elem_of_here|exact Hx].
    + eapply Forall_impl; [exact IHall|]. intros y' (x' & Hin & Hx').
      exists x'. split; [now apply list_elem_of_further|exact Hx'].
  - split; [|cbn; lia]. eapply Forall_impl; [exact IHall|].
    intros y' (x' & Hin & Hx'). exists x'.
    split; [now apply list_elem_of_further|exact Hx'].
Qed.

(** X20. definition, typeDefinition and references each put one
    question to the engine at the converted position: goto (following
    imports, builtin ones included), infer, and get_references without a
    scope.  A reply holds, in the engine's order, the locations of the
    names that have one; names without a location are dropped, so every
    location of the reply is that of a name the engine returned. *)
Theorem location_replies (params : TextDocumentPositionParams.t) (w : World) :
  let jedi_script :=
    jedi_utils.script (project (srv w))
      (pygls.get_document (workspace (srv w))
         (uri (TextDocumentPositionParams.text_document params))) in
  let jedi_lines :=
    jedi_utils.line_column (TextDocumentPositionParams.position params) in
  let made_of (reply : list pygls.Location) (names : list jedi.Name) :=
    reply = omap jedi_utils.lsp_location names
    /\ 1 <= length reply <= length names
    /\ Forall
         (fun location =>
            exists name,
              name ∈ names /\ jedi_utils.lsp_location name = Some location)
         reply in
  (engine_queries (new_events w (definition params w).2)
   = [QGoto jedi_script jedi_lines.1 jedi_lines.2]
   /\ forall reply,
        (definition params w).1 = Returned (Some reply) ->
        made_of reply (jedi.goto jedi_script jedi_lines.1 jedi_lines.2 true true))
  /\ (engine_queries (new_events w (type_definition params w).2)
      = [QInfer jedi_script jedi_lines.1 jedi_lines.2]
      /\ forall reply,
           (type_definition params w).1 = Returned (Some reply) ->
           made_of reply (jedi.infer jedi_script jedi_lines.1 jedi_lines.2))
  /\ (engine_queries (new_events w (references params w).2)
      = [QGetReferences jedi_script jedi_lines.1 jedi_lines.2 None]
      /\ forall reply,
           (references params w).1 = Returned (Some reply) ->
           made_of reply
             (jedi.get_references jedi_script jedi_lines.1 jedi_lines.2 None)).
Proof.
  intros jedi_script jedi_lines made_of.
  assert (Hmade : forall names reply,
            or_none (omap jedi_utils.lsp_location names) = Some reply ->
            made_of reply names).
  { intros names reply Hreply. apply or_none_Some in Hreply as [Hreply Hne].
    destruct (omap_origin jedi_utils.lsp_location names) as [Hall Hlength].
    rewrite Hreply in Hall, Hlength. unfold made_of.
    split; [now rewrite Hreply|]. split; [|exact Hall].
    split; [|exact Hlength]. destruct reply; [contradiction|cbn; lia]. }
  assert (Hone : forall (s : JediLanguageServer) (q : engine_query),
            engine_queries (new_events w (mkWorld s (trace w ++ [Engine q])))
            = [q]).
  { intros s q. now rewrite new_events_app. }
  split; [|split]; (split; [apply Hone|]); intros reply.
  - rewrite definition_outcome. cbv zeta. intros [= Hreply]. now apply Hmade.
  - rewrite type_definition_outcome. cbv zeta. intros [= Hreply]. now apply Hmade.
  - rewrite references_outcome. cbv zeta. intros [= Hreply]. now apply Hmade.
Qed.

End further_properties.

(** * The further properties on the concrete clients and engines *)

Section further_witnesses.

Import Py lsp server.

#[local] Existing Instances
  demo.re_api demo.json_api demo.options_api demo.jedi_api demo.pygls_api
  demo.jedi_utils_api demo.pygls_utils_api demo.text_edit_utils_api.

Lemma _ignore_folder_spec_witness :
  ".venv" ∈ ["__pycache__"; ".venv"]
  /\ "/w/.venv/lib/site.py" = ("/w" ++ ("/" ++ ".venv" ++ "/") ++ "lib/site.py")%string
  /\ _ignore_folder "/w/.venv/lib/site.py" ["__pycache__"; ".venv"] = true.
Proof.
  assert (Hin : ".venv" ∈ ["__pycache__"; ".venv"]) by (repeat constructor).
  split; [exact Hin|]. split; [reflexivity|].
  apply (proj1 (_ignore_folder_spec "/w/.venv/lib/site.py"
                  ["__pycache__"; ".venv"])).
  exists ".venv", "/w", "lib/site.py". split; [exact Hin|reflexivity].
Defined.

Lemma sort_append_text_decodes_witness :
  sort_append_text 3 7 = sort_append_text 3 (3 + 4)
  /\ sort_append_text 3 7 = "007"
  /\ decimal_value "007" = Some 7
  /\ String.length "007" = Nat.max 3 (String.length (str 7)).
Proof.
  destruct (sort_append_text_decodes 3 7) as (Hvalue & Hother & Hlength).
  assert (Hsame : sort_append_text 3 7 = sort_append_text 3 (3 + 4))
    by reflexivity.
  pose proof (Hother (3 + 4) Hsame) as _.
  split; [exact Hsame|]. split; [reflexivity|].
  split; [exact Hvalue|exact Hlength].
Defined.

Lemma completion_ignore_patterns_witness :
  (completion (demo.at_ "a.py" 0 0) (demo.after demo.init_quiet)).1
  = Returned (Some (mkCompletionList false [("alpha", "0"); ("gamma", "1")]))
  /\ unignored_completions ["_"] ["alpha"; "_beta"; "gamma"]
     = List.filter (fun comp => forallb (fun i => negb (String.prefix i comp)) ["_"])
         ["alpha"; "_beta"; "gamma"]
  /\ length [("alpha", "0"); ("gamma", "1")]
     = length (List.filter
                 (fun comp => forallb (fun i => negb (String.prefix i comp)) ["_"])
                 ["alpha"; "_beta"; "gamma"]).
Proof.
  assert (Hreply :
            (completion (demo.at_ "a.py" 0 0) (demo.after demo.init_quiet)).1
            = Returned
                (Some (mkCompletionList false [("alpha", "0"); ("gamma", "1")])))
    by (vm_compute; reflexivity).
  destruct (completion_ignore_patterns (PYGLS:=demo.pygls_api)
              (demo.at_ "a.py" 0 0) (demo.after demo.init_quiet) _ Hreply)
    as (Hfilter & Hlength & _).
  split; [exact Hreply|]. split; [exact Hfilter|exact Hlength].
Defined.

Lemma workspace_symbol_with_root_witness :
  lsp_initialize demo.init_default = Returned (tt, demo.after demo.init_default)
  /\ pygls.root_path (pygls.lsp_initialize demo.init_default).1.1 = Some "/w"
  /\ "/w" <> ""
  /\ project (srv (demo.after demo.init_default))
     = Some (jedi.mkProject "/w" None [] true false)
  /\ engine_queries
       (new_events
          (handle_all [m_did_open (demo.doc "a.py")] (demo.after demo.init_default))
          (workspace_symbol (mkWorkspaceSymbolParams "lo")
             (handle_all [m_did_open (demo.doc "a.py")]
                (demo.after demo.init_default))).2)
     = [QCompleteSearch (jedi.mkProject "/w" None [] true false) "lo"].
Proof.
  assert (Hinit : lsp_initialize demo.init_default
                  = Returned (tt, demo.after demo.init_default))
    by (vm_compute; reflexivity).
  assert (Hroot : pygls.root_path (pygls.lsp_initialize demo.init_default).1.1
                  = Some "/w") by reflexivity.
  assert (Hne : "/w" <> "") by discriminate.
  destruct (workspace_symbol_with_root (PYGLS:=demo.pygls_api) demo.init_default
              tt (demo.after demo.init_default) "/w" Hinit Hroot Hne)
    as (Hproject & Hqueries).
  split; [exact Hinit|]. split; [exact Hroot|]. split; [exact Hne|].
  split; [exact Hproject|].
  exact (Hqueries [m_did_open (demo.doc "a.py")] (mkWorkspaceSymbolParams "lo")).
Defined.

Lemma signature_help_shape_witness :
  (signature_help (demo.at_ "a.py" 0 0) (demo.after demo.init_default)).1
  = Returned
      (Some (mkSignatureHelp
               [SignatureInformation.mk "f(x)" (mkMarkupContent PlainText "f(x)")
                  [mkParameterInformation "f(x)"]]
               0 (Some 0)))
  /\ map SignatureInformation.label
       [SignatureInformation.mk "f(x)" (mkMarkupContent PlainText "f(x)")
          [mkParameterInformation "f(x)"]]
     = map (fun s : string => s) ["f(x)"].
Proof.
  assert (Hreply :
            (signature_help (demo.at_ "a.py" 0 0) (demo.after demo.init_default)).1
            = Returned
                (Some (mkSignatureHelp
                         [SignatureInformation.mk "f(x)"
                            (mkMarkupContent PlainText "f(x)")
                            [mkParameterInformation "f(x)"]]
                         0 (Some 0))))
    by (vm_compute; reflexivity).
  destruct (signature_help_shape (PYGLS:=demo.pygls_api)
              (demo.at_ "a.py" 0 0) (demo.after demo.init_default) _ Hreply)
    as (_ & Hlabels & _).
  split; [exact Hreply|exact Hlabels].
Defined.

Lemma completion_snippets_witness :
  (completion (demo.at_ "a.py" 0 0) (demo.after demo.init_default)).1
  = Returned
      (Some (mkCompletionList false
               [("alpha", "0"); ("_beta", "1"); ("gamma", "2")]))
  /\ exists enable_snippets markup_kind width,
       (enable_snippets = true <-> Some true = Some true /\ false = false /\ false = false)
       /\ false = false
       /\ Forall
            (fun item =>
               exists completion count,
                 item =
                 jedi_utils.lsp_completion_item completion None enable_snippets
                   false markup_kind (sort_append_text width count))
            [("alpha", "0"); ("_beta", "1"); ("gamma", "2")].
Proof.
  assert (Hreply :
            (completion (demo.at_ "a.py" 0 0) (demo.after demo.init_default)).1
            = Returned
                (Some (mkCompletionList false
                         [("alpha", "0"); ("_beta", "1"); ("gamma", "2")])))
    by (vm_compute; reflexivity).
  split; [exact Hreply|].
  exact (completion_snippets (PYGLS:=demo.pygls_api) (demo.at_ "a.py" 0 0)
           (demo.after demo.init_default) _ Hreply).
Defined.

Lemma document_symbol_shapes_witness :
  (document_symbol (demo.doc "a.py") (demo.after demo.init_default)).1
  = Returned
      (Some (Flat [("load", "/w/pkg/io.py"); ("load", "/w/.venv/lib/site.py");
                   ("loads", "/usr/lib/python3/json.py");
                   ("Loader", "/w/pkg/loader.py")]))
  /\ hierarchical_document_symbol_support
       (client_capabilities (srv (demo.after demo.init_default))) <> Some true.
Proof.
  assert (Hreply :
            (document_symbol (demo.doc "a.py") (demo.after demo.init_default)).1
            = Returned
                (Some (Flat [("load", "/w/pkg/io.py");
                             ("load", "/w/.venv/lib/site.py");
                             ("loads", "/usr/lib/python3/json.py");
                             ("Loader", "/w/pkg/loader.py")])))
    by (vm_compute; reflexivity).
  split; [exact Hreply|].
  exact (proj1 (document_symbol_shapes (PYGLS:=demo.pygls_api) (demo.doc "a.py")
                  (demo.after demo.init_default) _ Hreply)).
Defined.

Lemma choose_markup_within_declared_witness :
  (_choose_markup (demo.after demo.init_quiet)).1 = Returned Markdown
  /\ Markdown ∈ [PlainText; Markdown].
Proof.
  assert (Hkind : (_choose_markup (demo.after demo.init_quiet)).1
                  = Returned Markdown) by (vm_compute; reflexivity).
  split; [exact Hkind|].
  exact (proj1 (choose_markup_within_declared (PYGLS:=demo.pygls_api)
                  (demo.after demo.init_quiet)) Markdown Hkind).
Defined.

Lemma location_replies_witness :
  (definition (demo.at_ "a.py" 0 0) (demo.after demo.init_default)).1
  = Returned
      (Some ["/w/pkg/io.py"; "/w/.venv/lib/site.py"; "/usr/lib/python3/json.py";
             "/w/pkg/loader.py"])
  /\ ["/w/pkg/io.py"; "/w/.venv/lib/site.py"; "/usr/lib/python3/json.py";
      "/w/pkg/loader.py"]
     = omap demo.name_module_path demo.found.
Proof.
  assert (Hreply :
            (definition (demo.at_ "a.py" 0 0) (demo.after demo.init_default)).1
            = Returned
                (Some ["/w/pkg/io.py"; "/w/.venv/lib/site.py";
                       "/usr/lib/python3/json.py"; "/w/pkg/loader.py"]))
    by (vm_compute; reflexivity).
  split; [exact Hreply|].
  destruct (location_replies (PYGLS:=demo.pygls_api) (demo.at_ "a.py" 0 0)
              (demo.after demo.init_default)) as ((_ & Hdefinition) & _).
  exact (proj1 (Hdefinition _ Hreply)).
Defined.

End further_witnesses.

(** * The further properties on the second client and engine *)

Section faulty_witnesses.

Import Py lsp server.

#[local] Existing Instances
  demo.re_api demo.json_api faulty.options_api faulty.jedi_api demo.pygls_api
  faulty.jedi_utils_api demo.pygls_utils_api faulty.text_edit_utils_api.

Lemma features_after_initialize_witness :
  lsp_initialize faulty.init_silent = Returned (tt, faulty.after faulty.init_silent)
  /\ features
       (srv (handle_all [m_did_open (demo.doc "a.py")]
               (faulty.after faulty.init_silent))) !! TEXT_DOCUMENT_DID_SAVE
     = Some fn.did_save_default
  /\ features
       (srv (handle_all [m_did_open (demo.doc "a.py")]
               (faulty.after faulty.init_silent))) !! HOVER
     = None
  /\ features
       (srv (handle_all [m_did_open (demo.doc "a.py")]
               (faulty.after faulty.init_silent))) !! RENAME
     = Some fn.rename.
Proof.
  assert (Hinit : lsp_initialize faulty.init_silent
                  = Returned (tt, faulty.after faulty.init_silent))
    by (vm_compute; reflexivity).
  pose proof (features_after_initialize (PYGLS:=demo.pygls_api)
                faulty.init_silent tt (faulty.after faulty.init_silent) Hinit
                [m_did_open (demo.doc "a.py")]) as H.
  split; [exact Hinit|]. split; [|split].
  - exact (proj1 (H (m_did_save (demo.doc "a.py")))).
  - exact (proj1 (H (m_hover (demo.at_ "a.py" 0 0)))).
  - exact (proj1 (H (m_rename (RenameParams.mk (mkTextDocument "a.py")
                                 (mkPosition 0 0) "x")))).
Defined.

Lemma diagnostics_disabled_for_good_witness :
  lsp_initialize faulty.init_silent = Returned (tt, faulty.after faulty.init_silent)
  /\ initialization_options.enable
       (initialization_options.diagnostics
          (initialization_options (srv (faulty.after faulty.init_silent))))
     = false
  /\ publications
       (new_events (faulty.after faulty.init_silent)
          (handle_all
             [m_did_open (demo.doc "a.py"); m_did_change (demo.doc "a.py");
              m_did_save (demo.doc "a.py"); m_completion (demo.at_ "a.py" 0 0);
              m_did_close (demo.doc "a.py")]
             (faulty.after faulty.init_silent)))
     = [].
Proof.
  assert (Hinit : lsp_initialize faulty.init_silent
                  = Returned (tt, faulty.after faulty.init_silent))
    by (vm_compute; reflexivity).
  assert (Hoff : initialization_options.enable
                   (initialization_options.diagnostics
                      (initialization_options
                         (srv (faulty.after faulty.init_silent))))
                 = false) by reflexivity.
  split; [exact Hinit|]. split; [exact Hoff|].
  exact (proj2 (diagnostics_disabled_for_good (PYGLS:=demo.pygls_api)
                  faulty.init_silent tt (faulty.after faulty.init_silent)
                  Hinit Hoff _)).
Defined.

Lemma valid_options_adopted_witness :
  (initialization_options.parse_obj (options_object faulty.init_silent)
   = Returned faulty.silent_options
   /\ exists w0,
        lsp_initialize faulty.init_silent = Returned (tt, w0)
        /\ initialization_options (srv w0) = faulty.silent_options
        /\ trace w0 = [SetJediSettings faulty.silent_options])
  /\ initialization_options.parse_obj (options_object faulty.init_malformed)
     = Raised (Exception "unexpected keyword")
  /\ (forall text, Exception "unexpected keyword" <> ValidationError text)
  /\ lsp_initialize faulty.init_malformed = Raised (Exception "unexpected keyword").
Proof.
  assert (Hvalid : initialization_options.parse_obj
                     (options_object faulty.init_silent)
                   = Returned faulty.silent_options) by reflexivity.
  assert (Hraised : initialization_options.parse_obj
                      (options_object faulty.init_malformed)
                    = Raised (Exception "unexpected keyword")) by reflexivity.
  assert (Hother : forall text,
            Exception "unexpected keyword" <> ValidationError text)
    by discriminate.
  split; [split; [exact Hvalid|]|split; [exact Hraised|split; [exact Hother|]]].
  - exact (proj1 (valid_options_adopted (PYGLS:=demo.pygls_api)
                    faulty.init_silent) _ Hvalid).
  - exact (proj2 (valid_options_adopted (PYGLS:=demo.pygls_api)
                    faulty.init_malformed) _ Hraised Hother).
Defined.

Lemma code_action_several_lines_witness :
  lsp.line (start (CodeActionParams.range (faulty.lines "b.py" 2 3)))
  <> lsp.line (end_ (CodeActionParams.range (faulty.lines "b.py" 2 3)))
  /\ (code_action (faulty.lines "b.py" 2 3) (faulty.after demo.init_default)).1
     = Returned
         (Some [mkCodeAction "Extract expression into variable 'jls_extract_var'"
                  RefactorExtract (mkWorkspaceEdit ["jls_extract_var"]);
                mkCodeAction "Extract expression into function 'jls_extract_def'"
                  RefactorExtract (mkWorkspaceEdit ["jls_extract_def"])])
  /\ Forall (fun a => action_kind a = RefactorExtract /\ title a <> inline_title)
       [mkCodeAction "Extract expression into variable 'jls_extract_var'"
          RefactorExtract (mkWorkspaceEdit ["jls_extract_var"]);
        mkCodeAction "Extract expression into function 'jls_extract_def'"
          RefactorExtract (mkWorkspaceEdit ["jls_extract_def"])].
Proof.
  assert (Hlines :
            lsp.line (start (CodeActionParams.range (faulty.lines "b.py" 2 3)))
            <> lsp.line (end_ (CodeActionParams.range (faulty.lines "b.py" 2 3))))
    by discriminate.
  assert (Hreply :
            (code_action (faulty.lines "b.py" 2 3)
               (faulty.after demo.init_default)).1
            = Returned
                (Some [mkCodeAction
                         "Extract expression into variable 'jls_extract_var'"
                         RefactorExtract (mkWorkspaceEdit ["jls_extract_var"]);
                       mkCodeAction
                         "Extract expression into function 'jls_extract_def'"
                         RefactorExtract (mkWorkspaceEdit ["jls_extract_def"])]))
    by (vm_compute; reflexivity).
  split; [exact Hlines|]. split; [exact Hreply|].
  exact (proj2 (code_action_several_lines (PYGLS:=demo.pygls_api)
                  (faulty.lines "b.py" 2 3) (faulty.after demo.init_default)
                  Hlines) _ Hreply).
Defined.

Lemma refactoring_exceptions_witness :
  (Exception "engine failure" <> RefactoringError
   /\ (rename (RenameParams.mk (mkTextDocument "a.py") (mkPosition 0 0) "x")
         (faulty.after demo.init_default)).1
      = Raised (Exception "engine failure"))
  /\ (not_applicable AttributeError = true
      /\ (code_action (demo.on_line "a.py" 2) (faulty.after demo.init_default)).1
         <> Raised AttributeError)
  /\ (not_applicable (Exception "engine failure") = false
      /\ (code_action (demo.on_line "x.py" 2) (faulty.after demo.init_default)).1
         = Raised (Exception "engine failure")
      /\ engine_queries
           (new_events (faulty.after demo.init_default)
              (code_action (demo.on_line "x.py" 2)
                 (faulty.after demo.init_default)).2)
         = [QInline "x.py" 3 0]).
Proof.
  destruct (refactoring_exceptions (PYGLS:=demo.pygls_api)
              (faulty.after demo.init_default))
    as (Hrename & Hswallowed & Hinline).
  assert (Hother : Exception "engine failure" <> RefactoringError)
    by discriminate.
  assert (Hcaught : not_applicable AttributeError = true) by reflexivity.
  assert (Huncaught : not_applicable (Exception "engine failure") = false)
    by reflexivity.
  split; [split; [exact Hother|]|split; [split; [exact Hcaught|]|split; [exact Huncaught|]]].
  - exact (Hrename (RenameParams.mk (mkTextDocument "a.py") (mkPosition 0 0) "x")
             _ eq_refl Hother).
  - exact (Hswallowed (demo.on_line "a.py" 2) _ Hcaught).
  - exact (Hinline (demo.on_line "x.py" 2) _ eq_refl eq_refl Huncaught).
Defined.

Lemma code_action_reply_shape_witness :
  (code_action (demo.on_line "b.py" 2) (faulty.after demo.init_default)).1
  = Returned
      (Some [mkCodeAction "Inline variable" RefactorInline
               (mkWorkspaceEdit ["inline"]);
             mkCodeAction "Extract expression into variable 'jls_extract_var'"
               RefactorExtract (mkWorkspaceEdit ["jls_extract_var"]);
             mkCodeAction "Extract expression into function 'jls_extract_def'"
               RefactorExtract (mkWorkspaceEdit ["jls_extract_def"])])
  /\ NoDup ["Inline variable";
            "Extract expression into variable 'jls_extract_var'";
            "Extract expression into function 'jls_extract_def'"].
Proof.
  assert (Hreply :
            (code_action (demo.on_line "b.py" 2) (faulty.after demo.init_default)).1
            = Returned
                (Some [mkCodeAction "Inline variable" RefactorInline
                         (mkWorkspaceEdit ["inline"]);
                       mkCodeAction
                         "Extract expression into variable 'jls_extract_var'"
                         RefactorExtract (mkWorkspaceEdit ["jls_extract_var"]);
                       mkCodeAction
                         "Extract expression into function 'jls_extract_def'"
                         RefactorExtract (mkWorkspaceEdit ["jls_extract_def"])]))
    by (vm_compute; reflexivity).
  split; [exact Hreply|].
  destruct (code_action_reply_shape (PYGLS:=demo.pygls_api)
              (demo.on_line "b.py" 2) (faulty.after demo.init_default) _ Hreply)
    as (_ & Htitles & _).
  exact Htitles.
Defined.

Lemma highlight_ranges_witness :
  jedi.get_references "b.py" 1%Z 0%Z (Some "file")
  = [demo.mkName "load" "function" (Some "/w/pkg/io.py")]
  /\ jedi_utils.lsp_range (demo.mkName "load" "function" (Some "/w/pkg/io.py"))
     = Some (mkRange (mkPosition 0 0) (mkPosition 0 1))
  /\ (highlight (demo.at_ "b.py" 0 0) (faulty.after demo.init_default)).1
     = Returned
         (Some [DocumentHighlight.mk (mkRange (mkPosition 0 0) (mkPosition 0 1))]).
Proof.
  assert (Hnames : jedi.get_references "b.py" 1%Z 0%Z (Some "file")
                   = [demo.mkName "load" "function" (Some "/w/pkg/io.py")])
    by reflexivity.
  assert (Hrange : jedi_utils.lsp_range
                     (demo.mkName "load" "function" (Some "/w/pkg/io.py"))
                   = Some (mkRange (mkPosition 0 0) (mkPosition 0 1)))
    by reflexivity.
  split; [exact Hnames|]. split; [exact Hrange|].
  exact (proj2 (highlight_ranges (PYGLS:=demo.pygls_api) (demo.at_ "b.py" 0 0)
                  (faulty.after demo.init_default)) _ _ Hnames Hrange).
Defined.


Lemma hover_contents_witness :
  markup_of (faulty.after demo.init_default) = Returned PlainText
  /\ jedi.help "e.py" 1%Z 1%Z = Raised ValueError
  /\ (hover (demo.at_ "e.py" 0 0) (faulty.after demo.init_default)).1
     = Raised ValueError
  /\ jedi.help "b.py" 1%Z 1%Z = Returned []
  /\ (hover (demo.at_ "b.py" 0 0) (faulty.after demo.init_default)).1
     = Returned None
  /\ jedi.help "a.py" 1%Z 1%Z = Returned demo.found
  /\ (hover (demo.at_ "a.py" 0 0) (faulty.after demo.init_default)).1
     = Returned (Some (Hover.mk (mkMarkupContent PlainText "load") None))
  /\ kind (Hover.contents (Hover.mk (mkMarkupContent PlainText "load") None))
     = PlainText.
Proof.
  assert (Hkind : markup_of (faulty.after demo.init_default) = Returned PlainText)
    by (vm_compute; reflexivity).
  assert (Hfails : jedi.help "e.py" 1%Z 1%Z = Raised ValueError) by reflexivity.
  assert (Hnothing : jedi.help "b.py" 1%Z 1%Z = Returned []) by reflexivity.
  assert (Hfound : jedi.help "a.py" 1%Z 1%Z = Returned demo.found)
    by reflexivity.
  assert (Hreply :
            (hover (demo.at_ "a.py" 0 0) (faulty.after demo.init_default)).1
            = Returned (Some (Hover.mk (mkMarkupContent PlainText "load") None)))
    by (vm_compute; reflexivity).
  pose proof (fun params =>
                hover_contents (PYGLS:=demo.pygls_api) params
                  (faulty.after demo.init_default) PlainText Hkind) as H.
  split; [exact Hkind|]. split; [exact Hfails|]. split; [|split; [exact Hnothing|]].
  - exact (proj1 (H (demo.at_ "e.py" 0 0)) _ Hfails).
  - split; [|split; [exact Hfound|split; [exact Hreply|]]].
    + apply (proj1 (proj2 (proj2 (H (demo.at_ "b.py" 0 0))) _ Hnothing)).
      left. reflexivity.
    + destruct (proj2 (proj2 (proj2 (H (demo.at_ "a.py" 0 0))) _ Hfound) _ Hreply)
        as (_ & _ & Hmarkup & _).
      exact Hmarkup.
Defined.

Lemma workspace_symbol_failures_witness :
  (forall m u ws,
     pygls.root_path (pygls.text_sync m u ws) = pygls.root_path ws)
  /\ (lsp_initialize demo.init_default
      = Returned (tt, faulty.after demo.init_default)
      /\ exists symbols,
           (workspace_symbol (mkWorkspaceSymbolParams "lo")
              (handle_all [m_did_open (demo.doc "a.py")]
                 (faulty.after demo.init_default))).1
           = Returned symbols)
  /\ (lsp_initialize faulty.init_silent
      = Returned (tt, faulty.after faulty.init_silent)
      /\ project (srv (faulty.after faulty.init_silent)) <> None
      /\ (maxsize < 2 ^ 63)%Z
      /\ (workspace_symbol (mkWorkspaceSymbolParams "lo")
            (handle_all [m_did_open (demo.doc "a.py")]
               (faulty.after faulty.init_silent))).1
         = Raised ValueError).
Proof.
  assert (Hsync : forall m u ws,
            pygls.root_path (pygls.text_sync m u ws) = pygls.root_path ws)
    by reflexivity.
  assert (Hdefault : lsp_initialize demo.init_default
                     = Returned (tt, faulty.after demo.init_default))
    by (vm_compute; reflexivity).
  assert (Hsilent : lsp_initialize faulty.init_silent
                    = Returned (tt, faulty.after faulty.init_silent))
    by (vm_compute; reflexivity).
  assert (Hproject : project (srv (faulty.after faulty.init_silent)) <> None)
    by (vm_compute; discriminate).
  assert (Hhuge : (maxsize < 2 ^ 63)%Z) by (vm_compute; reflexivity).
  split; [exact Hsync|]. split; (split; [assumption|]).
  - apply (proj1 (proj2 (workspace_symbol_failures (PYGLS:=demo.pygls_api)
                           demo.init_default tt (faulty.after demo.init_default)
                           Hsync Hdefault [m_did_open (demo.doc "a.py")]
                           (mkWorkspaceSymbolParams "lo")))).
    right. vm_compute. discriminate.
  - split; [exact Hproject|]. split; [exact Hhuge|].
    exact (proj1 (workspace_symbol_failures (PYGLS:=demo.pygls_api)
                    faulty.init_silent tt (faulty.after faulty.init_silent)
                    Hsync Hsilent [m_did_open (demo.doc "a.py")]
                    (mkWorkspaceSymbolParams "lo")) Hproject Hhuge).
Defined.


End faulty_witnesses.
